(** * Template and settings core of the FNSKU label extension

    A shallow embedding of the three service classes of the extension,
    [TemplateManager], [SettingsManager] and [PDFLabelGenerator], and the
    properties of their contracts.

    JavaScript objects that the code treats as open dictionaries (template
    data, global settings, the template collections) are finite maps from
    property names to values; objects with a fixed shape are records.
    Asynchronous methods become state-passing functions: every call takes
    the state of the service and of its environment (the storage backend,
    the pending timers, the events emitted so far) and returns the
    completion of the call together with the new state.  What a call reads
    from the outside world (the clock, the random source, whether a backend
    request succeeds) is an explicit argument. *)

From Stdlib Require Import QArith Qround.
From stdpp Require Import gmap strings list fin_maps pretty.

Set Warnings "-register-all".
Local Open Scope string_scope.

(** ** JavaScript values and the operators the code uses on them *)

Module JS.

(** Numbers are rationals plus [NaN]: every finite double is one of them,
    infinities and the sign of zero are not represented, and arithmetic is
    exact, as it is in the code on integers up to 2^53.  A string is the
    sequence of the bytes of its UTF-8 form; on an ASCII string
    ([is_ascii]) each byte is one UTF-16 code unit of the string of the
    code, so that lengths and indices agree.  An object is the finite
    map of its own properties.  The members that an object inherits from
    [Object.prototype] are found by [lookup_member], with which the
    collections are read; [prop] and [get] read own properties, and are
    used under the fixed names of the code, none of which names a member
    of a prototype other than [length]. *)
Inductive value : Type :=
| VUndefined
| VNull
| VBool (b : bool)
| VNumber (q : Q)
| VNaN
| VString (s : string)
| VObject (fields : gmap string value).

Abbreviation obj := (gmap string value).

(** Object and number literals. *)
Definition object (l : list (string * value)) : value := VObject (list_to_map l).
Definition num (z : Z) : value := VNumber (inject_Z z).
Definition frac (n : Z) (d : positive) : value := VNumber (n # d).

(** Completion of a call: a normal return or a thrown exception. *)
Inductive exn : Type :=
| Error (message : string)
| TypeError.

Inductive outcome (A : Type) : Type :=
| Return (a : A)
| Throw (e : exn).
Arguments Return {A} a.
Arguments Throw {A} e.

#[global] Instance outcome_ret : MRet outcome := fun A a => Return a.
#[global] Instance outcome_bind : MBind outcome := fun A B k m =>
  match m with
  | Return a => k a
  | Throw e => Throw e
  end.

(** Completion of a request to [chrome.storage.sync]. *)
Inductive response : Type :=
| Fulfilled
| Rejected (e : exn).

(** [!!v] *)
Definition truthy (v : value) : bool :=
  match v with
  | VUndefined | VNull | VNaN => false
  | VBool b => b
  | VNumber q => negb (Qeq_bool q 0)
  | VString s => negb (String.eqb s EmptyString)
  | VObject _ => true
  end.

(** [typeof v] *)
Definition typeof (v : value) : string :=
  match v with
  | VUndefined => "undefined"
  | VNull => "object"
  | VBool _ => "boolean"
  | VNumber _ | VNaN => "number"
  | VString _ => "string"
  | VObject _ => "object"
  end.

(** [typeof v === t] *)
Definition is_type (v : value) (t : string) : bool := String.eqb (typeof v) t.

(** The test [!v || typeof v !== 'object'] fails on objects only. *)
Lemma object_test v :
  negb (truthy v) || negb (is_type v "object") = false → ∃ fields, v = VObject fields.
Proof.
  destruct v; simpl; rewrite ?orb_true_r; try discriminate. by eexists.
Qed.

(** [a || b] on values. *)
Definition or_else (a b : value) : value := if truthy a then a else b.
Infix "|||" := or_else (at level 50, left associativity).

(** [o.k] on an object given by its property map: a missing property reads
    as [undefined]. *)
Definition prop (o : obj) (k : string) : value := default VUndefined (o !! k).

(** The own enumerable properties of a string: one per index. *)
Definition string_props (s : string) : obj :=
  list_to_map
    (imap (fun i c => (pretty i, VString (String c EmptyString)))
          (String.list_ascii_of_string s)).

(** The own enumerable properties that [{...v}] and [Object.entries(v)]
    enumerate; [undefined] and [null] have none. *)
Definition own_props (v : value) : obj :=
  match v with
  | VObject m => m
  | VString s => string_props s
  | _ => ∅
  end.

(** [v.k] under a fixed name [k]: reading a property of [undefined] or
    [null] throws.  The length of a string is the number of its characters,
    which on an ASCII string is the number of its code units. *)
Definition get (v : value) (k : string) : outcome value :=
  match v with
  | VUndefined | VNull => Throw TypeError
  | VObject m => Return (prop m k)
  | VString s =>
      if String.eqb k "length" then Return (VNumber (inject_Z (Z.of_nat (String.length s))))
      else Return (prop (string_props s) k)
  | _ => Return VUndefined
  end.

(** [v?.k] *)
Definition get_opt (v : value) (k : string) : value :=
  match get v k with
  | Return x => x
  | Throw _ => VUndefined
  end.

(** [v === undefined || v === null] *)
Definition is_nullish (v : value) : bool :=
  match v with VUndefined | VNull => true | _ => false end.

Lemma get_Return v k : is_nullish v = false → get v k = Return (get_opt v k).
Proof.
  unfold get_opt. destruct v; simpl; try discriminate; try done.
  by destruct (String.eqb k "length").
Qed.

(** The names of the members of [Object.prototype], which every object
    inherits: eleven functions and the accessor [__proto__]. *)
Definition prototype_members : list string :=
  ["constructor"; "__defineGetter__"; "__defineSetter__"; "hasOwnProperty";
   "__lookupGetter__"; "__lookupSetter__"; "isPrototypeOf"; "propertyIsEnumerable";
   "toString"; "valueOf"; "__proto__"; "toLocaleString"].

Definition inherited_name (k : string) : bool := existsb (String.eqb k) prototype_members.

(** What [collection[id]] evaluates to: a data property, a member of
    [Object.prototype] (one of its functions, or [Object.prototype] itself
    under [__proto__]), or [undefined]. *)
Inductive member : Type :=
| Property (v : value)
| Native
| Nothing.

(** [!!m] *)
Definition member_truthy (m : member) : bool :=
  match m with
  | Property v => truthy v
  | Native => true
  | Nothing => false
  end.

(** [{ ...m }]: the functions of [Object.prototype] and [Object.prototype]
    itself have no enumerable property. *)
Definition member_spread (m : member) : obj :=
  match m with
  | Property v => own_props v
  | Native | Nothing => ∅
  end.

(** [collection[id]] on a collection with the own properties [own].  Its
    prototype is [Object.prototype] or, when [installed] is [Some prototype],
    the object [prototype] that an assignment to [collection.__proto__] has
    put in its place; the prototype of [prototype] is [Object.prototype].
    The getter of [__proto__] returns the prototype of the collection. *)
Definition lookup_member {A} (inject : A → value) (own : gmap string A)
    (installed : option obj) (id : string) : member :=
  match own !! id with
  | Some x => Property (inject x)
  | None =>
      match installed with
      | Some prototype =>
          match prototype !! id with
          | Some v => Property v
          | None =>
              if String.eqb id "__proto__" then Property (VObject prototype)
              else if inherited_name id then Native else Nothing
          end
      | None => if inherited_name id then Native else Nothing
      end
  end.

(** [collection[id] = x] calls the setter of [__proto__], which replaces the
    prototype of the collection, when [id] is [__proto__] and neither the
    collection nor the prototype installed in it has a property of that
    name; every other assignment writes an own property. *)
Definition assigns_prototype {A} (own : gmap string A) (installed : option obj)
    (id : string) : bool :=
  String.eqb id "__proto__"
  && bool_decide (own !! id = None)
  && match installed with
     | Some prototype => bool_decide (prototype !! id = None)
     | None => true
     end.

(** [id] names a member that the collection inherits. *)
Definition inherits_from (installed : option obj) (id : string) : bool :=
  inherited_name id
  || match installed with
     | Some prototype => bool_decide (is_Some (prototype !! id))
     | None => false
     end.

Lemma lookup_member_own {A} (inject : A → value) own installed id x :
  own !! id = Some x → lookup_member inject own installed id = Property (inject x).
Proof. unfold lookup_member. by intros ->. Qed.

Lemma lookup_member_plain {A} (inject : A → value) own installed id :
  own !! id = None → inherits_from installed id = false →
  lookup_member inject own installed id = Nothing.
Proof.
  unfold lookup_member, inherits_from. intros -> H.
  apply orb_false_iff in H as [Hn Hi]. rewrite Hn.
  destruct installed as [prototype|]; [|done].
  apply bool_decide_eq_false in Hi.
  destruct (prototype !! id) as [v|] eqn:E; [by destruct Hi|].
  destruct (String.eqb_spec id "__proto__") as [->|_]; [discriminate Hn|done].
Qed.

Lemma lookup_member_inherited {A} (inject : A → value) (own : gmap string A) id :
  own !! id = None → inherited_name id = true →
  lookup_member inject own None id = Native.
Proof. unfold lookup_member. by intros -> ->. Qed.

Lemma assigns_prototype_own {A} (own : gmap string A) installed id :
  is_Some (own !! id) → assigns_prototype own installed id = false.
Proof.
  intros [x H]. unfold assigns_prototype. rewrite H.
  rewrite bool_decide_eq_false_2 by done. by rewrite andb_false_r.
Qed.

Lemma assigns_prototype_other {A} (own : gmap string A) installed id :
  id ≠ "__proto__" → assigns_prototype own installed id = false.
Proof.
  intros H. unfold assigns_prototype.
  by destruct (String.eqb_spec id "__proto__").
Qed.

(** [{...a, ...b}]: the properties of [b] win. *)
Definition spread (a b : obj) : obj := b ∪ a.

(** [a === b] when one side is a primitive: no object is strictly equal to
    a primitive, and [NaN] is equal to nothing. *)
Definition prim_eq (a b : value) : bool :=
  match a, b with
  | VUndefined, VUndefined => true
  | VNull, VNull => true
  | VBool x, VBool y => Bool.eqb x y
  | VNumber x, VNumber y => Qeq_bool x y
  | VString x, VString y => String.eqb x y
  | _, _ => false
  end.

Section Coercions.
(** The conversion of a string to a number is the engine's; [None] is
    [NaN]. *)
Variable StringToNumber : string -> option Q.

(** [ToNumber v], with [None] for [NaN]. *)
Definition to_number (v : value) : option Q :=
  match v with
  | VUndefined | VNaN | VObject _ => None
  | VNull => Some 0%Q
  | VBool b => Some (if b then 1%Q else 0%Q)
  | VNumber q => Some q
  | VString s => StringToNumber s
  end.

(** [a > b], [a <= b] and [a < b] with a number on the right: a comparison
    with [NaN] is false. *)
Definition gt (a : value) (b : Q) : bool :=
  match to_number a with
  | Some q => negb (Qle_bool q b)
  | None => false
  end.

Definition le (a : value) (b : Q) : bool :=
  match to_number a with
  | Some q => Qle_bool q b
  | None => false
  end.

Definition lt (a : value) (b : Q) : bool :=
  match to_number a with
  | Some q => negb (Qle_bool b q)
  | None => false
  end.

(** [a - n], computed exactly: the code computes the same on integers up to
    2^53. *)
Definition minus (a : value) (n : Q) : value :=
  match to_number a with
  | Some q => VNumber (q - n)
  | None => VNaN
  end.

(** [n <= b] and [n > b] with a number on the left; [None] is [NaN]. *)
Definition number_le (n : Q) (b : value) : bool :=
  match to_number b with
  | Some q => Qle_bool n q
  | None => false
  end.

Definition number_gt (n : option Q) (b : value) : bool :=
  match n, to_number b with
  | Some x, Some q => negb (Qle_bool x q)
  | _, _ => false
  end.

(** The conversion of a number to a string is the engine's too. *)
Variable NumberToString : Q -> string.

(** [String(v)], as in a template literal and in a property key. *)
Definition to_string (v : value) : string :=
  match v with
  | VUndefined => "undefined"
  | VNull => "null"
  | VBool b => if b then "true" else "false"
  | VNumber q => NumberToString q
  | VNaN => "NaN"
  | VString s => s
  | VObject _ => "[object Object]"
  end.
End Coercions.

(** A conversion for the examples: unsigned decimal integers, the empty
    string being zero; every other string is [NaN]. *)
Fixpoint decimal (s : string) (acc : N) : option N :=
  match s with
  | EmptyString => Some acc
  | String c rest =>
      let n := Ascii.N_of_ascii c in
      if (48 <=? n)%N && (n <=? 57)%N then decimal rest (acc * 10 + (n - 48))%N
      else None
  end.

Definition decimalToNumber (s : string) : option Q :=
  (fun n => inject_Z (Z.of_N n)) <$> decimal s 0%N.

(** The other conversion for the examples: the integer part, in decimal. *)
Definition printInteger (q : Q) : string := pretty (Qfloor q).

(** The characters of the string are ASCII ones.  On such a string the
    length and the indices count the UTF-16 code units of the code, and the
    white space that [blank] looks for is all the white space that [trim]
    removes. *)
Definition is_ascii (s : string) : bool :=
  forallb (fun c => (Ascii.nat_of_ascii c <? 128)%nat) (String.list_ascii_of_string s).

(** Characters that [String.prototype.trim] removes, among the ASCII ones. *)
Definition is_space (c : Ascii.ascii) : bool :=
  match Ascii.nat_of_ascii c with
  | 9 | 10 | 11 | 12 | 13 | 32 => true
  | _ => false
  end%nat.

(** [s.trim().length === 0] on an ASCII string.  [trim] also removes the
    white space outside ASCII, such as the no-break space, which [is_space]
    does not know. *)
Definition blank (s : string) : bool :=
  forallb is_space (String.list_ascii_of_string s).

(** [list.includes(v)] for a list of string literals. *)
Definition includes (l : list string) (v : value) : bool :=
  existsb (fun s => prim_eq v (VString s)) l.

(** A string between double quotes, for messages. *)
Definition quoted (s : string) : string :=
  let q := String (Ascii.ascii_of_nat 34) EmptyString in q +:+ s +:+ q.

(** [list.join(sep)] *)
Definition join (sep : string) (l : list string) : string := String.concat sep l.

(** Runs the monad operations of [outcome] in a hypothesis. *)
Ltac run H := cbn [mret mbind outcome_ret outcome_bind] in H.

Ltac run_goal := cbn [mret mbind outcome_ret outcome_bind].

(** Takes the next property read of a check: a successful read continues,
    a throwing one contradicts [H]. *)
Ltac read H a k :=
  destruct (get a k); run H; [|discriminate H].

End JS.

(** ** TemplateManager *)

Module TemplateManager.
Import JS.

(** The object that [validateTemplate] builds and returns. *)
Record validation : Type := {
  isValid : bool;
  errors : list string;
  warnings : list string
}.

(** [validation.errors.push(msg); validation.isValid = false;] *)
Definition error (msg : string) (v : validation) : validation :=
  {| isValid := false; errors := errors v ++ [msg]; warnings := warnings v |}.

(** [validation.warnings.push(msg);] *)
Definition warning (msg : string) (v : validation) : validation :=
  {| isValid := isValid v; errors := errors v; warnings := warnings v ++ [msg] |}.

Section Validation.
Variable StringToNumber : string -> option Q.

Definition checkName (template : obj) (v : validation) : validation :=
  let name := prop template "name" in
  if negb (truthy name) || negb (is_type name "string")
     || match name with VString s => blank s | _ => false end
  then error "Template name is required" v else v.

Definition checkWidth (template : obj) (v : validation) : validation :=
  let width := prop template "width" in
  if negb (truthy width) || negb (is_type width "number") || le StringToNumber width 0
  then error "Template width must be a positive number" v else v.

Definition checkHeight (template : obj) (v : validation) : validation :=
  let height := prop template "height" in
  if negb (truthy height) || negb (is_type height "number") || le StringToNumber height 0
  then error "Template height must be a positive number" v else v.

Definition checkOrientation (template : obj) (v : validation) : validation :=
  let orientation := prop template "orientation" in
  if negb (truthy orientation) || negb (includes ["portrait"; "landscape"] orientation)
  then error ("Template orientation must be " +:+ quoted "portrait" +:+ " or "
              +:+ quoted "landscape") v
  else v.

(** The callback of [Object.entries(template.elements).forEach]: one
    element of the template.  [typeof null] is ["object"], so a [null]
    element reaches [element.x], which throws. *)
Definition checkElement (elementName : string) (element : value)
    (v : validation) : outcome validation :=
  if negb (is_type element "object")
  then mret (error ("Element " +:+ elementName +:+ " must be an object") v)
  else
    x ← get element "x";
    let v := if negb (is_type x "number") || lt StringToNumber x 0
             then error ("Element " +:+ elementName
                         +:+ " x position must be a non-negative number") v
             else v in
    y ← get element "y";
    let v := if negb (is_type y "number") || lt StringToNumber y 0
             then error ("Element " +:+ elementName
                         +:+ " y position must be a non-negative number") v
             else v in
    v ← (if includes ["barcode"; "image"] (VString elementName) then
           width ← get element "width";
           let v := if negb (is_type width "number") || le StringToNumber width 0
                    then error ("Element " +:+ elementName
                                +:+ " width must be a positive number") v
                    else v in
           height ← get element "height";
           mret (if negb (is_type height "number") || le StringToNumber height 0
                 then error ("Element " +:+ elementName
                             +:+ " height must be a positive number") v
                 else v)
         else mret v);
    if includes ["fnsku"; "sku"; "title"] (VString elementName) then
      fontSize ← get element "fontSize";
      mret (if negb (is_type fontSize "number") || le StringToNumber fontSize 0
            then error ("Element " +:+ elementName
                        +:+ " fontSize must be a positive number") v
            else v)
    else mret v.

(** The [forEach] loop; an exception thrown by the callback ends it. *)
Fixpoint checkEach (entries : list (string * value)) (v : validation)
    : outcome validation :=
  match entries with
  | [] => mret v
  | (elementName, element) :: rest =>
      v ← checkElement elementName element v;
      checkEach rest v
  end.

(** The entries are visited in the order in which the map enumerates them,
    which need not be the insertion order of the JavaScript object; it
    only decides the order of the messages. *)
Definition checkElements (template : obj) (v : validation) : outcome validation :=
  let elements := prop template "elements" in
  if negb (truthy elements) || negb (is_type elements "object")
  then mret (error "Template elements are required" v)
  else
    barcode ← get elements "barcode";
    fnsku ← get elements "fnsku";
    let v := if negb (truthy barcode) && negb (truthy fnsku)
             then error "Template must include at least barcode or FNSKU element" v
             else v in
    checkEach (map_to_list (own_props elements)) v.

Definition checkContentInclusion (template : obj) (v : validation) : validation :=
  let contentInclusion := prop template "contentInclusion" in
  if negb (truthy contentInclusion) || negb (is_type contentInclusion "object")
  then error "Template contentInclusion is required" v else v.

Definition warnDimensions (template : obj) (v : validation) : validation :=
  if gt StringToNumber (prop template "width") 300
     || gt StringToNumber (prop template "height") 300
  then warning "Large template dimensions may cause printing issues" v else v.

(** [validateTemplate(template)].  The last check reads
    [template.name.length] whatever the first check found, so it throws when
    the name is [undefined] or [null]. *)
Definition validateTemplate (template : obj) : outcome validation :=
  let v := {| isValid := true; errors := []; warnings := [] |} in
  let v := checkName template v in
  let v := checkWidth template v in
  let v := checkHeight template v in
  let v := checkOrientation template v in
  v ← checkElements template v;
  let v := checkContentInclusion template v in
  let v := warnDimensions template v in
  nameLength ← get (prop template "name") "length";
  mret (if gt StringToNumber nameLength 50
        then warning "Template name is very long" v else v).
End Validation.
(** *** Validation only ever adds messages *)

(** [msg] has been pushed and the template marked invalid. *)
Definition failed_with (msg : string) (v : validation) : Prop :=
  isValid v = false ∧ msg ∈ errors v.

Lemma failed_with_error msg v : failed_with msg (error msg v).
Proof. split; [done | apply elem_of_app; right; apply list_elem_of_singleton; done]. Qed.

Lemma failed_with_error_keep msg msg' v : failed_with msg v → failed_with msg (error msg' v).
Proof. intros [_ Hin]. split; [done | apply elem_of_app; by left]. Qed.

Lemma failed_with_warning_keep msg w v : failed_with msg v → failed_with msg (warning w v).
Proof. intros [Hv Hin]. by split. Qed.

Lemma failed_with_if_error msg (c : bool) msg' v :
  failed_with msg v → failed_with msg (if c then error msg' v else v).
Proof. destruct c; auto using failed_with_error_keep. Qed.

Lemma failed_with_if_warning msg (c : bool) w v :
  failed_with msg v → failed_with msg (if c then warning w v else v).
Proof. destruct c; auto using failed_with_warning_keep. Qed.

Create HintDb validation.
#[global] Hint Resolve failed_with_error failed_with_error_keep failed_with_warning_keep
  failed_with_if_error failed_with_if_warning : validation.

Section ValidationFacts.
Variable StringToNumber : string -> option Q.

Lemma checkElement_keeps msg elementName element v v' :
  checkElement StringToNumber elementName element v = Return v' →
  failed_with msg v → failed_with msg v'.
Proof.
  unfold checkElement. intros H Hf.
  destruct (negb (is_type element "object")); run H.
  { injection H as <-. auto with validation. }
  read H element "x". read H element "y".
  destruct (includes ["barcode"; "image"] (VString elementName)); run H.
  - read H element "width". read H element "height".
    destruct (includes ["fnsku"; "sku"; "title"] (VString elementName)); run H.
    + read H element "fontSize". injection H as <-. auto 10 with validation.
    + injection H as <-. auto 10 with validation.
  - destruct (includes ["fnsku"; "sku"; "title"] (VString elementName)); run H.
    + read H element "fontSize". injection H as <-. auto 10 with validation.
    + injection H as <-. auto 10 with validation.
Qed.

Lemma checkEach_keeps msg entries : ∀ v v',
  checkEach StringToNumber entries v = Return v' →
  failed_with msg v → failed_with msg v'.
Proof.
  induction entries as [|[elementName element] rest IH]; simpl; intros v v' H Hf.
  - run H. by injection H as <-.
  - destruct (checkElement StringToNumber elementName element v) as [v1|] eqn:E;
      run H; [|discriminate].
    eauto using checkElement_keeps.
Qed.

Lemma checkElements_keeps msg template v v' :
  checkElements StringToNumber template v = Return v' →
  failed_with msg v → failed_with msg v'.
Proof.
  unfold checkElements. intros H Hf.
  destruct (negb (truthy (prop template "elements"))
            || negb (is_type (prop template "elements") "object")); run H.
  { injection H as <-. auto with validation. }
  read H (prop template "elements") "barcode".
  read H (prop template "elements") "fnsku".
  eapply checkEach_keeps; [exact H|]. auto with validation.
Qed.

(** What [validateTemplate] returns, in terms of the validation after the
    first four checks. *)
Lemma validateTemplate_Return template v :
  validateTemplate StringToNumber template = Return v →
  ∃ v1 nameLength,
    checkElements StringToNumber template
      (checkOrientation template
         (checkHeight StringToNumber template
            (checkWidth StringToNumber template
               (checkName template
                  {| isValid := true; errors := []; warnings := [] |})))) = Return v1
    ∧ v = (if gt StringToNumber nameLength 50
           then warning "Template name is very long"
                  (warnDimensions StringToNumber template
                     (checkContentInclusion template v1))
           else warnDimensions StringToNumber template
                  (checkContentInclusion template v1)).
Proof.
  unfold validateTemplate. intros H.
  destruct (checkElements _ _ _) as [v1|]; run H; [|discriminate].
  destruct (get (prop template "name") "length") as [n|]; run H; [|discriminate].
  injection H as <-. by exists v1, n.
Qed.

Lemma validateTemplate_tail_keeps msg template v1 nameLength :
  failed_with msg v1 →
  failed_with msg
    (if gt StringToNumber nameLength 50
     then warning "Template name is very long"
            (warnDimensions StringToNumber template
               (checkContentInclusion template v1))
     else warnDimensions StringToNumber template
            (checkContentInclusion template v1)).
Proof.
  intros Hf. apply failed_with_if_warning.
  unfold warnDimensions, checkContentInclusion. auto with validation.
Qed.

(** The four defects of a template that the store must reject. *)
Definition nonpositive (v : value) : Prop := ∃ q, v = VNumber q ∧ (q <= 0)%Q.

Definition element_of (template : obj) (elementName : string) : option value :=
  match template !! "elements" with
  | Some (VObject elements) => elements !! elementName
  | _ => None
  end.

Definition bad_orientation (template : obj) : Prop :=
  prop template "orientation" ≠ VString "portrait"
  ∧ prop template "orientation" ≠ VString "landscape".

Definition lacks_barcode_and_fnsku (template : obj) : Prop :=
  element_of template "barcode" = None ∧ element_of template "fnsku" = None.

Definition defective (template : obj) : Prop :=
  nonpositive (prop template "width")
  ∨ nonpositive (prop template "height")
  ∨ bad_orientation template
  ∨ lacks_barcode_and_fnsku template.

Lemma nonpositive_test v :
  nonpositive v →
  negb (truthy v) || negb (is_type v "number") || le StringToNumber v 0 = true.
Proof.
  intros (q & -> & Hq). unfold le; simpl.
  apply orb_true_iff; right. by apply Qle_bool_iff.
Qed.

Lemma bad_orientation_test template :
  bad_orientation template →
  negb (truthy (prop template "orientation"))
  || negb (includes ["portrait"; "landscape"] (prop template "orientation")) = true.
Proof.
  intros [Hp Hl]. apply orb_true_iff; right. apply negb_true_iff.
  unfold includes; simpl.
  destruct (prop template "orientation") as [| | | | |o|]; try reflexivity.
  simpl. destruct (String.eqb_spec o "portrait") as [->|_]; [done|].
  destruct (String.eqb_spec o "landscape") as [->|_]; done.
Qed.

Lemma validateTemplate_width template v :
  nonpositive (prop template "width") →
  validateTemplate StringToNumber template = Return v →
  failed_with "Template width must be a positive number" v.
Proof.
  intros Hw H. apply validateTemplate_Return in H as (v1 & n & H1 & ->).
  apply validateTemplate_tail_keeps.
  eapply checkElements_keeps; [exact H1|].
  unfold checkOrientation, checkHeight. do 2 apply failed_with_if_error.
  unfold checkWidth. rewrite (nonpositive_test _ Hw). auto with validation.
Qed.

Lemma validateTemplate_height template v :
  nonpositive (prop template "height") →
  validateTemplate StringToNumber template = Return v →
  failed_with "Template height must be a positive number" v.
Proof.
  intros Hh H. apply validateTemplate_Return in H as (v1 & n & H1 & ->).
  apply validateTemplate_tail_keeps.
  eapply checkElements_keeps; [exact H1|].
  unfold checkOrientation. apply failed_with_if_error.
  unfold checkHeight. rewrite (nonpositive_test _ Hh). auto with validation.
Qed.

Lemma validateTemplate_orientation template v :
  bad_orientation template →
  validateTemplate StringToNumber template = Return v →
  failed_with ("Template orientation must be " +:+ quoted "portrait" +:+ " or "
               +:+ quoted "landscape") v.
Proof.
  intros Ho H. apply validateTemplate_Return in H as (v1 & n & H1 & ->).
  apply validateTemplate_tail_keeps.
  eapply checkElements_keeps; [exact H1|].
  unfold checkOrientation. rewrite (bad_orientation_test _ Ho).
  auto with validation.
Qed.

Lemma checkElements_lacking template v v' :
  lacks_barcode_and_fnsku template →
  checkElements StringToNumber template v = Return v' →
  failed_with "Template elements are required" v'
  ∨ failed_with "Template must include at least barcode or FNSKU element" v'.
Proof.
  intros [Hb Hf] H. unfold checkElements in H. unfold element_of in Hb, Hf.
  destruct (negb (truthy (prop template "elements"))
            || negb (is_type (prop template "elements") "object")) eqn:C; run H.
  { injection H as <-. left. auto with validation. }
  right. apply object_test in C as [elements C]. rewrite C in H.
  unfold prop in C. destruct (template !! "elements") as [?|]; [|discriminate C].
  simpl in C. subst. simpl in H. unfold prop in H. rewrite Hb, Hf in H.
  simpl in H. run H.
  eapply checkEach_keeps; [exact H|]. auto with validation.
Qed.

Lemma validateTemplate_lacking template v :
  lacks_barcode_and_fnsku template →
  validateTemplate StringToNumber template = Return v →
  failed_with "Template elements are required" v
  ∨ failed_with "Template must include at least barcode or FNSKU element" v.
Proof.
  intros Hl H. apply validateTemplate_Return in H as (v1 & n & H1 & ->).
  destruct (checkElements_lacking _ _ _ Hl H1);
    [left|right]; by apply validateTemplate_tail_keeps.
Qed.

(** A defective template never passes, and the result carries at least one
    message. *)
Lemma validateTemplate_defective template v :
  defective template →
  validateTemplate StringToNumber template = Return v →
  isValid v = false ∧ errors v ≠ [].
Proof.
  assert (Hne : ∀ msg, failed_with msg v → isValid v = false ∧ errors v ≠ []).
  { intros msg [Hv Hin]. split; [done|]. intros E. rewrite E in Hin.
    by apply elem_of_nil in Hin. }
  intros [Hd|[Hd|[Hd|Hd]]] H.
  - eauto using validateTemplate_width.
  - eauto using validateTemplate_height.
  - eauto using validateTemplate_orientation.
  - destruct (validateTemplate_lacking _ _ Hd H); eauto.
Qed.

(** [validateTemplate] throws only on a name that is [undefined] or [null]
    and on a [null] element. *)
Definition evaluable (template : obj) : bool :=
  negb (is_nullish (prop template "name"))
  && forallb (fun entry => negb (is_nullish entry.2))
             (map_to_list (own_props (prop template "elements"))).

Lemma checkElement_returns elementName element v :
  is_nullish element = false →
  ∃ v', checkElement StringToNumber elementName element v = Return v'.
Proof.
  intros Hn. unfold checkElement.
  destruct element; try discriminate Hn; cbn -[includes]; try by eexists.
  destruct (includes ["barcode"; "image"] (VString elementName));
    destruct (includes ["fnsku"; "sku"; "title"] (VString elementName));
    run_goal; by eexists.
Qed.

Lemma checkEach_returns entries : ∀ v,
  forallb (fun entry : string * value => negb (is_nullish entry.2)) entries = true →
  ∃ v', checkEach StringToNumber entries v = Return v'.
Proof.
  induction entries as [|[elementName element] rest IH]; simpl; intros v H.
  - by eexists.
  - apply andb_true_iff in H as [Hn Hrest]. apply negb_true_iff in Hn.
    destruct (checkElement_returns elementName element v Hn) as [v1 ->].
    run_goal. auto.
Qed.

Lemma validateTemplate_returns template :
  evaluable template = true →
  ∃ v, validateTemplate StringToNumber template = Return v.
Proof.
  intros H. apply andb_true_iff in H as [Hname Hels]. apply negb_true_iff in Hname.
  unfold validateTemplate.
  match goal with |- context [checkElements _ _ ?v0] =>
    assert (∃ v1, checkElements StringToNumber template v0 = Return v1) as [v1 ->]
  end.
  { unfold checkElements.
    destruct (negb (truthy (prop template "elements"))
              || negb (is_type (prop template "elements") "object")) eqn:E;
      [by eexists|].
    apply object_test in E as [elements E]. rewrite E in Hels |- *. simpl.
    run_goal. by apply checkEach_returns. }
  run_goal.
  destruct (prop template "name"); try discriminate Hname; simpl;
    try destruct (String.eqb _ _); run_goal; by eexists.
Qed.

(** A template that passes has an [elements] object. *)
Lemma valid_has_elements template v :
  validateTemplate StringToNumber template = Return v →
  isValid v = true →
  ∃ elements, template !! "elements" = Some (VObject elements).
Proof.
  intros H Hv.
  destruct (negb (truthy (prop template "elements"))
            || negb (is_type (prop template "elements") "object")) eqn:C.
  - apply validateTemplate_Return in H as (v1 & n & H1 & ->).
    unfold checkElements in H1. rewrite C in H1. run H1. injection H1 as <-.
    assert (Hf : failed_with "Template elements are required"
              (if gt StringToNumber n 50
               then warning "Template name is very long"
                      (warnDimensions StringToNumber template
                         (checkContentInclusion template
                            (error "Template elements are required"
                               (checkOrientation template
                                  (checkHeight StringToNumber template
                                     (checkWidth StringToNumber template
                                        (checkName template
                                           {| isValid := true; errors := [];
                                              warnings := [] |})))))))
               else warnDimensions StringToNumber template
                      (checkContentInclusion template
                         (error "Template elements are required"
                            (checkOrientation template
                               (checkHeight StringToNumber template
                                  (checkWidth StringToNumber template
                                     (checkName template
                                        {| isValid := true; errors := [];
                                           warnings := [] |})))))))).
    { apply validateTemplate_tail_keeps. auto with validation. }
    destruct Hf as [Hf _]. congruence.
  - apply object_test in C as [elements C]. exists elements.
    unfold prop in C. destruct (template !! "elements"); [|discriminate C].
    simpl in C. by subst.
Qed.
End ValidationFacts.

(** *** What validation accepts *)

(** A number above zero; a number that is not below zero, or [NaN]; a number
    above zero, or [NaN].  The checks of the elements compare with [<] and
    [<=] only, which are false on [NaN]. *)
Definition positive_number (v : value) : Prop := ∃ q, v = VNumber q ∧ (0 < q)%Q.

Definition coordinate (v : value) : Prop :=
  v = VNaN ∨ ∃ q, v = VNumber q ∧ (0 <= q)%Q.

Definition dimension (v : value) : Prop :=
  v = VNaN ∨ ∃ q, v = VNumber q ∧ (0 < q)%Q.

(** The shape of an element that passes the callback of the loop. *)
Definition element_shape (elementName : string) (element : value) : Prop :=
  ∃ fields,
    element = VObject fields
    ∧ coordinate (prop fields "x")
    ∧ coordinate (prop fields "y")
    ∧ (includes ["barcode"; "image"] (VString elementName) = true →
       dimension (prop fields "width") ∧ dimension (prop fields "height"))
    ∧ (includes ["fnsku"; "sku"; "title"] (VString elementName) = true →
       dimension (prop fields "fontSize")).

(** The shape of a template that passes. *)
Definition template_shape (template : obj) : Prop :=
  (∃ name, prop template "name" = VString name ∧ blank name = false)
  ∧ positive_number (prop template "width")
  ∧ positive_number (prop template "height")
  ∧ (prop template "orientation" = VString "portrait"
     ∨ prop template "orientation" = VString "landscape")
  ∧ (∃ elements,
       prop template "elements" = VObject elements
       ∧ (truthy (prop elements "barcode") = true ∨ truthy (prop elements "fnsku") = true)
       ∧ ∀ elementName element,
           elements !! elementName = Some element → element_shape elementName element)
  ∧ ∃ contentInclusion, prop template "contentInclusion" = VObject contentInclusion.

Section Acceptance.
Variable StringToNumber : string -> option Q.

Lemma positive_number_test v :
  negb (truthy v) || negb (is_type v "number") || le StringToNumber v 0 = false
  ↔ positive_number v.
Proof.
  unfold positive_number, le. split.
  - destruct v as [| |b|q| |str|fields]; simpl; rewrite ?orb_true_r; try discriminate.
    intros H. apply orb_false_iff in H as [_ H]. exists q. split; [done|].
    apply Qnot_le_lt. intros Hle. apply Qle_bool_iff in Hle. congruence.
  - intros (q & -> & Hq). simpl.
    assert (Hz : Qeq_bool q 0 = false).
    { apply not_true_iff_false. intros E. apply Qeq_bool_iff in E.
      rewrite E in Hq. by apply Qlt_irrefl in Hq. }
    assert (Hl : Qle_bool q 0 = false).
    { apply not_true_iff_false. intros E. apply Qle_bool_iff in E.
      by apply Qle_not_lt in E. }
    by rewrite Hz, Hl.
Qed.

Lemma coordinate_test v :
  negb (is_type v "number") || lt StringToNumber v 0 = false ↔ coordinate v.
Proof.
  unfold coordinate, lt. split.
  - destruct v as [| |b|q| |str|fields]; simpl; try discriminate; [|by left].
    intros H. right. exists q. split; [done|].
    apply negb_false_iff in H. by apply Qle_bool_iff.
  - intros [-> | (q & -> & Hq)]; simpl; [done|].
    apply negb_false_iff. by apply Qle_bool_iff.
Qed.

Lemma dimension_test v :
  negb (is_type v "number") || le StringToNumber v 0 = false ↔ dimension v.
Proof.
  unfold dimension, le. split.
  - destruct v as [| |b|q| |str|fields]; simpl; try discriminate; [|by left].
    intros H. right. exists q. split; [done|].
    apply Qnot_le_lt. intros Hle. apply Qle_bool_iff in Hle. congruence.
  - intros [-> | (q & -> & Hq)]; simpl; [done|].
    apply not_true_iff_false. intros E. apply Qle_bool_iff in E.
    by apply Qle_not_lt in E.
Qed.

(** A check that has left the validation valid has added nothing. *)
Lemma valid_after_if (c : bool) msg v :
  isValid (if c then error msg v else v) = true → c = false ∧ isValid v = true.
Proof. by destruct c. Qed.

Lemma valid_after_warning (c : bool) msg v :
  isValid (if c then warning msg v else v) = isValid v.
Proof. by destruct c. Qed.

Lemma checkElement_valid elementName element v v' :
  checkElement StringToNumber elementName element v = Return v' →
  isValid v' = true →
  v' = v ∧ element_shape elementName element.
Proof.
  unfold checkElement. intros H Hv.
  destruct (negb (is_type element "object")) eqn:Ht; run H.
  { injection H as <-. discriminate Hv. }
  destruct element as [| |b|q| |str|fields]; try discriminate Ht;
    cbn [get mret mbind outcome_ret outcome_bind] in H; try discriminate H.
  destruct (includes ["barcode"; "image"] (VString elementName)) eqn:Hd;
    destruct (includes ["fnsku"; "sku"; "title"] (VString elementName)) eqn:Hf;
    run H; injection H as <-;
    repeat match type of Hv with
      | isValid (if ?c then error _ _ else _) = true =>
          let E := fresh "E" in
          destruct c eqn:E; [discriminate Hv|]
      end;
    (split; [reflexivity|]); exists fields; (split; [reflexivity|]);
    repeat split; intros; try congruence;
    first [by apply coordinate_test | by apply dimension_test].
Qed.

Lemma checkElement_shape elementName element v :
  element_shape elementName element →
  checkElement StringToNumber elementName element v = Return v.
Proof.
  intros (fields & -> & Hx & Hy & Hd & Hf). unfold checkElement.
  change (negb (is_type (VObject fields) "object")) with false.
  cbn [get mret mbind outcome_ret outcome_bind].
  apply coordinate_test in Hx, Hy. rewrite Hx, Hy.
  destruct (includes ["barcode"; "image"] (VString elementName)) eqn:Ed; run_goal.
  - destruct (Hd eq_refl) as [Hw Hh]. apply dimension_test in Hw, Hh. rewrite Hw, Hh.
    destruct (includes ["fnsku"; "sku"; "title"] (VString elementName)) eqn:Ef; run_goal.
    + specialize (Hf eq_refl). apply dimension_test in Hf. by rewrite Hf.
    + done.
  - destruct (includes ["fnsku"; "sku"; "title"] (VString elementName)) eqn:Ef; run_goal.
    + specialize (Hf eq_refl). apply dimension_test in Hf. by rewrite Hf.
    + done.
Qed.

Lemma checkEach_valid entries : ∀ v v',
  checkEach StringToNumber entries v = Return v' →
  isValid v' = true →
  v' = v ∧ Forall (fun entry => element_shape entry.1 entry.2) entries.
Proof.
  induction entries as [|[elementName element] rest IH]; simpl; intros v v' H Hv.
  - run H. injection H as <-. by split.
  - destruct (checkElement StringToNumber elementName element v) as [v1|] eqn:E;
      run H; [|discriminate].
    destruct (IH _ _ H Hv) as [-> Hrest].
    destruct (checkElement_valid _ _ _ _ E Hv) as [-> Hs].
    split; [done|]. by constructor.
Qed.

Lemma checkEach_shape entries v :
  Forall (fun entry => element_shape entry.1 entry.2) entries →
  checkEach StringToNumber entries v = Return v.
Proof.
  induction 1 as [|[elementName element] rest Hs _ IH]; simpl; [done|].
  rewrite (checkElement_shape _ _ _ Hs). run_goal. exact IH.
Qed.

Lemma name_test name :
  negb (truthy name) || negb (is_type name "string")
  || match name with VString s => blank s | _ => false end = false
  ↔ ∃ s, name = VString s ∧ blank s = false.
Proof.
  split.
  - destruct name as [| |b|q| |str|fields]; simpl; rewrite ?orb_true_r;
      try discriminate.
    intros H. apply orb_false_iff in H as [_ H]. by exists str.
  - intros (str & -> & Hb). simpl. rewrite Hb.
    destruct str as [|c rest]; [discriminate Hb|done].
Qed.

Lemma orientation_test orientation :
  negb (truthy orientation) || negb (includes ["portrait"; "landscape"] orientation)
  = false
  ↔ orientation = VString "portrait" ∨ orientation = VString "landscape".
Proof.
  split.
  - destruct orientation as [| |b|q| |str|fields]; simpl; rewrite ?orb_true_r;
      try discriminate.
    destruct (String.eqb_spec str "portrait") as [->|_]; [by left|].
    destruct (String.eqb_spec str "landscape") as [->|_]; [by right|].
    simpl. by rewrite orb_true_r.
  - by intros [-> | ->].
Qed.

Lemma contentInclusion_test contentInclusion :
  negb (truthy contentInclusion) || negb (is_type contentInclusion "object") = false
  ↔ ∃ fields, contentInclusion = VObject fields.
Proof. split; [apply object_test|]. by intros [fields ->]. Qed.

Lemma checkElements_valid template v v' :
  checkElements StringToNumber template v = Return v' →
  isValid v' = true →
  v' = v
  ∧ ∃ elements,
      prop template "elements" = VObject elements
      ∧ (truthy (prop elements "barcode") = true ∨ truthy (prop elements "fnsku") = true)
      ∧ ∀ elementName element,
          elements !! elementName = Some element → element_shape elementName element.
Proof.
  unfold checkElements. intros H Hv.
  destruct (negb (truthy (prop template "elements"))
            || negb (is_type (prop template "elements") "object")) eqn:C; run H.
  { injection H as <-. discriminate Hv. }
  apply object_test in C as [elements C]. rewrite C in H.
  cbn [get own_props mret mbind outcome_ret outcome_bind] in H.
  destruct (checkEach_valid _ _ _ H Hv) as [-> Hall].
  destruct (negb (truthy (prop elements "barcode"))
            && negb (truthy (prop elements "fnsku"))) eqn:B; [discriminate Hv|].
  split; [done|]. exists elements. split; [done|]. split.
  - apply andb_false_iff in B as [B|B]; apply negb_false_iff in B; auto.
  - intros elementName element Hel.
    apply elem_of_map_to_list in Hel.
    by apply (proj1 (Forall_forall _ _) Hall (elementName, element)).
Qed.

Lemma checkElements_shape template elements v :
  prop template "elements" = VObject elements →
  truthy (prop elements "barcode") = true ∨ truthy (prop elements "fnsku") = true →
  (∀ elementName element,
     elements !! elementName = Some element → element_shape elementName element) →
  checkElements StringToNumber template v = Return v.
Proof.
  intros He Hb Hall. unfold checkElements. rewrite He.
  change (negb (truthy (VObject elements))
          || negb (is_type (VObject elements) "object")) with false.
  cbn [get own_props mret mbind outcome_ret outcome_bind].
  replace (negb (truthy (prop elements "barcode"))
           && negb (truthy (prop elements "fnsku"))) with false
    by (by destruct Hb as [-> | ->]; rewrite ?andb_false_r).
  apply checkEach_shape. apply Forall_forall. intros [elementName element] Hin.
  apply elem_of_map_to_list in Hin. by apply Hall.
Qed.

(** A template of the shape passes with no message but warnings. *)
Lemma validateTemplate_shape template :
  template_shape template →
  ∃ v, validateTemplate StringToNumber template = Return v
       ∧ isValid v = true ∧ errors v = [].
Proof.
  intros (Hname & Hw & Hh & Ho & (elements & He & Hb & Hall) & Hc).
  unfold validateTemplate, checkName, checkWidth, checkHeight, checkOrientation.
  rewrite (proj2 (name_test _) Hname), (proj2 (positive_number_test _) Hw),
    (proj2 (positive_number_test _) Hh), (proj2 (orientation_test _) Ho).
  rewrite (checkElements_shape _ _ _ He Hb Hall). run_goal.
  unfold checkContentInclusion. rewrite (proj2 (contentInclusion_test _) Hc).
  destruct Hname as (name & -> & _). cbn [get].
  change (String.eqb "length" "length") with true. run_goal.
  eexists. split; [reflexivity|].
  unfold warnDimensions.
  by destruct (gt _ _ 50), (gt _ _ 300 || gt _ _ 300).
Qed.

Lemma validateTemplate_valid template v :
  validateTemplate StringToNumber template = Return v →
  isValid v = true →
  template_shape template.
Proof.
  intros H Hv. apply validateTemplate_Return in H as (v1 & n & H1 & ->).
  rewrite valid_after_warning in Hv. unfold warnDimensions in Hv.
  rewrite valid_after_warning in Hv.
  apply valid_after_if in Hv as [Hc Hv].
  destruct (checkElements_valid _ _ _ H1 Hv) as [-> Hels].
  apply valid_after_if in Hv as [Ho Hv].
  apply valid_after_if in Hv as [Hh Hv].
  apply valid_after_if in Hv as [Hw Hv].
  apply valid_after_if in Hv as [Hname _].
  split; [by apply name_test|].
  split; [by apply positive_number_test|].
  split; [by apply positive_number_test|].
  split; [by apply orientation_test|].
  split; [exact Hels|]. by apply contentInclusion_test.
Qed.

(** The validity flag and the list of errors agree. *)
Definition coherent (v : validation) : Prop := isValid v = true ↔ errors v = [].

Lemma coherent_if (c : bool) msg v :
  coherent v → coherent (if c then error msg v else v).
Proof.
  destruct c; [|done]. intros _. split; [discriminate|].
  simpl. intros H. by apply app_nil in H as [_ H].
Qed.

Lemma coherent_warning (c : bool) msg v :
  coherent v → coherent (if c then warning msg v else v).
Proof. by destruct c. Qed.

Lemma checkElement_coherent elementName element v :
  coherent v →
  match checkElement StringToNumber elementName element v with
  | Return v' => coherent v'
  | Throw ex => ex = TypeError
  end.
Proof.
  intros Hc. unfold checkElement.
  destruct (negb (is_type element "object")); run_goal.
  { by apply (coherent_if true). }
  destruct element as [| |b|q| |str|fields];
    cbn [get mret mbind outcome_ret outcome_bind]; try done;
    try destruct (String.eqb _ _);
    destruct (includes ["barcode"; "image"] (VString elementName));
    destruct (includes ["fnsku"; "sku"; "title"] (VString elementName));
    cbn [get mret mbind outcome_ret outcome_bind];
    try destruct (String.eqb _ _);
    cbn [get mret mbind outcome_ret outcome_bind];
    try destruct (String.eqb _ _);
    cbn [get mret mbind outcome_ret outcome_bind];
    try destruct (String.eqb _ _);
    cbn [get mret mbind outcome_ret outcome_bind];
    try destruct (String.eqb _ _);
    cbn [get mret mbind outcome_ret outcome_bind];
    auto 10 using coherent_if.
Qed.

Lemma checkEach_coherent entries : ∀ v,
  coherent v →
  match checkEach StringToNumber entries v with
  | Return v' => coherent v'
  | Throw ex => ex = TypeError
  end.
Proof.
  induction entries as [|[elementName element] rest IH]; simpl; intros v Hc; [done|].
  pose proof (checkElement_coherent elementName element v Hc) as H.
  destruct (checkElement StringToNumber elementName element v); run_goal;
    [by apply IH | done].
Qed.

(** X2.  [validateTemplate] throws nothing but a [TypeError], and in the
    result it returns [isValid] is true exactly when [errors] is empty. *)
Theorem validateTemplate_isValid_iff_no_errors template :
  match validateTemplate StringToNumber template with
  | Return v => isValid v = true ↔ errors v = []
  | Throw ex => ex = TypeError
  end.
Proof.
  unfold validateTemplate.
  match goal with |- context [checkElements _ _ ?v0] =>
    assert (Hc : coherent v0)
      by (unfold checkOrientation, checkHeight, checkWidth, checkName;
          cbv zeta; repeat apply coherent_if; done);
    assert (He : match checkElements StringToNumber template v0 with
                 | Return v' => coherent v'
                 | Throw ex => ex = TypeError
                 end);
    [|destruct (checkElements StringToNumber template v0) as [v1|ex]]
  end.
  - unfold checkElements.
    destruct (negb (truthy (prop template "elements"))
              || negb (is_type (prop template "elements") "object")) eqn:C; run_goal.
    { by apply (coherent_if true). }
    apply object_test in C as [elements ->].
    cbn [get own_props mret mbind outcome_ret outcome_bind].
    apply checkEach_coherent. by apply coherent_if.
  - run_goal.
    destruct (prop template "name") as [| |b|q| |str|fields];
      cbn [get mret mbind outcome_ret outcome_bind]; try done;
      try destruct (String.eqb _ _); run_goal;
      apply coherent_warning; unfold warnDimensions; apply coherent_warning;
      unfold checkContentInclusion; by apply coherent_if.
  - run_goal. exact He.
Qed.
End Acceptance.

(** *** The manager and its environment *)

(** The fields of a [TemplateManager], the events it has emitted to its
    listeners, and the [fnsku_user_templates] entry of the storage backend.
    A collection is a JavaScript object: the map of its own properties,
    from ids to template objects, and its prototype.  The prototype of
    [builtInTemplates] is [Object.prototype] throughout; [userPrototype] is
    [Some prototype] once an assignment to [userTemplates.__proto__] has
    installed the object [prototype] in the user templates. *)
Record state : Type := {
  builtInTemplates : gmap string obj;
  userTemplates : gmap string obj;
  userPrototype : option obj;
  initialized : bool;
  emitted : list (string * value);
  fnsku_user_templates : option (gmap string obj)
}.

(** What one call reads from outside: how the backend answers, the clock
    and the random source. *)
Record env : Type := {
  storage_get : response;
  storage_set : response;
  Date_now : N;
  (** [Math.random().toString(36).substr(2, 9)] *)
  random_digits : string;
  (** the successive [new Date().toISOString()] of the call *)
  iso_first : string;
  iso_second : string
}.

(** The own properties of the user templates become [m]; the object and
    its prototype stay. *)
Definition set_userTemplates (m : gmap string obj) (s : state) : state :=
  {| builtInTemplates := builtInTemplates s; userTemplates := m;
     userPrototype := userPrototype s;
     initialized := initialized s; emitted := emitted s;
     fnsku_user_templates := fnsku_user_templates s |}.

(** [this.userTemplates = m]: another object, whose prototype is
    [Object.prototype]. *)
Definition replace_userTemplates (m : gmap string obj) (s : state) : state :=
  {| builtInTemplates := builtInTemplates s; userTemplates := m;
     userPrototype := None;
     initialized := initialized s; emitted := emitted s;
     fnsku_user_templates := fnsku_user_templates s |}.

Definition set_userPrototype (prototype : option obj) (s : state) : state :=
  {| builtInTemplates := builtInTemplates s; userTemplates := userTemplates s;
     userPrototype := prototype;
     initialized := initialized s; emitted := emitted s;
     fnsku_user_templates := fnsku_user_templates s |}.

Definition set_initialized (b : bool) (s : state) : state :=
  {| builtInTemplates := builtInTemplates s; userTemplates := userTemplates s;
     userPrototype := userPrototype s;
     initialized := b; emitted := emitted s;
     fnsku_user_templates := fnsku_user_templates s |}.

Definition set_stored (m : option (gmap string obj)) (s : state) : state :=
  {| builtInTemplates := builtInTemplates s; userTemplates := userTemplates s;
     userPrototype := userPrototype s;
     initialized := initialized s; emitted := emitted s;
     fnsku_user_templates := m |}.

(** [this.emit(event, data)]: the listeners are outside the model, the
    emission is recorded. *)
Definition emit (event : string) (data : value) (s : state) : state :=
  {| builtInTemplates := builtInTemplates s; userTemplates := userTemplates s;
     userPrototype := userPrototype s;
     initialized := initialized s; emitted := emitted s ++ [(event, data)];
     fnsku_user_templates := fnsku_user_templates s |}.

(** [this.builtInTemplates[id]] and [this.userTemplates[id]] *)
Definition builtIn_member (s : state) (id : string) : member :=
  lookup_member VObject (builtInTemplates s) None id.

Definition user_member (s : state) (id : string) : member :=
  lookup_member VObject (userTemplates s) (userPrototype s) id.

(** [this.userTemplates[id] = template] *)
Definition assign_userTemplate (id : string) (template : obj) (s : state) : state :=
  if assigns_prototype (userTemplates s) (userPrototype s) id
  then set_userPrototype (Some template) s
  else set_userTemplates (<[id := template]> (userTemplates s)) s.

Definition thermal_57x32 : obj := list_to_map [
  ("id", VString "thermal_57x32");
  ("name", VString "Thermal");
  ("baseName", VString "Thermal");
  ("userCreated", VBool false);
  ("width", num 57);
  ("height", num 32);
  ("units", VString "mm");
  ("orientation", VString "landscape");
  ("elements", object [
     ("barcode", object [("x", num 4); ("y", num 2); ("width", num 49); ("height", num 12)]);
     ("fnsku", object [("x", frac 57 2); ("y", num 17); ("fontSize", num 8);
                       ("align", VString "center"); ("bold", VBool false)]);
     ("sku", object [("x", frac 57 2); ("y", num 22); ("fontSize", num 11);
                     ("align", VString "center"); ("bold", VBool true)]);
     ("title", object [("x", frac 57 2); ("y", num 26); ("fontSize", num 6);
                       ("align", VString "center"); ("maxLength", num 50)])]);
  ("contentInclusion", object [
     ("barcode", VBool true); ("fnsku", VBool true); ("sku", VBool true);
     ("title", VBool true); ("images", VBool false)]);
  ("createdAt", VString "2025-01-01T00:00:00.000Z");
  ("updatedAt", VString "2025-01-01T00:00:00.000Z")].

Definition thermal_57x32_minimal : obj := list_to_map [
  ("id", VString "thermal_57x32_minimal");
  ("name", VString "Thermal Minimal");
  ("baseName", VString "Thermal Minimal");
  ("userCreated", VBool false);
  ("width", num 57);
  ("height", num 32);
  ("units", VString "mm");
  ("orientation", VString "landscape");
  ("elements", object [
     ("barcode", object [("x", num 4); ("y", num 4); ("width", num 49); ("height", num 16)]);
     ("fnsku", object [("x", frac 57 2); ("y", num 24); ("fontSize", num 10);
                       ("align", VString "center"); ("bold", VBool true)])]);
  ("contentInclusion", object [
     ("barcode", VBool true); ("fnsku", VBool true); ("sku", VBool false);
     ("title", VBool false); ("images", VBool false)]);
  ("createdAt", VString "2025-01-01T00:00:00.000Z");
  ("updatedAt", VString "2025-01-01T00:00:00.000Z")].

Definition shipping_4x6 : obj := list_to_map [
  ("id", VString "shipping_4x6");
  ("name", VString "Shipping");
  ("baseName", VString "Shipping");
  ("userCreated", VBool false);
  ("width", num 4);
  ("height", num 6);
  ("units", VString "in");
  ("orientation", VString "portrait");
  ("elements", object [
     ("barcode", object [("x", num 10); ("y", num 20); ("width", frac 408 5); ("height", num 20)]);
     ("fnsku", object [("x", frac 254 5); ("y", num 50); ("fontSize", num 12);
                       ("align", VString "center"); ("bold", VBool false)]);
     ("sku", object [("x", frac 254 5); ("y", num 70); ("fontSize", num 16);
                     ("align", VString "center"); ("bold", VBool true)]);
     ("title", object [("x", frac 254 5); ("y", num 90); ("fontSize", num 10);
                       ("align", VString "center"); ("maxLength", num 80)]);
     ("image", object [("x", num 10); ("y", num 100); ("width", num 30); ("height", num 30)])]);
  ("contentInclusion", object [
     ("barcode", VBool true); ("fnsku", VBool true); ("sku", VBool true);
     ("title", VBool true); ("images", VBool true)]);
  ("createdAt", VString "2025-01-01T00:00:00.000Z");
  ("updatedAt", VString "2025-01-01T00:00:00.000Z")].

(** The object literal assigned to [this.builtInTemplates]. *)
Definition builtIns : gmap string obj :=
  <["thermal_57x32" := thermal_57x32]>
    (<["thermal_57x32_minimal" := thermal_57x32_minimal]>
       (<["shipping_4x6" := shipping_4x6]> ∅)).

(** [new TemplateManager()], in an environment whose backend holds
    [stored]. *)
(** [new TemplateManager()], in an environment whose backend holds
    [stored]. *)
Definition new (stored : option (gmap string obj)) : state :=
  {| builtInTemplates := builtIns;
     userTemplates := ∅;
     userPrototype := None;
     initialized := false;
     emitted := [];
     fnsku_user_templates := stored |}.

(** [loadUserTemplates()]: the user templates become the object that the
    backend returns, or an empty one; a failed read is logged and leaves no
    user templates. *)
Definition loadUserTemplates (e : env) (s : state) : state :=
  match storage_get e with
  | Fulfilled => replace_userTemplates (default ∅ (fnsku_user_templates s)) s
  | Rejected _ => replace_userTemplates ∅ s
  end.

(** [saveUserTemplates()]: the backend receives the own properties of the
    user templates; a failed write is logged and thrown again. *)
Definition saveUserTemplates (e : env) (s : state) : outcome unit * state :=
  match storage_set e with
  | Fulfilled => (Return tt, set_stored (Some (userTemplates s)) s)
  | Rejected ex => (Throw ex, s)
  end.

Definition init (e : env) (s : state) : state :=
  if initialized s then s
  else emit "initialized" VUndefined (set_initialized true (loadUserTemplates e s)).

Definition ensureInitialized (e : env) (s : state) : state :=
  if negb (initialized s) then init e s else s.

(** [getTemplate(templateId)]: both tests and both copies read the
    collection under the id, so they also find what the collection
    inherits. *)
Definition getTemplate (e : env) (templateId : string) (s : state)
    : option obj * state :=
  let s := ensureInitialized e s in
  if member_truthy (builtIn_member s templateId)
  then (Some (member_spread (builtIn_member s templateId)), s)
  else if member_truthy (user_member s templateId)
  then (Some (member_spread (user_member s templateId)), s)
  else (None, s).

Definition isBuiltInTemplate (templateId : string) (s : state) : bool :=
  member_truthy (builtIn_member s templateId).

Section Operations.
Variable StringToNumber : string -> option Q.

Definition validationFailed (v : validation) : exn :=
  Error ("Template validation failed: " +:+ join ", " (errors v)).

(** [createTemplate(templateData)].  The generated id begins with [user_],
    so the assignment writes an own property. *)
Definition createTemplate (e : env) (templateData : obj) (s : state)
    : outcome obj * state :=
  let s := ensureInitialized e s in
  match validateTemplate StringToNumber templateData with
  | Throw ex => (Throw ex, s)
  | Return validation =>
      if negb (isValid validation) then (Throw (validationFailed validation), s)
      else
        let templateId :=
          "user_" +:+ pretty (Date_now e) +:+ "_" +:+ random_digits e in
        let template :=
          spread (list_to_map [("id", VString templateId);
                               ("userCreated", VBool true);
                               ("createdAt", VString (iso_first e));
                               ("updatedAt", VString (iso_second e))])
                 templateData in
        let s := set_userTemplates (<[templateId := template]> (userTemplates s)) s in
        match saveUserTemplates e s with
        | (Throw ex, s) => (Throw ex, s)
        | (Return _, s) =>
            (Return template, emit "templateCreated" (VObject template) s)
        end
  end.

(** [updateTemplate(templateId, templateData)] *)
Definition updateTemplate (e : env) (templateId : string) (templateData : obj)
    (s : state) : outcome obj * state :=
  let s := ensureInitialized e s in
  if negb (member_truthy (user_member s templateId))
  then (Throw (Error "Template not found or cannot be modified"), s)
  else
    match validateTemplate StringToNumber templateData with
    | Throw ex => (Throw ex, s)
    | Return validation =>
        if negb (isValid validation) then (Throw (validationFailed validation), s)
        else
          let updatedTemplate :=
            <["updatedAt" := VString (iso_first e)]>
              (<["userCreated" := VBool true]>
                 (<["id" := VString templateId]>
                    (spread (member_spread (user_member s templateId)) templateData))) in
          let s := assign_userTemplate templateId updatedTemplate s in
          match saveUserTemplates e s with
          | (Throw ex, s) => (Throw ex, s)
          | (Return _, s) =>
              (Return updatedTemplate,
               emit "templateUpdated" (VObject updatedTemplate) s)
          end
    end.
End Operations.

(** [deleteTemplate(templateId)]: [delete] removes an own property and
    leaves what the collection inherits. *)
Definition deleteTemplate (e : env) (templateId : string) (s : state)
    : outcome bool * state :=
  let s := ensureInitialized e s in
  if negb (member_truthy (user_member s templateId))
  then (Throw (Error "Template not found or cannot be deleted"), s)
  else
    let template := member_spread (user_member s templateId) in
    let s := set_userTemplates (delete templateId (userTemplates s)) s in
    match saveUserTemplates e s with
    | (Throw ex, s) => (Throw ex, s)
    | (Return _, s) => (Return true, emit "templateDeleted" (VObject template) s)
    end.

Definition clearUserTemplates (e : env) (s : state) : outcome bool * state :=
  let s := ensureInitialized e s in
  let deletedTemplates := userTemplates s in
  let s := replace_userTemplates ∅ s in
  match saveUserTemplates e s with
  | (Throw ex, s) => (Throw ex, s)
  | (Return _, s) =>
      (Return true, emit "templatesCleared" (VObject (VObject <$> deletedTemplates)) s)
  end.

(** The template stored under [id], built-in first; and whether [id] names
    a member that the user templates inherit. *)
Definition stored_template (s : state) (id : string) : option obj :=
  match builtInTemplates s !! id with
  | Some template => Some template
  | None => userTemplates s !! id
  end.

Definition inherits (s : state) (id : string) : bool :=
  inherits_from (userPrototype s) id.

(** *** The rest of the manager *)

(** The characters between the width and the height in a display name, as
    the source file has them: the two characters U+00C3 and U+2014, here in
    UTF-8. *)
Definition dimension_separator : string :=
  String.string_of_list_ascii
    (Ascii.ascii_of_nat <$> [195; 131; 226; 128; 148]%nat).

Section Listing.
Variable NumberToString : Q -> string.

Definition generateDynamicName (template : obj) : string :=
  let baseName :=
    prop template "baseName" ||| prop template "name" ||| VString "Template" in
  let width := prop template "width" ||| num 0 in
  let height := prop template "height" ||| num 0 in
  let units := prop template "units" ||| VString "mm" in
  to_string NumberToString baseName +:+ " "
  +:+ to_string NumberToString width +:+ dimension_separator
  +:+ to_string NumberToString height +:+ to_string NumberToString units.

(** [{...template, displayName: this.generateDynamicName(template)}] *)
Definition withDisplayName (template : obj) : obj :=
  <["displayName" := VString (generateDynamicName template)]> template.

(** [Object.values(collection)], in the order in which the map enumerates
    its entries. *)
Definition values (collection : gmap string obj) : list obj :=
  (map_to_list collection).*2.

Definition getAllTemplates (e : env) (s : state) : list obj * state :=
  let s := ensureInitialized e s in
  let builtInList := withDisplayName <$> values (builtInTemplates s) in
  let userList := withDisplayName <$> values (userTemplates s) in
  ((builtInList ++ userList)%list, s).
End Listing.

Definition getBuiltInTemplates (s : state) : list obj := values (builtInTemplates s).

Definition getUserTemplates (e : env) (s : state) : list obj * state :=
  let s := ensureInitialized e s in
  (values (userTemplates s), s).

Definition exportTemplate (e : env) (templateId : string) (s : state)
    : outcome obj * state :=
  match getTemplate e templateId s with
  | (None, s) => (Throw (Error "Template not found"), s)
  | (Some template, s) =>
      (Return (delete "updatedAt" (delete "createdAt" (delete "id" template))), s)
  end.

Section Importing.
Variable StringToNumber : string -> option Q.
Variable NumberToString : Q -> string.

(** The object that [importTemplate] hands to [createTemplate]. *)
Definition importData (templateData : obj) : obj :=
  <["userCreated" := VBool true]>
    (<["name" := VString (to_string NumberToString (prop templateData "name")
                          +:+ " (Imported)")]> templateData).

Definition importTemplate (e : env) (templateData : obj) (s : state)
    : outcome obj * state :=
  createTemplate StringToNumber e (importData templateData) s.
End Importing.

(** The id that [createTemplate] generates in [e]. *)
Definition generatedId (e : env) : string :=
  "user_" +:+ pretty (Date_now e) +:+ "_" +:+ random_digits e.

(** The template that [createTemplate] builds from accepted data. *)
Definition stamped (e : env) (templateData : obj) : obj :=
  spread (list_to_map [("id", VString (generatedId e));
                       ("userCreated", VBool true);
                       ("createdAt", VString (iso_first e));
                       ("updatedAt", VString (iso_second e))])
         templateData.


(** *** Every stored template is one that validation accepts *)

Definition accepted_collection (m : gmap string obj) : Prop :=
  ∀ id template, m !! id = Some template → template_shape template.

(** The shape only reads six properties. *)
Lemma template_shape_renamed template template' name :
  prop template' "name" = VString name → blank name = false →
  prop template' "width" = prop template "width" →
  prop template' "height" = prop template "height" →
  prop template' "orientation" = prop template "orientation" →
  prop template' "elements" = prop template "elements" →
  prop template' "contentInclusion" = prop template "contentInclusion" →
  template_shape template → template_shape template'.
Proof.
  intros Hn Hb Hw Hh Ho He Hc (_ & ?). unfold template_shape.
  rewrite Hw, Hh, Ho, He, Hc. split; [|done]. by exists name.
Qed.

Lemma template_shape_agree template template' :
  prop template' "name" = prop template "name" →
  prop template' "width" = prop template "width" →
  prop template' "height" = prop template "height" →
  prop template' "orientation" = prop template "orientation" →
  prop template' "elements" = prop template "elements" →
  prop template' "contentInclusion" = prop template "contentInclusion" →
  template_shape template → template_shape template'.
Proof.
  intros Hn Hw Hh Ho He Hc Hs.
  destruct Hs as ((name & Hname & Hb) & Hrest).
  apply (template_shape_renamed template template' name); try done.
  - congruence.
  - split; [by exists name | done].
Qed.

(** The six properties are present in a template of the shape. *)
Lemma template_shape_present template :
  template_shape template →
  Forall (fun k => is_Some (template !! k))
    ["name"; "width"; "height"; "orientation"; "elements"; "contentInclusion"].
Proof.
  intros ((name & Hn & _) & (w & Hw & _) & (h & Hh & _) & Ho
          & (elements & He & _) & (ci & Hc)).
  assert (Hp : ∀ k, prop template k ≠ VUndefined → is_Some (template !! k)).
  { intros k. unfold prop. destruct (template !! k); [by eexists | done]. }
  repeat constructor; apply Hp; try congruence.
  by destruct Ho as [-> | ->].
Qed.

Lemma prop_union_l (a b : obj) k : is_Some (a !! k) → prop (a ∪ b) k = prop a k.
Proof. intros H. unfold prop. by rewrite lookup_union_l'. Qed.

(** Properties that the caller's data has are read from the data in the
    merged template. *)
Lemma template_shape_union template other :
  template_shape template → template_shape (template ∪ other).
Proof.
  intros Hs. pose proof (template_shape_present _ Hs) as Hp.
  rewrite !Forall_cons in Hp. destruct Hp as (? & ? & ? & ? & ? & ? & _).
  apply (template_shape_agree template); auto using prop_union_l.
Qed.

Lemma template_shape_updated template current templateId stamp :
  template_shape template →
  template_shape
    (<["updatedAt" := VString stamp]>
       (<["userCreated" := VBool true]>
          (<["id" := VString templateId]> (spread current template)))).
Proof.
  intros Hs. apply (template_shape_agree (spread current template));
    [unfold prop; by rewrite !lookup_insert_ne by done ..|].
  by apply template_shape_union.
Qed.

Lemma builtIns_accepted : accepted_collection builtIns.
Proof.
  intros id template. unfold builtIns. rewrite !lookup_insert_Some, lookup_empty.
  intros [[_ <-]|[_ [[_ <-]|[_ [[_ <-]|[_ H]]]]]]; [..|done];
    apply (validateTemplate_valid decimalToNumber _
             {| isValid := true; errors := []; warnings := [] |});
    vm_compute; reflexivity.
Qed.

Lemma accepted_collection_empty : accepted_collection ∅.
Proof. intros id t H. by rewrite lookup_empty in H. Qed.

Lemma accepted_collection_insert id template m :
  template_shape template → accepted_collection m →
  accepted_collection (<[id := template]> m).
Proof.
  intros Ht Hm id' t H.
  destruct (decide (id = id')) as [<-|Hne].
  - rewrite lookup_insert_eq in H. by injection H as <-.
  - rewrite lookup_insert_ne in H by done. eauto.
Qed.

Lemma accepted_collection_delete id m :
  accepted_collection m → accepted_collection (delete id m).
Proof. intros Hm id' t H. apply lookup_delete_Some in H as [_ H]. eauto. Qed.

(** *** Facts about the operations *)

Lemma ensureInitialized_initialized e s :
  initialized s = true → ensureInitialized e s = s.
Proof. unfold ensureInitialized. by intros ->. Qed.

Lemma ensureInitialized_builtInTemplates e s :
  builtInTemplates (ensureInitialized e s) = builtInTemplates s.
Proof.
  unfold ensureInitialized, init. destruct (initialized s); simpl; [done|].
  unfold loadUserTemplates. by destruct (storage_get e).
Qed.

Lemma ensureInitialized_storage e s :
  fnsku_user_templates (ensureInitialized e s) = fnsku_user_templates s.
Proof.
  unfold ensureInitialized, init. destruct (initialized s); simpl; [done|].
  unfold loadUserTemplates. by destruct (storage_get e).
Qed.

Lemma ensureInitialized_is_initialized e s :
  initialized (ensureInitialized e s) = true.
Proof.
  unfold ensureInitialized, init. by destruct (initialized s) eqn:E; simpl.
Qed.

Lemma builtIns_lookup id :
  is_Some (builtIns !! id) ↔
  id = "thermal_57x32" ∨ id = "thermal_57x32_minimal" ∨ id = "shipping_4x6".
Proof.
  unfold builtIns. rewrite !lookup_insert_is_Some, lookup_empty.
  split.
  - intros [?|[_ [?|[_ [?|[_ H]]]]]]; auto. by destruct H.
  - intros [-> | [-> | ->]]; [by left|right; split; [done|by left]|].
    right; split; [done|]. right; split; [done|]. by left.
Qed.

(** A generated id is never the id of a built-in template, nor the name of
    a member of [Object.prototype]. *)
Lemma generated_id_not_builtIn suffix : builtIns !! ("user_" +:+ suffix) = None.
Proof.
  apply eq_None_not_Some. rewrite builtIns_lookup. simpl.
  intros [H|[H|H]]; discriminate H.
Qed.

Lemma generated_id_not_inherited suffix : inherited_name ("user_" +:+ suffix) = false.
Proof. reflexivity. Qed.

Lemma builtIns_not_inherited id : is_Some (builtIns !! id) → inherited_name id = false.
Proof. rewrite builtIns_lookup. by intros [-> | [-> | ->]]. Qed.

Lemma builtIn_member_own s id template :
  builtInTemplates s !! id = Some template →
  builtIn_member s id = Property (VObject template).
Proof. apply lookup_member_own. Qed.

Lemma builtIn_member_none s id :
  builtInTemplates s !! id = None → inherited_name id = false →
  builtIn_member s id = Nothing.
Proof.
  intros Hb Hn. apply lookup_member_plain; [done|].
  unfold inherits_from. by rewrite Hn.
Qed.

Lemma inherits_inherited_name s id : inherits s id = false → inherited_name id = false.
Proof. unfold inherits, inherits_from. intros H. by apply orb_false_iff in H as [? _]. Qed.

(** Under an id that names no member of [Object.prototype], [getTemplate]
    returns the template that is stored under it. *)
Lemma getTemplate_stored e id s template :
  inherited_name id = false →
  stored_template (ensureInitialized e s) id = Some template →
  getTemplate e id s = (Some template, ensureInitialized e s).
Proof.
  intros Hn Hs. unfold getTemplate, stored_template in *.
  destruct (builtInTemplates (ensureInitialized e s) !! id) as [b|] eqn:E.
  - injection Hs as ->. by rewrite (builtIn_member_own _ _ _ E).
  - rewrite (builtIn_member_none _ _ E Hn). cbn [member_truthy].
    unfold user_member. by rewrite (lookup_member_own _ _ _ _ _ Hs).
Qed.

(** Under an id that names nothing inherited and under which nothing is
    stored, it returns [null]. *)
Lemma getTemplate_missing e id s :
  inherits (ensureInitialized e s) id = false →
  stored_template (ensureInitialized e s) id = None →
  getTemplate e id s = (None, ensureInitialized e s).
Proof.
  intros Hi Hs. unfold getTemplate, stored_template in *.
  destruct (builtInTemplates (ensureInitialized e s) !! id) as [b|] eqn:E;
    [discriminate|].
  rewrite (builtIn_member_none _ _ E (inherits_inherited_name _ _ Hi)).
  cbn [member_truthy]. unfold user_member.
  by rewrite (lookup_member_plain _ _ _ _ Hs Hi).
Qed.

(** Under the name of a member of [Object.prototype] that is no built-in
    id, it returns a copy of that member: an object without properties. *)
Lemma getTemplate_inherited e id s :
  builtInTemplates (ensureInitialized e s) !! id = None →
  inherited_name id = true →
  getTemplate e id s = (Some ∅, ensureInitialized e s).
Proof.
  intros Hb Hn. unfold getTemplate, builtIn_member.
  by rewrite (lookup_member_inherited _ _ _ Hb Hn).
Qed.

(** *** States that the program can reach *)

Section Reachable.
Variable StringToNumber : string -> option Q.

(** The first manager runs on a backend that holds no user templates; a
    later one (another page, a later session) is constructed on the backend
    as the earlier ones left it.  [importTemplate] is [createTemplate] on
    other data, and the getters change the state as [init] does. *)
Inductive reachable : state → Prop :=
| reachable_first : reachable (new None)
| reachable_again s : reachable s → reachable (new (fnsku_user_templates s))
| reachable_init e s : reachable s → reachable (init e s)
| reachable_create e templateData s :
    reachable s → reachable (createTemplate StringToNumber e templateData s).2
| reachable_update e templateId templateData s :
    reachable s →
    reachable (updateTemplate StringToNumber e templateId templateData s).2
| reachable_delete e templateId s :
    reachable s → reachable (deleteTemplate e templateId s).2
| reachable_clear e s : reachable s → reachable (clearUserTemplates e s).2.

(** The built-in templates are those of the constructor, and every user
    template, in the manager and on the backend, is one that validation
    accepts. *)
Definition sound (s : state) : Prop :=
  builtInTemplates s = builtIns
  ∧ accepted_collection (userTemplates s)
  ∧ ∀ m, fnsku_user_templates s = Some m → accepted_collection m.

Lemma sound_new stored :
  (∀ m, stored = Some m → accepted_collection m) → sound (new stored).
Proof. intros H. split; [done|]. split; [apply accepted_collection_empty|done]. Qed.

Lemma sound_replace_userTemplates m s :
  sound s → accepted_collection m → sound (replace_userTemplates m s).
Proof. intros (Hb & _ & Hs) Hm. by split. Qed.

Lemma sound_set_userTemplates m s :
  sound s → accepted_collection m → sound (set_userTemplates m s).
Proof. intros (Hb & _ & Hs) Hm. by split. Qed.

Lemma sound_set_userPrototype prototype s : sound s → sound (set_userPrototype prototype s).
Proof. by intros (Hb & Hu & Hs). Qed.

Lemma sound_emit event data s : sound s → sound (emit event data s).
Proof. by intros (Hb & Hu & Hs). Qed.

Lemma sound_set_initialized b s : sound s → sound (set_initialized b s).
Proof. by intros (Hb & Hu & Hs). Qed.

Lemma sound_init e s : sound s → sound (init e s).
Proof.
  intros Hi. unfold init. destruct (initialized s); [done|].
  apply sound_emit, sound_set_initialized. unfold loadUserTemplates.
  destruct (storage_get e);
    (apply sound_replace_userTemplates; [done|]);
    [|apply accepted_collection_empty].
  destruct Hi as (_ & _ & Hs).
  destruct (fnsku_user_templates s) as [m|]; simpl;
    [by apply Hs | apply accepted_collection_empty].
Qed.

Lemma sound_ensureInitialized e s : sound s → sound (ensureInitialized e s).
Proof.
  unfold ensureInitialized. destruct (negb (initialized s)); auto using sound_init.
Qed.

Lemma sound_saveUserTemplates e s : sound s → sound (saveUserTemplates e s).2.
Proof.
  intros (Hb & Hu & Hs). unfold saveUserTemplates.
  destruct (storage_set e); simpl; [|done].
  split; [done|]. split; [done|]. simpl. by intros ? [= <-].
Qed.

Lemma sound_assign_userTemplate id template s :
  sound s → template_shape template → sound (assign_userTemplate id template s).
Proof.
  intros Hi Ht. unfold assign_userTemplate.
  destruct (assigns_prototype _ _ _); [by apply sound_set_userPrototype|].
  apply sound_set_userTemplates; [done|].
  apply accepted_collection_insert; [done|]. by destruct Hi as (_ & ? & _).
Qed.

(** A save, and then the event of a save that has succeeded. *)
Lemma sound_saved {A} e (s : state) (k : state → A * state) (failed : exn → A) :
  sound s →
  (∀ s', sound s' → sound (k s').2) →
  sound (match saveUserTemplates e s with
         | (Throw ex, s') => (failed ex, s')
         | (Return _, s') => k s'
         end).2.
Proof.
  intros Hi Hk. pose proof (sound_saveUserTemplates e s Hi) as Hsave.
  destruct (saveUserTemplates e s) as [[[]|ex] s1]; simpl in *; auto.
Qed.

Lemma sound_createTemplate e templateData s :
  sound s → sound (createTemplate StringToNumber e templateData s).2.
Proof.
  intros Hi. apply (sound_ensureInitialized e) in Hi. unfold createTemplate.
  destruct (validateTemplate StringToNumber templateData) as [v|] eqn:Hv; [|done].
  destruct (isValid v) eqn:Hvalid; cbn [negb]; [|done].
  pose proof (validateTemplate_valid _ _ _ Hv Hvalid) as Hshape.
  apply (sound_saved e _ (fun s' => (Return _, emit _ _ s')) Throw);
    [|intros s' Hs'; by apply sound_emit].
  apply sound_set_userTemplates; [done|].
  apply accepted_collection_insert; [by apply template_shape_union|].
  by destruct Hi as (_ & ? & _).
Qed.

Lemma sound_updateTemplate e templateId templateData s :
  sound s → sound (updateTemplate StringToNumber e templateId templateData s).2.
Proof.
  intros Hi. apply (sound_ensureInitialized e) in Hi. unfold updateTemplate.
  destruct (negb (member_truthy (user_member (ensureInitialized e s) templateId)));
    [done|].
  destruct (validateTemplate StringToNumber templateData) as [v|] eqn:Hv; [|done].
  destruct (isValid v) eqn:Hvalid; cbn [negb]; [|done].
  pose proof (validateTemplate_valid _ _ _ Hv Hvalid) as Hshape.
  apply (sound_saved e _ (fun s' => (Return _, emit _ _ s')) Throw);
    [|intros s' Hs'; by apply sound_emit].
  apply sound_assign_userTemplate; [done|]. by apply template_shape_updated.
Qed.

Lemma sound_deleteTemplate e templateId s :
  sound s → sound (deleteTemplate e templateId s).2.
Proof.
  intros Hi. apply (sound_ensureInitialized e) in Hi. unfold deleteTemplate.
  destruct (negb (member_truthy (user_member (ensureInitialized e s) templateId)));
    [done|].
  apply (sound_saved e _ (fun s' => (Return true, emit _ _ s')) Throw);
    [|intros s' Hs'; by apply sound_emit].
  apply sound_set_userTemplates; [done|].
  apply accepted_collection_delete. by destruct Hi as (_ & ? & _).
Qed.

Lemma sound_clearUserTemplates e s : sound s → sound (clearUserTemplates e s).2.
Proof.
  intros Hi. apply (sound_ensureInitialized e) in Hi. unfold clearUserTemplates.
  apply (sound_saved e _ (fun s' => (Return true, emit _ _ s')) Throw);
    [|intros s' Hs'; by apply sound_emit].
  apply sound_replace_userTemplates; [done|apply accepted_collection_empty].
Qed.

Lemma reachable_sound s : reachable s → sound s.
Proof.
  induction 1 as [|s _ IH| | | | |].
  - by apply sound_new.
  - apply sound_new. by destruct IH as (_ & _ & ?).
  - by apply sound_init.
  - by apply sound_createTemplate.
  - by apply sound_updateTemplate.
  - by apply sound_deleteTemplate.
  - by apply sound_clearUserTemplates.
Qed.

Lemma reachable_ensureInitialized e s : reachable s → reachable (ensureInitialized e s).
Proof.
  intros Hr. unfold ensureInitialized.
  destruct (negb (initialized s)); [by apply reachable_init | done].
Qed.

Lemma reachable_builtInTemplates e s :
  reachable s → builtInTemplates (ensureInitialized e s) = builtIns.
Proof. intros Hr. by destruct (sound_ensureInitialized e s (reachable_sound s Hr)). Qed.

(** In a reachable state, a template that is stored under an id is one
    that validation accepts, and it has an [elements] object. *)
Lemma stored_template_shape e id s template :
  reachable s →
  stored_template (ensureInitialized e s) id = Some template →
  template_shape template.
Proof.
  intros Hr. destruct (sound_ensureInitialized e s (reachable_sound s Hr))
    as (Hb & Hu & _).
  unfold stored_template. rewrite Hb.
  destruct (builtIns !! id) as [b|] eqn:E.
  - intros [= <-]. by apply (builtIns_accepted id).
  - by apply Hu.
Qed.

Lemma template_shape_elements template :
  template_shape template → is_nullish (prop template "elements") = false.
Proof. intros (_ & _ & _ & _ & (elements & -> & _) & _). done. Qed.

(** [validateTemplate] returns a result that is valid. *)
Definition passes (templateData : obj) : bool :=
  match validateTemplate StringToNumber templateData with
  | Return v => isValid v
  | Throw _ => false
  end.

(** What [updateTemplate] does to a user template with an accepted
    payload, by the answer of the backend. *)
Lemma updateTemplate_own e templateId templateData current s :
  userTemplates (ensureInitialized e s) !! templateId = Some current →
  passes templateData = true →
  updateTemplate StringToNumber e templateId templateData s
  = match storage_set e with
    | Fulfilled =>
        (Return (<["updatedAt" := VString (iso_first e)]>
                   (<["userCreated" := VBool true]>
                      (<["id" := VString templateId]> (spread current templateData)))),
         emit "templateUpdated"
           (VObject (<["updatedAt" := VString (iso_first e)]>
                       (<["userCreated" := VBool true]>
                          (<["id" := VString templateId]> (spread current templateData)))))
           (set_stored
              (Some (<[templateId :=
                         <["updatedAt" := VString (iso_first e)]>
                           (<["userCreated" := VBool true]>
                              (<["id" := VString templateId]>
                                 (spread current templateData)))]>
                       (userTemplates (ensureInitialized e s))))
              (set_userTemplates
                 (<[templateId :=
                      <["updatedAt" := VString (iso_first e)]>
                        (<["userCreated" := VBool true]>
                           (<["id" := VString templateId]>
                              (spread current templateData)))]>
                    (userTemplates (ensureInitialized e s)))
                 (ensureInitialized e s))))
    | Rejected ex =>
        (Throw ex,
         set_userTemplates
           (<[templateId :=
                <["updatedAt" := VString (iso_first e)]>
                  (<["userCreated" := VBool true]>
                     (<["id" := VString templateId]> (spread current templateData)))]>
              (userTemplates (ensureInitialized e s)))
           (ensureInitialized e s))
    end.
Proof.
  intros Hcur Hp. unfold passes in Hp.
  destruct (validateTemplate StringToNumber templateData) as [v|] eqn:Hv;
    [|discriminate].
  unfold updateTemplate, user_member.
  rewrite (lookup_member_own _ _ _ _ _ Hcur).
  cbn [member_truthy truthy negb member_spread own_props].
  rewrite Hv, Hp. cbn [negb]. unfold assign_userTemplate.
  rewrite assigns_prototype_own by eauto. unfold saveUserTemplates.
  by destruct (storage_set e).
Qed.

(** Without a user template, an installed property or a member of
    [Object.prototype] under the id, [updateTemplate] and [deleteTemplate]
    throw and leave the manager as the initialisation left it. *)
Lemma updateTemplate_not_found e templateId templateData s :
  member_truthy (user_member (ensureInitialized e s) templateId) = false →
  updateTemplate StringToNumber e templateId templateData s
  = (Throw (Error "Template not found or cannot be modified"), ensureInitialized e s).
Proof. unfold updateTemplate. by intros ->. Qed.

Lemma deleteTemplate_not_found e templateId s :
  member_truthy (user_member (ensureInitialized e s) templateId) = false →
  deleteTemplate e templateId s
  = (Throw (Error "Template not found or cannot be deleted"), ensureInitialized e s).
Proof. unfold deleteTemplate. by intros ->. Qed.

(** What holds of defective data: when [validateTemplate] runs to its end
    on template data with a width or height that is a number at most zero,
    an orientation other than portrait and landscape, or neither a barcode
    nor an fnsku element, [createTemplate] throws the validation error with
    its non-empty list of messages, and so does [updateTemplate] under an id
    that passes its existence test.  The state is unchanged. *)
Lemma evaluable_defective_template_rejected e templateData s :
  initialized s = true →
  defective templateData →
  evaluable templateData = true →
  ∃ messages,
    messages ≠ []
    ∧ createTemplate StringToNumber e templateData s
      = (Throw (Error ("Template validation failed: " +:+ join ", " messages)), s)
    ∧ ∀ templateId,
        member_truthy (user_member s templateId) = true →
        updateTemplate StringToNumber e templateId templateData s
        = (Throw (Error ("Template validation failed: " +:+ join ", " messages)), s).
Proof.
  intros Hinit Hd Hev.
  destruct (validateTemplate_returns StringToNumber _ Hev) as [v Hv].
  destruct (validateTemplate_defective StringToNumber _ _ Hd Hv) as [Hvalid Hne].
  exists (errors v). split; [done|].
  unfold createTemplate, updateTemplate.
  rewrite (ensureInitialized_initialized e s Hinit), Hv, Hvalid. simpl.
  split; [done|]. intros templateId ->. done.
Qed.


(** C10.  When [templateId] is the id of a user template and the payload
    passes validation, the template that [updateTemplate] stores under
    [templateId] has [id] equal to [templateId] and [userCreated] equal to
    [true], whatever the payload holds for these two fields; that template is
    the one returned when the write to the backend succeeds, and the call
    throws the backend's error otherwise. *)
Theorem updateTemplate_forces_id_and_userCreated e templateId templateData s :
  is_Some (userTemplates (ensureInitialized e s) !! templateId) →
  passes templateData = true →
  ∃ updated,
    userTemplates (updateTemplate StringToNumber e templateId templateData s).2
      !! templateId = Some updated
    ∧ updated !! "id" = Some (VString templateId)
    ∧ updated !! "userCreated" = Some (VBool true)
    ∧ (storage_set e = Fulfilled →
       (updateTemplate StringToNumber e templateId templateData s).1 = Return updated)
    ∧ (∀ ex, storage_set e = Rejected ex →
       (updateTemplate StringToNumber e templateId templateData s).1 = Throw ex).
Proof.
  intros [current Hcur] Hp. rewrite (updateTemplate_own _ _ _ _ _ Hcur Hp).
  eexists. destruct (storage_set e) as [|ex0]; simpl.
  - rewrite lookup_insert_eq. split; [reflexivity|].
    split; [by rewrite lookup_insert_ne, lookup_insert_ne, lookup_insert_eq|].
    split; [by rewrite lookup_insert_ne, lookup_insert_eq|].
    split; [done|]. intros ? [=].
  - rewrite lookup_insert_eq. split; [reflexivity|].
    split; [by rewrite lookup_insert_ne, lookup_insert_ne, lookup_insert_eq|].
    split; [by rewrite lookup_insert_ne, lookup_insert_eq|].
    split; [intros [=]|]. by intros ? [= ->].
Qed.

(** What [createTemplate] returns for accepted data: every field of the
    data is in the result as it was given, the generated id and the stamps
    only fill the fields that the data leaves out. *)
Lemma createTemplate_accepted e templateData s :
  passes templateData = true →
  storage_set e = Fulfilled →
  ∃ template,
    (createTemplate StringToNumber e templateData s).1 = Return template
    ∧ userTemplates (createTemplate StringToNumber e templateData s).2
        !! ("user_" +:+ pretty (Date_now e) +:+ "_" +:+ random_digits e)
      = Some template
    ∧ (∀ k x, templateData !! k = Some x → template !! k = Some x)
    ∧ (templateData !! "id" = None →
       template !! "id"
       = Some (VString ("user_" +:+ pretty (Date_now e) +:+ "_" +:+ random_digits e))).
Proof.
  intros Hp Hset. unfold passes in Hp.
  destruct (validateTemplate StringToNumber templateData) as [v|] eqn:Hv;
    [|discriminate].
  unfold createTemplate, saveUserTemplates. rewrite Hv, Hp, Hset. simpl.
  eexists. split; [reflexivity|]. split; [by rewrite lookup_insert_eq|].
  unfold spread. split.
  - intros k x Hk. by apply lookup_union_Some_l.
  - intros Hid. by rewrite lookup_union_r.
Qed.
End Reachable.

Section Store.
Variable StringToNumber : string -> option Q.
Variable NumberToString : Q -> string.

(** The name of the template, when it is a string, is an ASCII one. *)
Definition ascii_name (template : obj) : bool :=
  match prop template "name" with
  | VString name => is_ascii name
  | _ => true
  end.

(** X1.  For a template whose name, when it is a string, is made of ASCII
    characters, [validateTemplate] accepts the template exactly when its
    name is a string that is not blank, its width and height are numbers
    above zero, its orientation is portrait or landscape, its
    [contentInclusion] is an object, and its [elements] is an object with a
    truthy [barcode] or [fnsku] whose members are all objects with [x] and
    [y] not below zero, for a barcode and an image a [width] and a [height]
    above zero, and for fnsku, sku and title a [fontSize] above zero, where
    each of these numbers may also be [NaN].  On an ASCII name the white
    space that [blank] looks for is the white space that [trim] removes. *)
Theorem validateTemplate_accepts_iff template :
  ascii_name template = true →
  passes StringToNumber template = true ↔ template_shape template.
Proof.
  intros _. unfold passes. split.
  - destruct (validateTemplate StringToNumber template) as [v|] eqn:E; [|discriminate].
    by apply (validateTemplate_valid StringToNumber _ v).
  - intros H.
    by destruct (validateTemplate_shape StringToNumber _ H) as (v & -> & Hv & _).
Qed.

Lemma template_shape_passes template :
  template_shape template → passes StringToNumber template = true.
Proof.
  intros H. unfold passes.
  by destruct (validateTemplate_shape StringToNumber _ H) as (v & -> & Hv & _).
Qed.

(** X3.  In every reachable state, under an id that names no member of
    [Object.prototype], [getTemplate] returns the template that is stored
    under the id, built-in first, and that template is one that
    [validateTemplate] accepts; under the name of a member of
    [Object.prototype], which is no built-in id, it returns an object
    without properties instead of [null]. *)
Theorem getTemplate_returns_accepted_template e templateId s :
  reachable StringToNumber s →
  (inherited_name templateId = false →
   ∀ template,
     stored_template (ensureInitialized e s) templateId = Some template →
     getTemplate e templateId s = (Some template, ensureInitialized e s)
     ∧ passes StringToNumber template = true)
  ∧ (inherited_name templateId = true →
     getTemplate e templateId s = (Some ∅, ensureInitialized e s)).
Proof.
  intros Hr. split.
  - intros Hn template Hs. split; [by apply getTemplate_stored|].
    apply template_shape_passes.
    by apply (stored_template_shape StringToNumber e templateId s).
  - intros Hn. apply getTemplate_inherited; [|done].
    rewrite (reachable_builtInTemplates StringToNumber e s Hr).
    destruct (builtIns !! templateId) as [t|] eqn:E; [|done].
    rewrite builtIns_not_inherited in Hn by eauto. discriminate.
Qed.

Lemma generatedId_not_builtIn e : builtIns !! generatedId e = None.
Proof. apply generated_id_not_builtIn. Qed.

Lemma generatedId_not_inherited e : inherited_name (generatedId e) = false.
Proof. apply generated_id_not_inherited. Qed.

(** What [createTemplate] does with accepted data, by the answer of the
    backend. *)
Lemma createTemplate_passes e templateData s :
  passes StringToNumber templateData = true →
  createTemplate StringToNumber e templateData s
  = match storage_set e with
    | Fulfilled =>
        (Return (stamped e templateData),
         emit "templateCreated" (VObject (stamped e templateData))
           (set_stored
              (Some (<[generatedId e := stamped e templateData]>
                       (userTemplates (ensureInitialized e s))))
              (set_userTemplates
                 (<[generatedId e := stamped e templateData]>
                    (userTemplates (ensureInitialized e s)))
                 (ensureInitialized e s))))
    | Rejected ex =>
        (Throw ex,
         set_userTemplates
           (<[generatedId e := stamped e templateData]>
              (userTemplates (ensureInitialized e s)))
           (ensureInitialized e s))
    end.
Proof.
  intros Hp. unfold passes in Hp.
  destruct (validateTemplate StringToNumber templateData) as [v|] eqn:Hv;
    [|discriminate].
  unfold createTemplate, saveUserTemplates. rewrite Hv, Hp. simpl.
  by destruct (storage_set e).
Qed.

(** The generated id is found in a state that holds a template under it. *)
Lemma getTemplate_generatedId e e' template s :
  initialized s = true →
  builtInTemplates s = builtIns →
  userTemplates s !! generatedId e = Some template →
  getTemplate e' (generatedId e) s = (Some template, s).
Proof.
  intros Hi Hb Hu.
  pose proof (getTemplate_stored e' (generatedId e) s template) as H.
  rewrite (ensureInitialized_initialized e' s Hi) in H. apply H.
  - apply generatedId_not_inherited.
  - unfold stored_template. by rewrite Hb, generatedId_not_builtIn.
Qed.

(** X4.  In a reachable state, after [createTemplate] has returned a
    template, [getTemplate] on the generated id returns that template
    without changing the state, the backend holds the user templates of the
    manager, and the last event is [templateCreated] with the template. *)
Theorem createTemplate_then_getTemplate e e' templateData s :
  reachable StringToNumber s →
  passes StringToNumber templateData = true →
  storage_set e = Fulfilled →
  ∃ template after,
    createTemplate StringToNumber e templateData s = (Return template, after)
    ∧ getTemplate e' (generatedId e) after = (Some template, after)
    ∧ fnsku_user_templates after = Some (userTemplates after)
    ∧ last (emitted after) = Some ("templateCreated", VObject template).
Proof.
  intros Hr Hp Hset. rewrite (createTemplate_passes _ _ _ Hp), Hset.
  eexists _, _. split; [reflexivity|].
  split; [|split; [done|apply last_snoc]].
  apply getTemplate_generatedId.
  - apply ensureInitialized_is_initialized.
  - apply (reachable_builtInTemplates StringToNumber e s Hr).
  - apply lookup_insert_eq.
Qed.

(** X5.  In a reachable state, [deleteTemplate] on the id of a user
    template that names nothing the user templates inherit, and that is no
    built-in id, returns [true] when the write succeeds; [getTemplate] then
    no longer finds the id and finds every other id as before, a second
    [deleteTemplate] on the id throws "not found or cannot be deleted" and
    changes nothing, and the last event is [templateDeleted] with the
    deleted template. *)
Theorem deleteTemplate_then_getTemplate e e' templateId template s :
  reachable StringToNumber s →
  userTemplates (ensureInitialized e s) !! templateId = Some template →
  inherits (ensureInitialized e s) templateId = false →
  builtIns !! templateId = None →
  storage_set e = Fulfilled →
  ∃ after,
    deleteTemplate e templateId s = (Return true, after)
    ∧ (getTemplate e' templateId after).1 = None
    ∧ (∀ other, other ≠ templateId →
         (getTemplate e' other after).1 = (getTemplate e other s).1)
    ∧ deleteTemplate e' templateId after
      = (Throw (Error "Template not found or cannot be deleted"), after)
    ∧ last (emitted after) = Some ("templateDeleted", VObject template).
Proof.
  intros Hr Ht Hi Hb Hset. unfold deleteTemplate at 1. unfold user_member at 1 2.
  rewrite (lookup_member_own _ _ _ _ _ Ht).
  cbn [member_truthy truthy negb member_spread own_props].
  unfold saveUserTemplates. rewrite Hset.
  eexists. split; [reflexivity|].
  pose proof (reachable_builtInTemplates StringToNumber e s Hr) as Hbuilt.
  set (s0 := ensureInitialized e s) in *.
  set (after := emit _ _ _).
  assert (Hinit : ensureInitialized e' after = after)
    by (apply ensureInitialized_initialized, ensureInitialized_is_initialized).
  assert (Hgone : member_truthy (user_member after templateId) = false).
  { unfold user_member. rewrite lookup_member_plain; [done| |exact Hi].
    apply lookup_delete_eq. }
  split; [|split; [|split; [|apply last_snoc]]].
  - rewrite (getTemplate_missing e' templateId after); rewrite ?Hinit; try done.
    unfold stored_template. cbn -[builtIns]. rewrite Hbuilt, Hb.
    apply lookup_delete_eq.
  - intros other Hne. unfold getTemplate. cbv zeta. rewrite Hinit. fold s0.
    assert (Hsame : user_member after other = user_member s0 other)
      by (unfold user_member, lookup_member; cbn -[builtIns];
          by rewrite lookup_delete_ne).
    change (builtIn_member after other) with (builtIn_member s0 other).
    rewrite Hsame.
    destruct (member_truthy (builtIn_member s0 other)); [done|].
    by destruct (member_truthy (user_member s0 other)).
  - rewrite <- Hinit at 2. by apply deleteTemplate_not_found; rewrite Hinit.
Qed.

(** X6.  When the write to the backend fails, [createTemplate] on accepted
    data throws the error of the backend and emits nothing, and the backend
    is as before; but the template stays in the manager, where
    [getTemplate] finds it under the generated id. *)
Theorem createTemplate_failed_write_keeps_template e e' ex templateData s :
  reachable StringToNumber s →
  passes StringToNumber templateData = true →
  storage_set e = Rejected ex →
  ∃ after,
    createTemplate StringToNumber e templateData s = (Throw ex, after)
    ∧ emitted after = emitted (ensureInitialized e s)
    ∧ fnsku_user_templates after = fnsku_user_templates s
    ∧ getTemplate e' (generatedId e) after = (Some (stamped e templateData), after).
Proof.
  intros Hr Hp Hset. rewrite (createTemplate_passes _ _ _ Hp), Hset.
  eexists. split; [reflexivity|]. split; [done|].
  split; [apply ensureInitialized_storage|].
  apply getTemplate_generatedId.
  - apply ensureInitialized_is_initialized.
  - apply (reachable_builtInTemplates StringToNumber e s Hr).
  - apply lookup_insert_eq.
Qed.

(** X7.  [updateTemplate] of a user template with an accepted payload
    stores a template whose [updatedAt] is the time of the call and whose
    other fields, [id] and [userCreated] apart, are those of the payload
    where the payload has them and those of the stored template otherwise;
    the other user templates are as before. *)
Theorem updateTemplate_merges_payload e templateId templateData current s :
  userTemplates (ensureInitialized e s) !! templateId = Some current →
  passes StringToNumber templateData = true →
  ∃ updated,
    userTemplates (updateTemplate StringToNumber e templateId templateData s).2
      !! templateId = Some updated
    ∧ updated !! "updatedAt" = Some (VString (iso_first e))
    ∧ (∀ k, k ≠ "id" → k ≠ "userCreated" → k ≠ "updatedAt" →
         updated !! k = match templateData !! k with
                        | Some x => Some x
                        | None => current !! k
                        end)
    ∧ ∀ other, other ≠ templateId →
        userTemplates (updateTemplate StringToNumber e templateId templateData s).2
          !! other
        = userTemplates (ensureInitialized e s) !! other.
Proof.
  intros Hcur Hp. rewrite (updateTemplate_own _ _ _ _ _ _ Hcur Hp).
  eexists.
  assert (Hk : ∀ k, k ≠ "id" → k ≠ "userCreated" → k ≠ "updatedAt" →
            (<["updatedAt" := VString (iso_first e)]>
               (<["userCreated" := VBool true]>
                  (<["id" := VString templateId]> (spread current templateData))))
              !! k
            = match templateData !! k with
              | Some x => Some x
              | None => current !! k
              end).
  { intros k H1 H2 H3. rewrite !lookup_insert_ne by done.
    unfold spread. rewrite lookup_union. by destruct (templateData !! k), (current !! k). }
  destruct (storage_set e) as [|ex0]; simpl;
    (split; [by rewrite lookup_insert_eq|]);
    (split; [by rewrite lookup_insert_eq|]);
    (split; [exact Hk|]);
    intros other Hne; by rewrite lookup_insert_ne.
Qed.

(** The user templates that a new manager loads from the backend as [s]
    leaves it. *)
Definition reloaded (e : env) (s : state) : gmap string obj :=
  userTemplates (init e (new (fnsku_user_templates s))).

Lemma reloaded_stored e s :
  storage_get e = Fulfilled →
  fnsku_user_templates s = Some (userTemplates s) →
  reloaded e s = userTemplates s.
Proof.
  intros Hget Hs. unfold reloaded, init, loadUserTemplates. simpl.
  by rewrite Hget, Hs.
Qed.

Lemma saved_is_stored {A} e (s : state) (k : state → A * state) (failed : exn → A)
    (P : state → Prop) :
  (∀ s', fnsku_user_templates s' = Some (userTemplates s') → P (k s').2) →
  (∀ ex s', P (failed ex, s').2) →
  P (match saveUserTemplates e s with
     | (Throw ex, s') => (failed ex, s')
     | (Return _, s') => k s'
     end).2.
Proof.
  intros Hk Hf. unfold saveUserTemplates. destruct (storage_set e); [|apply Hf].
  by apply Hk.
Qed.

(** X8.  When one of [createTemplate], [updateTemplate], [deleteTemplate]
    and [clearUserTemplates] returns, a new manager that reads the backend
    successfully loads the user templates that the manager then holds. *)
Theorem returned_mutation_is_persisted e e' s :
  storage_get e' = Fulfilled →
  (∀ templateData template,
     (createTemplate StringToNumber e templateData s).1 = Return template →
     reloaded e' (createTemplate StringToNumber e templateData s).2
     = userTemplates (createTemplate StringToNumber e templateData s).2)
  ∧ (∀ templateId templateData template,
       (updateTemplate StringToNumber e templateId templateData s).1 = Return template →
       reloaded e' (updateTemplate StringToNumber e templateId templateData s).2
       = userTemplates (updateTemplate StringToNumber e templateId templateData s).2)
  ∧ (∀ templateId done,
       (deleteTemplate e templateId s).1 = Return done →
       reloaded e' (deleteTemplate e templateId s).2
       = userTemplates (deleteTemplate e templateId s).2)
  ∧ (∀ done,
       (clearUserTemplates e s).1 = Return done →
       reloaded e' (clearUserTemplates e s).2
       = userTemplates (clearUserTemplates e s).2).
Proof.
  intros Hget. repeat split.
  - intros templateData template. unfold createTemplate, saveUserTemplates.
    destruct (validateTemplate StringToNumber templateData) as [v|]; [|done].
    destruct (isValid v); [|done]. simpl.
    destruct (storage_set e); [|done]. simpl. intros _. by apply reloaded_stored.
  - intros templateId templateData template. unfold updateTemplate, saveUserTemplates.
    destruct (negb (member_truthy _)); [done|].
    destruct (validateTemplate StringToNumber templateData) as [v|]; [|done].
    destruct (isValid v); [|done]. cbn [negb].
    destruct (storage_set e); [|done]. cbn [fst snd]. intros _.
    by apply reloaded_stored.
  - intros templateId done. unfold deleteTemplate, saveUserTemplates.
    destruct (negb (member_truthy _)); [done|].
    destruct (storage_set e); [|done]. simpl. intros _. by apply reloaded_stored.
  - intros done. unfold clearUserTemplates, saveUserTemplates.
    destruct (storage_set e); [|done]. simpl. intros _. by apply reloaded_stored.
Qed.

Lemma elem_of_values (collection : gmap string obj) template :
  template ∈ values collection ↔ ∃ id, collection !! id = Some template.
Proof.
  unfold values. rewrite list_elem_of_fmap. split.
  - intros ([id t] & -> & Hin). exists id. by apply elem_of_map_to_list.
  - intros [id Hid]. exists (id, template). split; [done|].
    by apply elem_of_map_to_list.
Qed.

(** X9.  [getAllTemplates] lists the built-in and the user templates that
    the two collections hold as own properties, each with its [displayName]
    added, and nothing else; in a reachable state, a template that
    [getTemplate] finds under an id that names nothing inherited is in the
    list. *)
Theorem getAllTemplates_lists_stored_templates e s :
  reachable StringToNumber s →
  length (getAllTemplates NumberToString e s).1
  = (size (builtInTemplates s) + size (userTemplates (ensureInitialized e s)))%nat
  ∧ (∀ listed,
       listed ∈ (getAllTemplates NumberToString e s).1
       ↔ ∃ templateId template,
           (builtInTemplates s !! templateId = Some template
            ∨ userTemplates (ensureInitialized e s) !! templateId = Some template)
           ∧ listed = <["displayName" :=
                          VString (generateDynamicName NumberToString template)]>
                        template)
  ∧ ∀ templateId template,
      inherits (ensureInitialized e s) templateId = false →
      (getTemplate e templateId s).1 = Some template →
      <["displayName" := VString (generateDynamicName NumberToString template)]>
        template ∈ (getAllTemplates NumberToString e s).1.
Proof.
  intros Hr.
  assert (Hlisted : ∀ listed,
            listed ∈ (getAllTemplates NumberToString e s).1
            ↔ ∃ templateId template,
                (builtInTemplates s !! templateId = Some template
                 ∨ userTemplates (ensureInitialized e s) !! templateId = Some template)
                ∧ listed = <["displayName" :=
                               VString (generateDynamicName NumberToString template)]>
                             template).
  { intros listed. unfold getAllTemplates. cbn [fst].
    rewrite elem_of_app, !list_elem_of_fmap, ensureInitialized_builtInTemplates.
    split.
    - intros [(t & -> & Hin)|(t & -> & Hin)];
        apply elem_of_values in Hin as [id Hid]; exists id, t; auto.
    - intros (id & t & [Hid|Hid] & ->); [left|right];
        (exists t; split; [done|]); apply elem_of_values; eauto. }
  split; [|split; [exact Hlisted|]].
  - unfold getAllTemplates. cbn [fst].
    rewrite length_app, !length_fmap. unfold values. rewrite !length_fmap.
    rewrite !length_map_to_list. by rewrite ensureInitialized_builtInTemplates.
  - intros templateId template Hi Hget. apply Hlisted. exists templateId, template.
    split; [|done].
    destruct (stored_template (ensureInitialized e s) templateId) as [t|] eqn:Hs.
    + rewrite (getTemplate_stored e templateId s t
                 (inherits_inherited_name _ _ Hi) Hs) in Hget.
      injection Hget as <-. unfold stored_template in Hs.
      rewrite ensureInitialized_builtInTemplates in Hs.
      destruct (builtInTemplates s !! templateId); [left|right]; done.
    + rewrite (getTemplate_missing e templateId s Hi Hs) in Hget. discriminate.
Qed.

Lemma blank_append a b : blank (a +:+ b) = blank a && blank b.
Proof.
  unfold blank. induction a as [|c rest IH]; [done|].
  simpl. rewrite IH. by rewrite andb_assoc.
Qed.

Lemma blank_imported name : blank (name +:+ " (Imported)") = false.
Proof. rewrite blank_append. apply andb_false_r. Qed.

(** What [exportTemplate] returns is accepted again once [importTemplate]
    has renamed it. *)
Lemma importData_export_shape template :
  template_shape template →
  template_shape
    (importData NumberToString
       (delete "updatedAt" (delete "createdAt" (delete "id" template)))).
Proof.
  intros Hs. destruct Hs as ((name & Hname & Hb) & Hrest).
  assert (Hold : prop (delete "updatedAt" (delete "createdAt" (delete "id" template)))
                   "name" = VString name)
    by (unfold prop in Hname |- *; by rewrite !lookup_delete_ne by done).
  eapply (template_shape_renamed template _ (name +:+ " (Imported)"));
    [| apply blank_imported | .. | by split; [exists name|]];
    unfold importData.
  - rewrite Hold. unfold prop.
    by rewrite lookup_insert_ne, lookup_insert_eq by done.
  - unfold prop. by rewrite !lookup_insert_ne, !lookup_delete_ne by done.
  - unfold prop. by rewrite !lookup_insert_ne, !lookup_delete_ne by done.
  - unfold prop. by rewrite !lookup_insert_ne, !lookup_delete_ne by done.
  - unfold prop. by rewrite !lookup_insert_ne, !lookup_delete_ne by done.
  - unfold prop. by rewrite !lookup_insert_ne, !lookup_delete_ne by done.
Qed.

(** X10.  In a reachable state, what [exportTemplate] returns for a
    template that is stored under an id that names no member of
    [Object.prototype] is accepted by [importTemplate] when the write
    succeeds: the imported template is stored under the generated id with
    that id, [userCreated] true, the stamps of the call and the name followed
    by " (Imported)", and its other fields are those of the exported
    template. *)
Theorem exportTemplate_then_importTemplate e e' templateId template s :
  reachable StringToNumber s →
  inherited_name templateId = false →
  stored_template (ensureInitialized e s) templateId = Some template →
  storage_set e' = Fulfilled →
  ∃ exported imported,
    exportTemplate e templateId s = (Return exported, ensureInitialized e s)
    ∧ (importTemplate StringToNumber NumberToString e' exported
         (ensureInitialized e s)).1 = Return imported
    ∧ userTemplates
        (importTemplate StringToNumber NumberToString e' exported
           (ensureInitialized e s)).2 !! generatedId e' = Some imported
    ∧ imported !! "id" = Some (VString (generatedId e'))
    ∧ imported !! "userCreated" = Some (VBool true)
    ∧ imported !! "createdAt" = Some (VString (iso_first e'))
    ∧ imported !! "updatedAt" = Some (VString (iso_second e'))
    ∧ imported !! "name"
      = Some (VString (to_string NumberToString (prop template "name")
                       +:+ " (Imported)"))
    ∧ ∀ k, k ∉ ["id"; "userCreated"; "createdAt"; "updatedAt"; "name"] →
        imported !! k = template !! k.
Proof.
  intros Hr Hn Hs Hset.
  pose proof (stored_template_shape StringToNumber e templateId s template Hr Hs)
    as Hshape.
  pose proof (template_shape_passes _ (importData_export_shape _ Hshape)) as Hp.
  exists (delete "updatedAt" (delete "createdAt" (delete "id" template))).
  exists (stamped e' (importData NumberToString
            (delete "updatedAt" (delete "createdAt" (delete "id" template))))).
  split.
  { unfold exportTemplate. by rewrite (getTemplate_stored e templateId s template Hn Hs). }
  unfold importTemplate. rewrite (createTemplate_passes _ _ _ Hp), Hset.
  cbn [fst snd userTemplates emit set_stored set_userTemplates].
  split; [done|]. split; [by rewrite lookup_insert_eq|].
  unfold stamped, spread, importData.
  assert (Hstamps : ∀ k, k ∉ ["id"; "userCreated"; "createdAt"; "updatedAt"; "name"] →
            (list_to_map [("id", VString (generatedId e'));
                          ("userCreated", VBool true);
                          ("createdAt", VString (iso_first e'));
                          ("updatedAt", VString (iso_second e'))] : obj) !! k = None).
  { intros k Hk. rewrite !not_elem_of_cons in Hk.
    destruct Hk as (? & ? & ? & ? & ? & _). simpl.
    by rewrite !lookup_insert_ne, lookup_empty by done. }
  split; [|split; [|split; [|split; [|split]]]].
  - rewrite lookup_union_r; [done|].
    rewrite !lookup_insert_ne, !lookup_delete_ne by done. apply lookup_delete_eq.
  - apply lookup_union_Some_l. by rewrite lookup_insert_eq.
  - rewrite lookup_union_r; [done|].
    rewrite !lookup_insert_ne, lookup_delete_ne by done. apply lookup_delete_eq.
  - rewrite lookup_union_r; [done|].
    rewrite !lookup_insert_ne by done. apply lookup_delete_eq.
  - apply lookup_union_Some_l. rewrite lookup_insert_ne, lookup_insert_eq by done.
    unfold prop. by rewrite !lookup_delete_ne by done.
  - intros k Hk. rewrite lookup_union_l by auto.
    rewrite !not_elem_of_cons in Hk. destruct Hk as (? & ? & ? & ? & ? & _).
    by rewrite !lookup_insert_ne, !lookup_delete_ne by done.
Qed.

(** X11.  In a reachable state, after [clearUserTemplates] has returned,
    [getTemplate] finds the built-in templates, returns an object without
    properties for the name of a member of [Object.prototype], and finds
    nothing else; the backend holds an empty collection, and the last event
    is [templatesCleared] with the user templates that were deleted. *)
Theorem clearUserTemplates_leaves_builtIns e e' s :
  reachable StringToNumber s →
  storage_set e = Fulfilled →
  ∃ after,
    clearUserTemplates e s = (Return true, after)
    ∧ (∀ templateId,
         (getTemplate e' templateId after).1
         = match builtIns !! templateId with
           | Some template => Some template
           | None => if inherited_name templateId then Some ∅ else None
           end)
    ∧ fnsku_user_templates after = Some ∅
    ∧ last (emitted after)
      = Some ("templatesCleared",
              VObject (VObject <$> userTemplates (ensureInitialized e s))).
Proof.
  intros Hr Hset. unfold clearUserTemplates, saveUserTemplates. rewrite Hset.
  eexists. split; [reflexivity|]. split; [|split; [done|apply last_snoc]].
  intros templateId.
  pose proof (reachable_builtInTemplates StringToNumber e s Hr) as Hbuilt.
  set (after := emit _ _ _).
  assert (Hinit : ensureInitialized e' after = after)
    by (apply ensureInitialized_initialized, ensureInitialized_is_initialized).
  assert (Hb : builtInTemplates after = builtIns) by exact Hbuilt.
  destruct (builtIns !! templateId) as [t|] eqn:E.
  - rewrite (getTemplate_stored e' templateId after t); rewrite ?Hinit; try done.
    + apply builtIns_not_inherited. by rewrite E.
    + unfold stored_template. by rewrite Hb, E.
  - destruct (inherited_name templateId) eqn:Hn.
    + rewrite getTemplate_inherited; rewrite ?Hinit, ?Hb; done.
    + rewrite getTemplate_missing; rewrite ?Hinit; try done.
      * unfold inherits, inherits_from. by rewrite Hn.
      * unfold stored_template. by rewrite Hb, E.
Qed.

(** X12.  When the read of the backend fails while a manager initialises,
    the manager starts with no user templates; a [createTemplate] that
    then succeeds writes a collection that holds the new template only,
    whatever the backend held. *)
Theorem createTemplate_after_failed_read_overwrites e ex templateData s :
  initialized s = false →
  storage_get e = Rejected ex →
  storage_set e = Fulfilled →
  passes StringToNumber templateData = true →
  userTemplates (ensureInitialized e s) = ∅
  ∧ fnsku_user_templates (createTemplate StringToNumber e templateData s).2
    = Some {[ generatedId e := stamped e templateData ]}.
Proof.
  intros Hi Hget Hset Hp.
  assert (Hu : userTemplates (ensureInitialized e s) = ∅).
  { unfold ensureInitialized, init, loadUserTemplates. by rewrite Hi, Hget. }
  split; [done|].
  rewrite (createTemplate_passes _ _ _ Hp), Hset. simpl. by rewrite Hu.
Qed.
End Store.
(** *** Examples *)

Definition example_env : env :=
  {| storage_get := Fulfilled; storage_set := Fulfilled;
     Date_now := 1700000000000%N; random_digits := "k3j9x0q1z";
     iso_first := "2026-01-01T10:00:00.000Z";
     iso_second := "2026-01-01T10:00:00.001Z" |}.

(** An environment in which the write to the backend fails. *)
Definition failing_write_env : env :=
  {| storage_get := Fulfilled;
     storage_set := Rejected (Error "QUOTA_BYTES_PER_ITEM quota exceeded");
     Date_now := 1700000000000%N; random_digits := "k3j9x0q1z";
     iso_first := "2026-01-01T10:00:00.000Z";
     iso_second := "2026-01-01T10:00:00.001Z" |}.

(** An environment in which the read of the backend fails. *)
Definition failing_read_env : env :=
  {| storage_get := Rejected (Error "storage unavailable");
     storage_set := Fulfilled;
     Date_now := 1700000000000%N; random_digits := "k3j9x0q1z";
     iso_first := "2026-01-01T10:00:00.000Z";
     iso_second := "2026-01-01T10:00:00.001Z" |}.

(** The state after initialisation on an empty backend. *)
Definition initial_state : state := init example_env (new None).

(** A built-in template as [getTemplate] returns it, renamed: what a caller
    that duplicates a template passes to [createTemplate]. *)
Definition renamed_copy : obj := <["name" := VString "My label"]> thermal_57x32.

(** Data without an id, a flag or stamps, as the template editor builds
    it. *)
Definition editor_data : obj :=
  delete "updatedAt" (delete "createdAt" (delete "userCreated" (delete "id" renamed_copy))).

(** The state after the renamed copy has been created. *)
Definition one_user_template : state :=
  (createTemplate decimalToNumber example_env renamed_copy (new None)).2.

(** The renamed copy with a width of zero. *)
Definition zero_width_copy : obj := <["width" := num 0]> renamed_copy.

(** The renamed copy with a width of zero and no name. *)
Definition nameless_zero_width : obj := delete "name" zero_width_copy.

(** The renamed copy with one more member, named as a built-in template. *)
Definition carrier : obj := <["thermal_57x32" := VBool true]> renamed_copy.

(** What [updateTemplate] makes of [carrier] under the id [__proto__]. *)
Definition carried : obj :=
  <["updatedAt" := VString "2026-01-01T10:00:00.000Z"]>
    (<["userCreated" := VBool true]> (<["id" := VString "__proto__"]> carrier)).

(** The state after [updateTemplate('__proto__', carrier)]: the user
    templates have no property of their own and [carried] as prototype. *)
Definition prototype_replaced : state :=
  emit "templateUpdated" (VObject carried)
    (set_stored (Some ∅) (set_userPrototype (Some carried) initial_state)).

(** What [updateTemplate] makes of the renamed copy under the id of the
    built-in template it was copied from. *)
Definition overwritten : obj :=
  <["updatedAt" := VString "2026-01-01T10:00:00.000Z"]>
    (<["userCreated" := VBool true]> renamed_copy).

Lemma reachable_one_user_template : reachable decimalToNumber one_user_template.
Proof. apply reachable_create, reachable_first. Qed.

Lemma reachable_initial_state : reachable decimalToNumber initial_state.
Proof. apply reachable_init, reachable_first. Qed.

Lemma carrier_passes : passes decimalToNumber carrier = true.
Proof. vm_compute; reflexivity. Qed.

Lemma updateTemplate_replaces_prototype :
  updateTemplate decimalToNumber example_env "__proto__" carrier initial_state
  = (Return carried, prototype_replaced).
Proof. vm_compute; reflexivity. Qed.

Lemma reachable_prototype_replaced : reachable decimalToNumber prototype_replaced.
Proof.
  change prototype_replaced
    with (Return carried, prototype_replaced).2.
  rewrite <- updateTemplate_replaces_prototype.
  apply reachable_update, reachable_initial_state.
Qed.

Lemma zero_width_copy_defective : defective zero_width_copy.
Proof. left. exists (inject_Z 0). split; [reflexivity|]. by apply Qle_bool_iff. Qed.

Lemma nameless_zero_width_defective : defective nameless_zero_width.
Proof. left. exists (inject_Z 0). split; [reflexivity|]. by apply Qle_bool_iff. Qed.

(** C1, on the code.  In a state that the operations of the manager reach,
    [updateTemplate] and [deleteTemplate] succeed on the id of a built-in
    template.  [updateTemplate('__proto__', carrier)] passes the existence
    test, because every object has a member [__proto__], and its assignment
    replaces the prototype of the user templates by the validated payload,
    which carries a member named [thermal_57x32].  From then on the
    existence test finds a member under the built-in id [thermal_57x32]:
    [updateTemplate] returns the updated template, stores it among the user
    templates under the built-in id and writes it to the backend, and
    [deleteTemplate] returns [true]. *)
Theorem builtIn_id_updated_and_deleted :
  reachable decimalToNumber prototype_replaced
  ∧ updateTemplate decimalToNumber example_env "__proto__" carrier initial_state
    = (Return carried, prototype_replaced)
  ∧ builtInTemplates prototype_replaced !! "thermal_57x32" = Some thermal_57x32
  ∧ updateTemplate decimalToNumber example_env "thermal_57x32" renamed_copy
      prototype_replaced
    = (Return overwritten,
       emit "templateUpdated" (VObject overwritten)
         (set_stored (Some {[ "thermal_57x32" := overwritten ]})
            (set_userTemplates {[ "thermal_57x32" := overwritten ]}
               prototype_replaced)))
  ∧ deleteTemplate example_env "thermal_57x32" prototype_replaced
    = (Return true,
       emit "templateDeleted" (VObject ∅) (set_stored (Some ∅) prototype_replaced))
  ∧ (deleteTemplate example_env "thermal_57x32"
       (updateTemplate decimalToNumber example_env "thermal_57x32" renamed_copy
          prototype_replaced).2).1 = Return true.
Proof.
  split; [exact reachable_prototype_replaced|].
  split; [exact updateTemplate_replaces_prototype|].
  repeat split; vm_compute; reflexivity.
Qed.

(** C2, on the code.  [createTemplate] on a renamed copy of a built-in
    template returns the copy as it was given: with the id, the
    [userCreated] flag and the timestamps of the built-in template, not the
    generated id, [true] and the stamps of the call.  It is stored under the
    generated id. *)
Theorem createTemplate_caller_fields_win :
  createTemplate decimalToNumber example_env renamed_copy (init example_env (new None))
    = (Return renamed_copy,
       emit "templateCreated" (VObject renamed_copy)
         (set_stored (Some {[ "user_1700000000000_k3j9x0q1z" := renamed_copy ]})
            (set_userTemplates {[ "user_1700000000000_k3j9x0q1z" := renamed_copy ]}
               (init example_env (new None)))))
  ∧ renamed_copy !! "id" = Some (VString "thermal_57x32")
  ∧ renamed_copy !! "userCreated" = Some (VBool false)
  ∧ renamed_copy !! "createdAt" = Some (VString "2025-01-01T00:00:00.000Z")
  ∧ renamed_copy !! "updatedAt" = Some (VString "2025-01-01T00:00:00.000Z").
Proof. repeat split; vm_compute; reflexivity. Qed.

(** C3, on the code.  On template data with a width of zero and no name,
    [createTemplate] and [updateTemplate] on the id of a user template do
    not fail with the validation error and its list of messages:
    [validateTemplate] records that the name is required and that the width
    must be positive, and then reads [template.name.length] of the missing
    name, which throws a [TypeError] before the result is returned.  The
    state is as after the initialisation. *)
Theorem nameless_defective_template_throws_TypeError :
  defective nameless_zero_width
  ∧ validateTemplate decimalToNumber nameless_zero_width = Throw TypeError
  ∧ createTemplate decimalToNumber example_env nameless_zero_width initial_state
    = (Throw TypeError, initial_state)
  ∧ updateTemplate decimalToNumber example_env "user_1700000000000_k3j9x0q1z"
      nameless_zero_width one_user_template
    = (Throw TypeError, one_user_template)
  ∧ ∀ v, TypeError ≠ validationFailed v.
Proof.
  split; [exact nameless_zero_width_defective|].
  repeat split; try (vm_compute; reflexivity).
  intros v H. discriminate H.
Qed.

Lemma evaluable_defective_template_rejected_example :
  initialized initial_state = true
  ∧ defective zero_width_copy
  ∧ evaluable zero_width_copy = true
  ∧ ∃ messages,
      messages ≠ []
      ∧ createTemplate decimalToNumber example_env zero_width_copy initial_state
        = (Throw (Error ("Template validation failed: " +:+ join ", " messages)),
           initial_state).
Proof.
  assert (Hi : initialized initial_state = true) by reflexivity.
  assert (He : evaluable zero_width_copy = true) by (vm_compute; reflexivity).
  split; [exact Hi|]. split; [exact zero_width_copy_defective|]. split; [exact He|].
  destruct (evaluable_defective_template_rejected decimalToNumber example_env
              zero_width_copy _ Hi zero_width_copy_defective He)
    as (messages & Hne & Hc & _).
  exists messages. split; [exact Hne|exact Hc].
Qed.

Lemma updateTemplate_forces_id_and_userCreated_witness :
  is_Some (userTemplates (ensureInitialized example_env one_user_template)
             !! "user_1700000000000_k3j9x0q1z")
  ∧ passes decimalToNumber renamed_copy = true
  ∧ ∃ updated,
      (updateTemplate decimalToNumber example_env "user_1700000000000_k3j9x0q1z"
         renamed_copy one_user_template).1 = Return updated
      ∧ updated !! "id" = Some (VString "user_1700000000000_k3j9x0q1z")
      ∧ updated !! "userCreated" = Some (VBool true).
Proof.
  assert (Hu : is_Some (userTemplates (ensureInitialized example_env one_user_template)
                          !! "user_1700000000000_k3j9x0q1z"))
    by (exists renamed_copy; vm_compute; reflexivity).
  assert (Hp : passes decimalToNumber renamed_copy = true) by (vm_compute; reflexivity).
  split; [exact Hu|]. split; [exact Hp|].
  destruct (updateTemplate_forces_id_and_userCreated decimalToNumber example_env
              "user_1700000000000_k3j9x0q1z" renamed_copy one_user_template Hu Hp)
    as (updated & _ & Hid & Huc & Hret & _).
  exists updated. split; [apply Hret; reflexivity|]. split; [exact Hid|exact Huc].
Defined.

Lemma validateTemplate_accepts_iff_witness :
  ascii_name renamed_copy = true
  ∧ (passes decimalToNumber renamed_copy = true ↔ template_shape renamed_copy).
Proof.
  assert (Ha : ascii_name renamed_copy = true) by (vm_compute; reflexivity).
  split; [exact Ha|].
  exact (validateTemplate_accepts_iff decimalToNumber renamed_copy Ha).
Defined.

Lemma getTemplate_returns_accepted_template_witness :
  reachable decimalToNumber one_user_template
  ∧ getTemplate example_env "user_1700000000000_k3j9x0q1z" one_user_template
    = (Some renamed_copy, ensureInitialized example_env one_user_template)
  ∧ passes decimalToNumber renamed_copy = true.
Proof.
  split; [exact reachable_one_user_template|].
  assert (Hn : inherited_name "user_1700000000000_k3j9x0q1z" = false) by reflexivity.
  assert (Hs : stored_template (ensureInitialized example_env one_user_template)
                 "user_1700000000000_k3j9x0q1z" = Some renamed_copy)
    by reflexivity.
  exact (proj1 (getTemplate_returns_accepted_template decimalToNumber example_env
                  "user_1700000000000_k3j9x0q1z" one_user_template
                  reachable_one_user_template) Hn renamed_copy Hs).
Defined.

Lemma createTemplate_then_getTemplate_witness :
  passes decimalToNumber editor_data = true
  ∧ ∃ template after,
      createTemplate decimalToNumber example_env editor_data initial_state
        = (Return template, after)
      ∧ getTemplate example_env (generatedId example_env) after
        = (Some template, after).
Proof.
  assert (Hp : passes decimalToNumber editor_data = true) by (vm_compute; reflexivity).
  split; [exact Hp|].
  destruct (createTemplate_then_getTemplate decimalToNumber example_env example_env
              editor_data initial_state reachable_initial_state Hp eq_refl)
    as (template & after & Hc & Hg & _).
  exists template, after. split; [exact Hc|exact Hg].
Defined.

Lemma deleteTemplate_then_getTemplate_witness :
  userTemplates (ensureInitialized example_env one_user_template)
    !! "user_1700000000000_k3j9x0q1z" = Some renamed_copy
  ∧ inherits (ensureInitialized example_env one_user_template)
      "user_1700000000000_k3j9x0q1z" = false
  ∧ builtIns !! "user_1700000000000_k3j9x0q1z" = None
  ∧ ∃ after,
      deleteTemplate example_env "user_1700000000000_k3j9x0q1z" one_user_template
        = (Return true, after)
      ∧ (getTemplate example_env "user_1700000000000_k3j9x0q1z" after).1 = None.
Proof.
  assert (Hu : userTemplates (ensureInitialized example_env one_user_template)
                 !! "user_1700000000000_k3j9x0q1z" = Some renamed_copy)
    by reflexivity.
  assert (Hi : inherits (ensureInitialized example_env one_user_template)
                 "user_1700000000000_k3j9x0q1z" = false) by reflexivity.
  assert (Hb : builtIns !! "user_1700000000000_k3j9x0q1z" = None) by reflexivity.
  split; [exact Hu|]. split; [exact Hi|]. split; [exact Hb|].
  destruct (deleteTemplate_then_getTemplate decimalToNumber example_env example_env
              _ _ _ reachable_one_user_template Hu Hi Hb eq_refl)
    as (after & Hd & Hg & _).
  exists after. split; [exact Hd|exact Hg].
Defined.

Lemma createTemplate_failed_write_keeps_template_witness :
  passes decimalToNumber editor_data = true
  ∧ ∃ after,
      createTemplate decimalToNumber failing_write_env editor_data initial_state
        = (Throw (Error "QUOTA_BYTES_PER_ITEM quota exceeded"), after)
      ∧ fnsku_user_templates after = None
      ∧ (getTemplate example_env (generatedId failing_write_env) after).1
        = Some (stamped failing_write_env editor_data).
Proof.
  assert (Hp : passes decimalToNumber editor_data = true) by (vm_compute; reflexivity).
  split; [exact Hp|].
  destruct (createTemplate_failed_write_keeps_template decimalToNumber
              failing_write_env example_env _ editor_data initial_state
              reachable_initial_state Hp eq_refl)
    as (after & Hc & _ & Hs & Hg).
  exists after. split; [exact Hc|]. split; [exact Hs|]. by rewrite Hg.
Defined.

Lemma updateTemplate_merges_payload_witness :
  userTemplates (ensureInitialized example_env one_user_template)
    !! "user_1700000000000_k3j9x0q1z" = Some renamed_copy
  ∧ passes decimalToNumber editor_data = true
  ∧ ∃ updated,
      userTemplates
        (updateTemplate decimalToNumber example_env "user_1700000000000_k3j9x0q1z"
           editor_data one_user_template).2
        !! "user_1700000000000_k3j9x0q1z" = Some updated
      ∧ updated !! "createdAt" = Some (VString "2025-01-01T00:00:00.000Z")
      ∧ updated !! "updatedAt" = Some (VString "2026-01-01T10:00:00.000Z").
Proof.
  assert (Hu : userTemplates (ensureInitialized example_env one_user_template)
                 !! "user_1700000000000_k3j9x0q1z" = Some renamed_copy)
    by reflexivity.
  assert (Hp : passes decimalToNumber editor_data = true) by (vm_compute; reflexivity).
  split; [exact Hu|]. split; [exact Hp|].
  destruct (updateTemplate_merges_payload decimalToNumber example_env _ _ _ _ Hu Hp)
    as (updated & Hs & Hat & Hk & _).
  exists updated. split; [exact Hs|]. split; [|exact Hat].
  by rewrite (Hk "createdAt").
Defined.

Lemma returned_mutation_is_persisted_witness :
  storage_get example_env = Fulfilled
  ∧ reloaded example_env
      (createTemplate decimalToNumber example_env editor_data initial_state).2
    = userTemplates
        (createTemplate decimalToNumber example_env editor_data initial_state).2.
Proof.
  split; [reflexivity|].
  destruct (returned_mutation_is_persisted decimalToNumber example_env example_env
              initial_state eq_refl) as (Hc & _).
  apply (Hc editor_data (stamped example_env editor_data)).
  reflexivity.
Defined.

Lemma getAllTemplates_lists_stored_templates_witness :
  reachable decimalToNumber one_user_template
  ∧ length (getAllTemplates printInteger example_env one_user_template).1 = 4%nat.
Proof.
  split; [exact reachable_one_user_template|].
  destruct (getAllTemplates_lists_stored_templates decimalToNumber printInteger
              example_env one_user_template reachable_one_user_template)
    as [Hl _].
  rewrite Hl. vm_compute; reflexivity.
Defined.

Lemma exportTemplate_then_importTemplate_witness :
  inherited_name "thermal_57x32" = false
  ∧ stored_template (ensureInitialized example_env initial_state) "thermal_57x32"
    = Some thermal_57x32
  ∧ ∃ exported imported,
      exportTemplate example_env "thermal_57x32" initial_state
        = (Return exported, ensureInitialized example_env initial_state)
      ∧ (importTemplate decimalToNumber printInteger example_env exported
           (ensureInitialized example_env initial_state)).1 = Return imported
      ∧ imported !! "id" = Some (VString (generatedId example_env))
      ∧ imported !! "name"
        = Some (VString (to_string printInteger (prop thermal_57x32 "name")
                         +:+ " (Imported)")).
Proof.
  assert (Hn : inherited_name "thermal_57x32" = false) by reflexivity.
  assert (Hs : stored_template (ensureInitialized example_env initial_state)
                 "thermal_57x32" = Some thermal_57x32) by reflexivity.
  split; [exact Hn|]. split; [exact Hs|].
  destruct (exportTemplate_then_importTemplate decimalToNumber printInteger
              example_env example_env _ _ _ reachable_initial_state Hn Hs eq_refl)
    as (exported & imported & He & Hi & _ & Hid & _ & _ & _ & Hname & _).
  exists exported, imported.
  split; [exact He|]. split; [exact Hi|]. split; [exact Hid|exact Hname].
Defined.

Lemma clearUserTemplates_leaves_builtIns_witness :
  reachable decimalToNumber one_user_template
  ∧ ∃ after,
      clearUserTemplates example_env one_user_template = (Return true, after)
      ∧ (getTemplate example_env "user_1700000000000_k3j9x0q1z" after).1 = None
      ∧ (getTemplate example_env "toString" after).1 = Some ∅
      ∧ fnsku_user_templates after = Some ∅.
Proof.
  split; [exact reachable_one_user_template|].
  destruct (clearUserTemplates_leaves_builtIns decimalToNumber example_env example_env
              one_user_template reachable_one_user_template eq_refl)
    as (after & Hc & Hg & Hs & _).
  exists after. split; [exact Hc|].
  split; [by rewrite (Hg "user_1700000000000_k3j9x0q1z")|].
  split; [by rewrite (Hg "toString")|exact Hs].
Defined.

Lemma createTemplate_after_failed_read_overwrites_witness :
  passes decimalToNumber editor_data = true
  ∧ fnsku_user_templates
      (createTemplate decimalToNumber failing_read_env editor_data
         (new (Some {[ "user_1_a" := renamed_copy ]}))).2
    = Some {[ generatedId failing_read_env := stamped failing_read_env editor_data ]}.
Proof.
  assert (Hp : passes decimalToNumber editor_data = true) by (vm_compute; reflexivity).
  split; [exact Hp|].
  exact (proj2 (createTemplate_after_failed_read_overwrites decimalToNumber
                  failing_read_env _ editor_data
                  (new (Some {[ "user_1_a" := renamed_copy ]}))
                  eq_refl eq_refl eq_refl Hp)).
Defined.

End TemplateManager.

(** ** SettingsManager *)

Module SettingsManager.
Import JS.

(** A value as [globalSettings] holds it in memory.  [===] compares
    primitives by value and objects by identity, so an object is held with
    the identity of its reference. *)
Inductive setting : Type :=
| Prim (v : value)
| Ref (identity : positive) (fields : obj).

Definition content (x : setting) : value :=
  match x with
  | Prim v => v
  | Ref _ fields => VObject fields
  end.

(** A value read from the backend, held under the identity [identity] if it
    is an object. *)
Definition hold (identity : positive) (v : value) : setting :=
  match v with
  | VObject fields => Ref identity fields
  | _ => Prim v
  end.

(** [a === b] *)
Definition strict_eq (a b : setting) : bool :=
  match a, b with
  | Prim x, Prim y => prim_eq x y
  | Ref i _, Ref j _ => Pos.eqb i j
  | _, _ => false
  end.

(** [this.settings] *)
Record Settings : Type := {
  selectedTemplateId : value;
  globalSettings : gmap string setting;
  lastUpdated : string
}.

(** The object under the key [fnsku_extension_settings]: the fields of
    [this.settings] that it has.  The backend hands out copies; an object
    read back is held under the identity it was stored with, which no caller
    holds a reference to before reading it from the manager. *)
Record StoredSettings : Type := {
  stored_selectedTemplateId : option value;
  stored_globalSettings : option (gmap string setting);
  stored_lastUpdated : option string
}.

(** The three keys of [chrome.storage.sync] that the manager uses; [None]
    is a key that is not set. *)
Record backend : Type := {
  fnsku_extension_settings : option StoredSettings;
  fnskuLabelSettings : option value;
  extensionSettings : option value
}.

(** The requests sent to the backend. *)
Inductive request : Type :=
| StorageGet (keys : list string)
| StorageSet (key : string)
| StorageRemove (keys : list string).

(** The data passed to the listeners of an event. *)
Inductive payload : Type :=
| OfSettings (settings : Settings)
| OfGlobalSettings (globalSettings : gmap string setting)
| OfValue (v : value)
| OfSetting (key : string) (x : setting)
| OfError (e : exn).

(** The fields of a [SettingsManager] and, below them, its environment: the
    events emitted, the handles of the timers that are scheduled and have
    neither run nor been cleared, the next handle that [setTimeout] returns,
    the settings of the write that [saveSettings] has sent and that has not
    settled, the backend and the requests sent to it. *)
Record state : Type := {
  settings : Settings;
  saveTimeout : option positive;
  initialized : bool;
  saving : bool;
  emitted : list (string * payload);
  timers : list positive;
  next_handle : positive;
  in_flight : option Settings;
  storage : backend;
  requests : list request
}.

(** What one call reads from outside: how the backend answers each kind of
    request, the clock, and the identities of the objects that a read
    creates. *)
Record env : Type := {
  get_settings : response;
  get_legacy : response;
  set_settings : response;
  remove_legacy : response;
  now : string;
  identity_of : string → positive
}.

Definition saveDelay : N := 500.

Definition with_settings (x : Settings) (s : state) : state :=
  {| settings := x; saveTimeout := saveTimeout s; initialized := initialized s;
     saving := saving s; emitted := emitted s; timers := timers s;
     next_handle := next_handle s; in_flight := in_flight s;
     storage := storage s; requests := requests s |}.

Definition with_saveTimeout (x : option positive) (s : state) : state :=
  {| settings := settings s; saveTimeout := x; initialized := initialized s;
     saving := saving s; emitted := emitted s; timers := timers s;
     next_handle := next_handle s; in_flight := in_flight s;
     storage := storage s; requests := requests s |}.

Definition with_initialized (x : bool) (s : state) : state :=
  {| settings := settings s; saveTimeout := saveTimeout s; initialized := x;
     saving := saving s; emitted := emitted s; timers := timers s;
     next_handle := next_handle s; in_flight := in_flight s;
     storage := storage s; requests := requests s |}.

Definition with_saving (x : bool) (s : state) : state :=
  {| settings := settings s; saveTimeout := saveTimeout s; initialized := initialized s;
     saving := x; emitted := emitted s; timers := timers s;
     next_handle := next_handle s; in_flight := in_flight s;
     storage := storage s; requests := requests s |}.

Definition with_in_flight (x : option Settings) (s : state) : state :=
  {| settings := settings s; saveTimeout := saveTimeout s; initialized := initialized s;
     saving := saving s; emitted := emitted s; timers := timers s;
     next_handle := next_handle s; in_flight := x;
     storage := storage s; requests := requests s |}.

Definition with_storage (x : backend) (s : state) : state :=
  {| settings := settings s; saveTimeout := saveTimeout s; initialized := initialized s;
     saving := saving s; emitted := emitted s; timers := timers s;
     next_handle := next_handle s; in_flight := in_flight s;
     storage := x; requests := requests s |}.

(** [this.emit(event, data)] *)
Definition emit (event : string) (data : payload) (s : state) : state :=
  {| settings := settings s; saveTimeout := saveTimeout s; initialized := initialized s;
     saving := saving s; emitted := emitted s ++ [(event, data)]; timers := timers s;
     next_handle := next_handle s; in_flight := in_flight s;
     storage := storage s; requests := requests s |}.

Definition send (r : request) (s : state) : state :=
  {| settings := settings s; saveTimeout := saveTimeout s; initialized := initialized s;
     saving := saving s; emitted := emitted s; timers := timers s;
     next_handle := next_handle s; in_flight := in_flight s;
     storage := storage s; requests := requests s ++ [r] |}.

(** [setTimeout(callback, delay)]: the only callback that the manager
    schedules is the save of [debouncedSave]. *)
Definition setTimeout (s : state) : positive * state :=
  (next_handle s,
   {| settings := settings s; saveTimeout := saveTimeout s; initialized := initialized s;
      saving := saving s; emitted := emitted s; timers := timers s ++ [next_handle s];
      next_handle := Pos.succ (next_handle s); in_flight := in_flight s;
      storage := storage s; requests := requests s |}).

(** The timer [handle] is no longer scheduled. *)
Definition unschedule (handle : positive) (s : state) : state :=
  {| settings := settings s; saveTimeout := saveTimeout s; initialized := initialized s;
     saving := saving s; emitted := emitted s;
     timers := filter (fun h => h ≠ handle) (timers s);
     next_handle := next_handle s; in_flight := in_flight s;
     storage := storage s; requests := requests s |}.

(** [clearTimeout(handle)] *)
Definition clearTimeout (handle : positive) (s : state) : state := unschedule handle s.

(** [new SettingsManager()], constructed at time [constructed] in an
    environment with the backend [b]. *)
Definition new (constructed : string) (b : backend) : state :=
  {| settings :=
       {| selectedTemplateId := VString "thermal_57x32";
          globalSettings :=
            list_to_map [("barcodeFormat", Prim (VString "CODE128"));
                         ("autoExtract", Prim (VBool true));
                         ("autoOpenTabs", Prim (VBool false));
                         ("debugMode", Prim (VBool false));
                         ("lastSelectedTab", Prim (VString "downloads"))];
          lastUpdated := constructed |};
     saveTimeout := None;
     initialized := false;
     saving := false;
     emitted := [];
     timers := [];
     next_handle := 1%positive;
     in_flight := None;
     storage := b;
     requests := [] |}.

(** [chrome.storage.sync.set({ fnsku_extension_settings: x })] fulfilled. *)
Definition store_settings (x : Settings) (b : backend) : backend :=
  {| fnsku_extension_settings :=
       Some {| stored_selectedTemplateId := Some (selectedTemplateId x);
               stored_globalSettings := Some (globalSettings x);
               stored_lastUpdated := Some (lastUpdated x) |};
     fnskuLabelSettings := fnskuLabelSettings b;
     extensionSettings := extensionSettings b |}.

(** [chrome.storage.sync.remove(['fnskuLabelSettings', 'extensionSettings'])]
    fulfilled. *)
Definition remove_legacy_keys (b : backend) : backend :=
  {| fnsku_extension_settings := fnsku_extension_settings b;
     fnskuLabelSettings := None;
     extensionSettings := None |}.

(** [saveSettings()] up to its [await]: nothing happens while another save
    is running; otherwise the write is sent with the settings of this
    moment. *)
Definition saveSettings_begin (s : state) : state :=
  if saving s then s
  else
    send (StorageSet "fnsku_extension_settings")
      (with_in_flight (Some (settings s)) (with_saving true s)).

(** [saveSettings()] from its [await] on, when the write settles with
    [r]. *)
Definition saveSettings_end (r : response) (s : state) : outcome unit * state :=
  match in_flight s with
  | None => (Return tt, s)
  | Some written =>
      let s := with_in_flight None s in
      match r with
      | Fulfilled =>
          let s := with_storage (store_settings written (storage s)) s in
          let s := emit "settingsSaved" (OfSettings (settings s)) s in
          (Return tt, with_saving false s)
      | Rejected ex =>
          let s := emit "settingsSaveError" (OfError ex) s in
          (Throw ex, with_saving false s)
      end
  end.

(** [await this.saveSettings()] when nothing else runs before the write
    settles. *)
Definition saveSettings (e : env) (s : state) : outcome unit * state :=
  if saving s then (Return tt, s)
  else saveSettings_end (set_settings e) (saveSettings_begin s).

(** [await this.saveSettings()] in the event loop: the method runs up to
    the write and waits; what it does once the write has settled changes
    nothing in the state. *)
Definition saveSettings_suspended (s : state) : outcome unit * state :=
  (Return tt, saveSettings_begin s).

(** [debouncedSave()] *)
Definition debouncedSave (s : state) : state :=
  let s := match saveTimeout s with
           | Some handle => clearTimeout handle s
           | None => s
           end in
  let (handle, s) := setTimeout s in
  let s := with_saveTimeout (Some handle) s in
  emit "settingsSaving" (OfValue (VBool true)) s.

(** [o[key]] on the global settings, whose prototype is [Object.prototype],
    for a key that names none of its members ([inherited_name]): a key that
    the object does not own reads as [undefined].  Under the name of a
    member of [Object.prototype] that the object does not own, the code
    reads the inherited member instead. *)
Definition setting_of (o : gmap string setting) (key : string) : setting :=
  default (Prim VUndefined) (o !! key).

(** [hasSettingsChanges(oldSettings, newSettings)] *)
Definition hasSettingsChanges (oldSettings newSettings : gmap string setting) : bool :=
  if negb (size oldSettings =? size newSettings)%nat then true
  else
    existsb (fun key => negb (strict_eq (setting_of oldSettings key)
                                        (setting_of newSettings key)))
            (map_to_list newSettings).*1.

(** [isSaving()] *)
Definition isSaving (s : state) : bool :=
  saving s || bool_decide (saveTimeout s ≠ None).

(** One assignment of [migrateOldSettings] into [this.settings.globalSettings]. *)
Definition assign_global (key : string) (x : setting) (st : Settings) : Settings :=
  {| selectedTemplateId := selectedTemplateId st;
     globalSettings := <[key := x]> (globalSettings st);
     lastUpdated := lastUpdated st |}.

Definition assign_selectedTemplateId (v : value) (st : Settings) : Settings :=
  {| selectedTemplateId := v;
     globalSettings := globalSettings st;
     lastUpdated := lastUpdated st |}.

Definition assign_lastUpdated (t : string) (st : Settings) : Settings :=
  {| selectedTemplateId := selectedTemplateId st;
     globalSettings := globalSettings st;
     lastUpdated := t |}.

(** The part of [migrateOldSettings] that maps the legacy objects onto the
    settings: the new settings and the flag [migrated]. *)
Definition migrate_fields (e : env) (b : backend) (st : Settings) : Settings * bool :=
  let '(st, migrated) :=
    let oldSettings := default VUndefined (fnskuLabelSettings b) in
    if truthy oldSettings then
      let '(st, migrated) :=
        if truthy (get_opt oldSettings "templateId")
        then (assign_selectedTemplateId (get_opt oldSettings "templateId") st, true)
        else (st, false) in
      let '(st, migrated) :=
        if truthy (get_opt oldSettings "barcodeFormat")
        then (assign_global "barcodeFormat"
                (hold (identity_of e "barcodeFormat") (get_opt oldSettings "barcodeFormat"))
                st, true)
        else (st, migrated) in
      let '(st, migrated) :=
        if negb (is_type (get_opt oldSettings "autoExtract") "undefined")
        then (assign_global "autoExtract"
                (hold (identity_of e "autoExtract") (get_opt oldSettings "autoExtract"))
                st, true)
        else (st, migrated) in
      let '(st, migrated) :=
        if negb (is_type (get_opt oldSettings "autoOpenTabs") "undefined")
        then (assign_global "autoOpenTabs"
                (hold (identity_of e "autoOpenTabs") (get_opt oldSettings "autoOpenTabs"))
                st, true)
        else (st, migrated) in
      if negb (is_type (get_opt oldSettings "debugMode") "undefined")
      then (assign_global "debugMode"
              (hold (identity_of e "debugMode") (get_opt oldSettings "debugMode"))
              st, true)
      else (st, migrated)
    else (st, false) in
  let oldExtension := default VUndefined (extensionSettings b) in
  if truthy oldExtension && truthy (get_opt oldExtension "labelSettings") then
    let oldLabelSettings := get_opt oldExtension "labelSettings" in
    if truthy (get_opt oldLabelSettings "template")
    then (assign_selectedTemplateId (get_opt oldLabelSettings "template") st, true)
    else (st, migrated)
  else (st, migrated).

(** [migrateOldSettings()]: every failure is caught and logged; a failed
    save skips the removal of the legacy keys. *)
Definition migrateOldSettings (e : env) (s : state) : state :=
  let s := send (StorageGet ["fnskuLabelSettings"; "extensionSettings"]) s in
  match get_legacy e with
  | Rejected _ => s
  | Fulfilled =>
      let '(st, migrated) := migrate_fields e (storage s) (settings s) in
      let s := with_settings st s in
      if migrated then
        let s := with_settings (assign_lastUpdated (now e) (settings s)) s in
        match saveSettings e s with
        | (Throw _, s) => s
        | (Return _, s) =>
            let s := send (StorageRemove ["fnskuLabelSettings"; "extensionSettings"]) s in
            match remove_legacy e with
            | Fulfilled => with_storage (remove_legacy_keys (storage s)) s
            | Rejected _ => s
            end
        end
      else s
  end.

(** [{ ...this.settings, ...result.fnsku_extension_settings }] *)
Definition merge_stored (st : Settings) (stored : StoredSettings) : Settings :=
  {| selectedTemplateId := default (selectedTemplateId st) (stored_selectedTemplateId stored);
     globalSettings := default (globalSettings st) (stored_globalSettings stored);
     lastUpdated := default (lastUpdated st) (stored_lastUpdated stored) |}.

(** [loadSettings()] *)
Definition loadSettings (e : env) (s : state) : state :=
  let s := send (StorageGet ["fnsku_extension_settings"]) s in
  match get_settings e with
  | Rejected _ => s
  | Fulfilled =>
      match fnsku_extension_settings (storage s) with
      | Some stored => with_settings (merge_stored (settings s) stored) s
      | None => migrateOldSettings e s
      end
  end.

Definition init (e : env) (s : state) : state :=
  if initialized s then s
  else
    let s := with_initialized true (loadSettings e s) in
    emit "initialized" (OfSettings (settings s)) s.

Definition ensureInitialized (e : env) (s : state) : state :=
  if negb (initialized s) then init e s else s.

Definition getSettings (e : env) (s : state) : Settings * state :=
  let s := ensureInitialized e s in
  (settings s, s).

Definition setSelectedTemplateId (e : env) (templateId : string) (s : state) : state :=
  let s := ensureInitialized e s in
  if negb (prim_eq (selectedTemplateId (settings s)) (VString templateId)) then
    let st := assign_lastUpdated (now e)
                (assign_selectedTemplateId (VString templateId) (settings s)) in
    let s := with_settings st s in
    let s := emit "templateSelected" (OfValue (VString templateId)) s in
    let s := emit "settingsChanged" (OfSettings (settings s)) s in
    debouncedSave s
  else s.

Definition updateGlobalSettings (e : env) (newSettings : gmap string setting)
    (s : state) : state :=
  let s := ensureInitialized e s in
  let hasChanges := hasSettingsChanges (globalSettings (settings s)) newSettings in
  if hasChanges then
    let st := {| selectedTemplateId := selectedTemplateId (settings s);
                 globalSettings := newSettings ∪ globalSettings (settings s);
                 lastUpdated := now e |} in
    let s := with_settings st s in
    let s := emit "globalSettingsChanged" (OfGlobalSettings (globalSettings (settings s))) s in
    let s := emit "settingsChanged" (OfSettings (settings s)) s in
    debouncedSave s
  else s.

(** [updateSetting(key, value)], for a key that names no member of
    [Object.prototype].  Under the name of such a member the code compares
    the value with the inherited member, and its assignment under
    [__proto__] replaces the prototype of the global settings instead of
    setting a property. *)
Definition updateSetting (e : env) (key : string) (x : setting) (s : state) : state :=
  let s := ensureInitialized e s in
  if negb (strict_eq (setting_of (globalSettings (settings s)) key) x) then
    let st := assign_lastUpdated (now e) (assign_global key x (settings s)) in
    let s := with_settings st s in
    let s := emit "settingChanged" (OfSetting key x) s in
    let s := emit "globalSettingsChanged" (OfGlobalSettings (globalSettings (settings s))) s in
    let s := emit "settingsChanged" (OfSettings (settings s)) s in
    debouncedSave s
  else s.

(** [resetSettings()], [save] being the way in which its
    [await this.saveSettings()] runs. *)
Definition resetSettings_via (save : state → outcome unit * state) (e : env)
    (s : state) : outcome Settings * state :=
  let s := ensureInitialized e s in
  let defaultSettings :=
    {| selectedTemplateId := VString "thermal_57x32";
       globalSettings :=
         list_to_map [("barcodeFormat", Prim (VString "CODE128"));
                      ("autoExtract", Prim (VBool true));
                      ("autoOpenTabs", Prim (VBool false));
                      ("debugMode", Prim (VBool false))];
       lastUpdated := now e |} in
  let s := with_settings defaultSettings s in
  let s := emit "settingsReset" (OfSettings (settings s)) s in
  let s := emit "settingsChanged" (OfSettings (settings s)) s in
  match save s with
  | (Throw ex, s) => (Throw ex, s)
  | (Return _, s) => (Return (settings s), s)
  end.

Definition resetSettings (e : env) (s : state) : outcome Settings * state :=
  resetSettings_via (saveSettings e) e s.

(** [forceSave()] *)
Definition forceSave_via (save : state → outcome unit * state) (s : state)
    : outcome unit * state :=
  let s := match saveTimeout s with
           | Some handle => with_saveTimeout None (clearTimeout handle s)
           | None => s
           end in
  save s.

Definition forceSave (e : env) (s : state) : outcome unit * state :=
  forceSave_via (saveSettings e) s.

(** The callback that [debouncedSave] schedules, when its timer [handle]
    fires: it starts a save, and logs the error of a save that fails. *)
Definition timer_fires (handle : positive) (s : state) : state :=
  if bool_decide (handle ∈ timers s)
  then saveSettings_begin (unschedule handle s)
  else s.

(** The write of a save settles. *)
Definition write_settles (r : response) (s : state) : state :=
  (saveSettings_end r s).2.

(** [importSettings(importData)], [importData.settings] being absent or
    an object with some of the fields of the settings. *)
Definition importSettings_via (save : state → outcome unit * state) (e : env)
    (importData : option StoredSettings) (s : state) : outcome Settings * state :=
  match importData with
  | None => (Throw (Error "Invalid import data"), s)
  | Some imported =>
      let st := assign_lastUpdated (now e) (merge_stored (settings s) imported) in
      let s := with_settings st s in
      let s := emit "settingsImported" (OfSettings (settings s)) s in
      let s := emit "settingsChanged" (OfSettings (settings s)) s in
      match save s with
      | (Throw ex, s) => (Throw ex, s)
      | (Return _, s) => (Return (settings s), s)
      end
  end.

Definition importSettings (e : env) (importData : option StoredSettings) (s : state)
    : outcome Settings * state :=
  importSettings_via (saveSettings e) e importData s.

(** [cleanup()] *)
Definition cleanup (s : state) : state :=
  let s := match saveTimeout s with
           | Some handle => with_saveTimeout None (clearTimeout handle s)
           | None => s
           end in
  with_initialized false s.

(** *** Diff suppression *)

(** Every key of [newSettings] holds a value that is [===] to the one that
    [oldSettings] holds for it. *)
Definition same_values (oldSettings newSettings : gmap string setting) : bool :=
  forallb (fun entry : string * setting =>
             strict_eq (setting_of oldSettings entry.1) entry.2)
          (map_to_list newSettings).

Lemma hasSettingsChanges_same oldSettings newSettings :
  size newSettings = size oldSettings →
  same_values oldSettings newSettings = true →
  hasSettingsChanges oldSettings newSettings = false.
Proof.
  intros Hsize Hsame. unfold hasSettingsChanges.
  rewrite Hsize, Nat.eqb_refl. simpl.
  apply not_true_iff_false. intros H.
  apply existsb_exists in H as (key & Hin & Hne).
  apply list_elem_of_In, list_elem_of_fmap in Hin as ([key' x] & -> & Hin). simpl in Hne.
  unfold same_values in Hsame. rewrite forallb_forall in Hsame.
  specialize (Hsame (key', x)). simpl in Hsame.
  apply elem_of_map_to_list in Hin as Hlook.
  unfold setting_of in Hne at 2. rewrite Hlook in Hne. simpl in Hne.
  rewrite Hsame in Hne; [discriminate|]. by apply list_elem_of_In.
Qed.

Lemma hasSettingsChanges_size oldSettings newSettings :
  size newSettings ≠ size oldSettings →
  hasSettingsChanges oldSettings newSettings = true.
Proof.
  intros Hsize. unfold hasSettingsChanges.
  destruct (Nat.eqb_spec (size oldSettings) (size newSettings)); [congruence|done].
Qed.

Lemma ensureInitialized_ready e s :
  initialized s = true → ensureInitialized e s = s.
Proof. unfold ensureInitialized. by intros ->. Qed.

Lemma debouncedSave_initialized s : initialized (debouncedSave s) = initialized s.
Proof. unfold debouncedSave. by destruct (saveTimeout s). Qed.

Lemma debouncedSave_settings s : settings (debouncedSave s) = settings s.
Proof. unfold debouncedSave. by destruct (saveTimeout s). Qed.

(** C4, as the code has it.  On an initialised manager, a settings object
    that has as many keys as the current global settings and whose every key
    holds a value [===] to the current one leaves the state as it is: no
    event, no new [lastUpdated], no timer.  And when the keys of the object
    are the keys of the current global settings and each of its values is
    [===] to itself, a second call with the same object changes nothing. *)
Theorem updateGlobalSettings_same_values e e' newSettings s :
  initialized s = true →
  (size newSettings = size (globalSettings (settings s)) →
   same_values (globalSettings (settings s)) newSettings = true →
   updateGlobalSettings e newSettings s = s)
  ∧ (dom newSettings = dom (globalSettings (settings s)) →
     same_values newSettings newSettings = true →
     updateGlobalSettings e' newSettings (updateGlobalSettings e newSettings s)
     = updateGlobalSettings e newSettings s).
Proof.
  intros Hinit. split.
  - intros Hsize Hsame. unfold updateGlobalSettings.
    rewrite (ensureInitialized_ready e s Hinit).
    by rewrite hasSettingsChanges_same.
  - intros Hdom Hself.
    unfold updateGlobalSettings at 2 3.
    rewrite (ensureInitialized_ready e s Hinit).
    destruct (hasSettingsChanges (globalSettings (settings s)) newSettings) eqn:Hc.
    + unfold updateGlobalSettings.
      rewrite ensureInitialized_ready
        by (by rewrite debouncedSave_initialized).
      rewrite debouncedSave_settings. simpl.
      rewrite hasSettingsChanges_same; [done| |].
      * by rewrite <- !size_dom, dom_union_L, <- Hdom, union_idemp_L.
      * unfold same_values in *. rewrite forallb_forall in Hself |- *.
        intros [key x] Hin. specialize (Hself _ Hin). simpl in *.
        apply list_elem_of_In, elem_of_map_to_list in Hin.
        unfold setting_of in *. rewrite lookup_union_l' by eauto. done.
    + unfold updateGlobalSettings.
      rewrite (ensureInitialized_ready e' s Hinit). by rewrite Hc.
Qed.

(** *** Migration *)

(** The template id that the legacy objects of the backend carry: the one
    of [extensionSettings.labelSettings.template] when there is one, the one
    of [fnskuLabelSettings.templateId] otherwise. *)
Definition extension_template (b : backend) : value :=
  let oldExtension := default VUndefined (extensionSettings b) in
  if truthy oldExtension then get_opt (get_opt oldExtension "labelSettings") "template"
  else VUndefined.

Definition label_templateId (b : backend) : value :=
  let oldSettings := default VUndefined (fnskuLabelSettings b) in
  if truthy oldSettings then get_opt oldSettings "templateId" else VUndefined.

Definition legacy_template_id (b : backend) : value :=
  extension_template b ||| label_templateId b.

Lemma get_opt_falsy v k : truthy v = false → truthy (get_opt v k) = true → False.
Proof.
  destruct v as [| |b|q| |str|fields]; simpl; try discriminate.
  intros H. apply negb_false_iff in H. apply String.eqb_eq in H as ->.
  unfold get_opt, get. destruct (String.eqb k "length"); simpl; [discriminate|].
  unfold prop, string_props. simpl. rewrite lookup_empty. discriminate.
Qed.

(** What [migrate_fields] does to the selected template id. *)
Lemma migrate_fields_selectedTemplateId e b st :
  truthy (legacy_template_id b) = true →
  selectedTemplateId (migrate_fields e b st).1 = legacy_template_id b
  ∧ (migrate_fields e b st).2 = true.
Proof.
  unfold legacy_template_id, or_else, extension_template, label_templateId, migrate_fields.
  set (oldSettings := default VUndefined (fnskuLabelSettings b)).
  set (oldExtension := default VUndefined (extensionSettings b)).
  intros H.
  destruct (truthy oldExtension) eqn:Hext;
  destruct (truthy (get_opt (get_opt oldExtension "labelSettings") "template")) eqn:Ht;
  destruct (truthy (get_opt oldExtension "labelSettings")) eqn:Hl;
  destruct (truthy oldSettings) eqn:Ho;
  destruct (truthy (get_opt oldSettings "templateId")) eqn:Hi;
  destruct (truthy (get_opt oldSettings "barcodeFormat"));
  destruct (negb (is_type (get_opt oldSettings "autoExtract") "undefined"));
  destruct (negb (is_type (get_opt oldSettings "autoOpenTabs") "undefined"));
  destruct (negb (is_type (get_opt oldSettings "debugMode") "undefined"));
  simpl in *; rewrite ?Ht, ?Hi in *; simpl in *;
  try done; try congruence; try (by destruct (get_opt_falsy _ _ Hl Ht)).
Qed.

(** A manager that has not been initialised and is not writing, on a
    backend without the unified key whose legacy objects carry a template
    id in one of the two fields that [migrateOldSettings] reads, and whose
    requests succeed: [getSettings] returns that id as the selected template
    id; the
    backend then holds the migrated settings under the unified key and no
    legacy key; the removal of the legacy keys is the request sent after the
    write of the unified key. *)
Lemma legacy_template_id_migrated e s :
  initialized s = false →
  saving s = false →
  fnsku_extension_settings (storage s) = None →
  truthy (legacy_template_id (storage s)) = true →
  get_settings e = Fulfilled → get_legacy e = Fulfilled →
  set_settings e = Fulfilled → remove_legacy e = Fulfilled →
  selectedTemplateId (getSettings e s).1 = legacy_template_id (storage s)
  ∧ fnsku_extension_settings (storage (getSettings e s).2)
    = Some {| stored_selectedTemplateId := Some (legacy_template_id (storage s));
              stored_globalSettings := Some (globalSettings (getSettings e s).1);
              stored_lastUpdated := Some (now e) |}
  ∧ fnskuLabelSettings (storage (getSettings e s).2) = None
  ∧ extensionSettings (storage (getSettings e s).2) = None
  ∧ requests (getSettings e s).2
    = (requests s ++ [StorageGet ["fnsku_extension_settings"];
                      StorageGet ["fnskuLabelSettings"; "extensionSettings"];
                      StorageSet "fnsku_extension_settings";
                      StorageRemove ["fnskuLabelSettings"; "extensionSettings"]])%list.
Proof.
  intros Hinit Hsaving Hnone Hid Hg Hl Hs Hr.
  unfold getSettings, ensureInitialized, init. rewrite Hinit. simpl.
  unfold loadSettings. rewrite Hg. simpl. rewrite Hnone.
  unfold migrateOldSettings. rewrite Hl. simpl.
  destruct (migrate_fields_selectedTemplateId e (storage s) (settings s) Hid) as [Hsel Hm].
  destruct (migrate_fields e (storage s) (settings s)) as [st migrated].
  simpl in Hsel, Hm. subst migrated.
  unfold saveSettings, saveSettings_begin, saveSettings_end. simpl.
  rewrite Hsaving. simpl. rewrite Hs, Hr. simpl. rewrite Hsel.
  repeat split. by rewrite <- !app_assoc.
Qed.

(** When the write of the migrated settings fails, the removal is not
    sent: the backend is as it was, legacy keys included, and the manager
    goes on with the migrated settings in memory. *)
Lemma failed_migration_keeps_legacy e s ex :
  initialized s = false →
  saving s = false →
  fnsku_extension_settings (storage s) = None →
  truthy (legacy_template_id (storage s)) = true →
  get_settings e = Fulfilled → get_legacy e = Fulfilled →
  set_settings e = Rejected ex →
  selectedTemplateId (getSettings e s).1 = legacy_template_id (storage s)
  ∧ storage (getSettings e s).2 = storage s
  ∧ requests (getSettings e s).2
    = (requests s ++ [StorageGet ["fnsku_extension_settings"];
                      StorageGet ["fnskuLabelSettings"; "extensionSettings"];
                      StorageSet "fnsku_extension_settings"])%list.
Proof.
  intros Hinit Hsaving Hnone Hid Hg Hl Hs.
  unfold getSettings, ensureInitialized, init. rewrite Hinit. simpl.
  unfold loadSettings. rewrite Hg. simpl. rewrite Hnone.
  unfold migrateOldSettings. rewrite Hl. simpl.
  destruct (migrate_fields_selectedTemplateId e (storage s) (settings s) Hid) as [Hsel Hm].
  destruct (migrate_fields e (storage s) (settings s)) as [st migrated].
  simpl in Hsel, Hm. subst migrated.
  unfold saveSettings, saveSettings_begin, saveSettings_end. simpl.
  rewrite Hsaving. simpl. rewrite Hs. simpl.
  repeat split; [done|]. by rewrite <- !app_assoc.
Qed.

(** *** The manager in the event loop *)

(** What happens to a manager: a call of one of its methods, the firing of
    a timer, the settling of the write that is in flight.  A call runs to
    its end or to the write that it waits for; the initialisation runs as a
    whole. *)
Inductive action : Type :=
| Init (e : env)
| GetSettings (e : env)
| SetSelectedTemplateId (e : env) (templateId : string)
| UpdateGlobalSettings (e : env) (newSettings : gmap string setting)
| UpdateSetting (e : env) (key : string) (x : setting)
| ResetSettings (e : env)
| ImportSettings (e : env) (importData : option StoredSettings)
| ForceSave
| Cleanup
| TimerFires (handle : positive)
| WriteSettles (r : response).

Definition step (a : action) (s : state) : state :=
  match a with
  | Init e => init e s
  | GetSettings e => (getSettings e s).2
  | SetSelectedTemplateId e templateId => setSelectedTemplateId e templateId s
  | UpdateGlobalSettings e newSettings => updateGlobalSettings e newSettings s
  | UpdateSetting e key x => updateSetting e key x s
  | ResetSettings e => (resetSettings_via saveSettings_suspended e s).2
  | ImportSettings e importData =>
      (importSettings_via saveSettings_suspended e importData s).2
  | ForceSave => (forceSave_via saveSettings_suspended s).2
  | Cleanup => cleanup s
  | TimerFires handle => timer_fires handle s
  | WriteSettles r => write_settles r s
  end.

Definition run (actions : list action) (s : state) : state :=
  foldl (fun s a => step a s) s actions.

Inductive reachable : state → Prop :=
| reachable_new constructed b : reachable (new constructed b)
| reachable_step a s : reachable s → reachable (step a s).

(** A write is in flight, or a timer of [debouncedSave] is pending. *)
Definition busy (s : state) : Prop := in_flight s ≠ None ∨ timers s ≠ [].

(** The flag [saving] is set exactly while a write is in flight, and a
    pending timer is the one that [saveTimeout] names. *)
Definition consistent (s : state) : Prop :=
  (saving s = true ↔ in_flight s ≠ None)
  ∧ ∀ handle, handle ∈ timers s → saveTimeout s = Some handle.

Lemma consistent_debouncedSave s : consistent s → consistent (debouncedSave s).
Proof.
  intros [Hs Ht]. unfold debouncedSave, setTimeout, clearTimeout.
  destruct (saveTimeout s) as [h|] eqn:E; simpl; (split; [exact Hs|]); simpl.
  - intros h' Hin. apply elem_of_app in Hin as [Hin|Hin].
    + apply list_elem_of_filter in Hin as [Hne Hin]. apply Ht in Hin. congruence.
    + apply list_elem_of_singleton in Hin. by subst.
  - intros h' Hin. apply elem_of_app in Hin as [Hin|Hin].
    + apply Ht in Hin. congruence.
    + apply list_elem_of_singleton in Hin. by subst.
Qed.

Lemma consistent_idle s :
  (∀ handle, handle ∈ timers s → saveTimeout s = Some handle) →
  saving s = false → in_flight s = None → consistent s.
Proof. intros Ht Hs Hf. split; [|exact Ht]. rewrite Hs, Hf. split; done. Qed.

Lemma consistent_saveSettings e s : consistent s → consistent (saveSettings e s).2.
Proof.
  intros Hc. unfold saveSettings.
  destruct (saving s) eqn:E; [exact Hc|]. destruct Hc as [Hs Ht].
  unfold saveSettings_begin, saveSettings_end. rewrite E. simpl.
  destruct (set_settings e); simpl; by apply consistent_idle.
Qed.

Lemma consistent_saveSettings_begin s : consistent s → consistent (saveSettings_begin s).
Proof.
  intros Hc. unfold saveSettings_begin.
  destruct (saving s) eqn:E; [exact Hc|].
  destruct Hc as [_ Ht]. split; [simpl; split; done|exact Ht].
Qed.

Lemma consistent_with_settings st s : consistent s → consistent (with_settings st s).
Proof. intros [Hs Ht]. by split. Qed.

Lemma consistent_with_storage b s : consistent s → consistent (with_storage b s).
Proof. intros [Hs Ht]. by split. Qed.

Lemma consistent_with_initialized b s : consistent s → consistent (with_initialized b s).
Proof. intros [Hs Ht]. by split. Qed.

Lemma consistent_emit event data s : consistent s → consistent (emit event data s).
Proof. intros [Hs Ht]. by split. Qed.

Lemma consistent_send r s : consistent s → consistent (send r s).
Proof. intros [Hs Ht]. by split. Qed.

Create HintDb settings.
#[global] Hint Resolve consistent_debouncedSave consistent_saveSettings
  consistent_saveSettings_begin consistent_with_settings consistent_with_storage consistent_with_initialized
  consistent_emit consistent_send : settings.

Lemma consistent_clear s :
  consistent s →
  consistent match saveTimeout s with
             | Some handle => with_saveTimeout None (clearTimeout handle s)
             | None => s
             end.
Proof.
  intros Hc. destruct (saveTimeout s) as [h|] eqn:E; [|exact Hc].
  destruct Hc as [Hs Ht]. split; [exact Hs|]. simpl. intros h' Hin.
  apply list_elem_of_filter in Hin as [Hne Hin]. apply Ht in Hin. congruence.
Qed.

Lemma consistent_migrateOldSettings e s :
  consistent s → consistent (migrateOldSettings e s).
Proof.
  intros Hc. unfold migrateOldSettings.
  destruct (get_legacy e); [|auto with settings].
  destruct (migrate_fields e (storage (send _ s)) (settings (send _ s)))
    as [st [|]]; [|auto with settings].
  match goal with |- context [saveSettings e ?s0] =>
    assert (Hsave : consistent (saveSettings e s0).2) by auto 6 with settings;
    destruct (saveSettings e s0) as [[[]|ex] s1]
  end; simpl in Hsave; [|exact Hsave].
  destruct (remove_legacy e); auto with settings.
Qed.

Lemma consistent_init e s : consistent s → consistent (init e s).
Proof.
  intros Hc. unfold init. destruct (initialized s); [exact Hc|].
  apply consistent_emit, consistent_with_initialized. unfold loadSettings.
  destruct (get_settings e); [|auto with settings].
  destruct (fnsku_extension_settings (storage (send _ s)));
    auto using consistent_migrateOldSettings with settings.
Qed.

Lemma consistent_ensureInitialized e s : consistent s → consistent (ensureInitialized e s).
Proof.
  unfold ensureInitialized. destruct (negb (initialized s)); auto using consistent_init.
Qed.

#[global] Hint Resolve consistent_init consistent_ensureInitialized consistent_clear
  : settings.

Lemma consistent_step a s : consistent s → consistent (step a s).
Proof.
  intros Hc. destruct a as [e|e|e id|e newSettings|e key x|e|e data| | |h|r]; simpl.
  - auto with settings.
  - auto with settings.
  - unfold setSelectedTemplateId. destruct (negb _); auto 8 with settings.
  - unfold updateGlobalSettings. destruct (hasSettingsChanges _ _); auto 8 with settings.
  - unfold updateSetting. destruct (negb _); auto 8 with settings.
  - unfold resetSettings_via, saveSettings_suspended. simpl. auto 8 with settings.
  - unfold importSettings_via, saveSettings_suspended.
    destruct data as [imported|]; simpl; auto 8 with settings.
  - unfold forceSave_via, saveSettings_suspended. simpl. auto with settings.
  - unfold cleanup. auto with settings.
  - unfold timer_fires. destruct (bool_decide _); [|exact Hc].
    apply consistent_saveSettings_begin.
    destruct Hc as [Hs Ht]. split; [exact Hs|]. simpl.
    intros h' Hin. apply list_elem_of_filter in Hin as [_ Hin]. auto.
  - unfold write_settles, saveSettings_end.
    destruct (in_flight s) eqn:E; [|exact Hc]. destruct Hc as [Hs Ht].
    destruct r; simpl; by apply consistent_idle.
Qed.

Lemma reachable_consistent s : reachable s → consistent s.
Proof.
  induction 1 as [|a s _ IH]; [|by apply consistent_step].
  apply consistent_idle; [|done..]. intros h Hin. by apply elem_of_nil in Hin.
Qed.

(** The half of the contract of [isSaving] that the code keeps: it returns
    [true] while a write is in flight or a timer is pending. *)
Lemma isSaving_while_busy s : reachable s → busy s → isSaving s = true.
Proof.
  intros Hr Hb. destruct (reachable_consistent s Hr) as [Hs Ht].
  unfold isSaving. destruct Hb as [Hb|Hb].
  - apply Hs in Hb. by rewrite Hb.
  - destruct (timers s) as [|h l] eqn:E; [done|].
    rewrite (Ht h) by constructor.
    apply orb_true_iff. right. by apply bool_decide_eq_true_2.
Qed.

(** *** Examples *)

Definition example_env : env :=
  {| get_settings := Fulfilled; get_legacy := Fulfilled;
     set_settings := Fulfilled; remove_legacy := Fulfilled;
     now := "2026-01-01T10:00:00.000Z";
     identity_of := fun _ => 1%positive |}.

Definition later_env : env :=
  {| get_settings := Fulfilled; get_legacy := Fulfilled;
     set_settings := Fulfilled; remove_legacy := Fulfilled;
     now := "2026-01-01T10:00:05.000Z";
     identity_of := fun _ => 2%positive |}.

Definition empty_backend : backend :=
  {| fnsku_extension_settings := None; fnskuLabelSettings := None;
     extensionSettings := None |}.

(** A backend left by an earlier version: a legacy object with a template
    id and a barcode format, no unified key. *)
Definition legacy_backend : backend :=
  {| fnsku_extension_settings := None;
     fnskuLabelSettings :=
       Some (object [("templateId", VString "shipping_4x6");
                     ("barcodeFormat", VString "CODE39")]);
     extensionSettings := None |}.

(** An initialised manager with the default settings. *)
Definition ready : state := init example_env (new "2026-01-01T09:00:00.000Z" empty_backend).

(** The current value of [debugMode], alone. *)
Definition same_debugMode : gmap string setting := {[ "debugMode" := Prim (VBool false) ]}.

(** C4 as stated fails: a partial object whose only key holds the current
    value is taken for a change.  The call stamps [lastUpdated], emits
    [globalSettingsChanged], [settingsChanged] and [settingsSaving] and
    schedules a write, and a second call with the same object does so
    again. *)
Lemma partial_same_values_is_a_change :
  initialized ready = true
  ∧ same_values (globalSettings (settings ready)) same_debugMode = true
  ∧ (emitted ready).*1 = ["initialized"]
  ∧ let once := updateGlobalSettings later_env same_debugMode ready in
    (emitted once).*1
    = ["initialized"; "globalSettingsChanged"; "settingsChanged"; "settingsSaving"]
    ∧ lastUpdated (settings once) = "2026-01-01T10:00:05.000Z"
    ∧ lastUpdated (settings ready) = "2026-01-01T09:00:00.000Z"
    ∧ timers once = [1%positive]
    ∧ (emitted (updateGlobalSettings later_env same_debugMode once)).*1
      = ["initialized"; "globalSettingsChanged"; "settingsChanged"; "settingsSaving";
         "globalSettingsChanged"; "settingsChanged"; "settingsSaving"].
Proof. repeat split; vm_compute; reflexivity. Qed.

Lemma updateGlobalSettings_same_values_witness :
  initialized ready = true
  ∧ size (globalSettings (settings ready)) = size (globalSettings (settings ready))
  ∧ same_values (globalSettings (settings ready)) (globalSettings (settings ready)) = true
  ∧ updateGlobalSettings later_env (globalSettings (settings ready)) ready = ready.
Proof.
  assert (Hi : initialized ready = true) by reflexivity.
  assert (Hs : same_values (globalSettings (settings ready))
                 (globalSettings (settings ready)) = true)
    by (vm_compute; reflexivity).
  split; [exact Hi|]. split; [reflexivity|]. split; [exact Hs|].
  exact (proj1 (updateGlobalSettings_same_values later_env later_env
                  (globalSettings (settings ready)) ready Hi) eq_refl Hs).
Defined.

(** C5, on the code.  After a change of the settings, the firing of the
    debounce timer and the completion of its write, no timer is pending, no
    write is in flight, the settings are on the backend, and [isSaving()]
    still returns [true]: the callback of the timer leaves the expired handle
    in [saveTimeout]. *)
Theorem isSaving_after_debounced_save :
  let changed :=
    run [UpdateGlobalSettings later_env {[ "debugMode" := Prim (VBool true) ]}] ready in
  let fired := run [TimerFires 1] changed in
  let settled := run [WriteSettles Fulfilled] fired in
  reachable settled
  ∧ (timers changed = [1%positive] ∧ in_flight changed = None ∧ isSaving changed = true)
  ∧ (timers fired = [] ∧ in_flight fired = Some (settings changed) ∧ isSaving fired = true)
  ∧ (timers settled = [] ∧ in_flight settled = None ∧ saving settled = false
     ∧ fnsku_extension_settings (storage settled)
       = fnsku_extension_settings (store_settings (settings changed) empty_backend)
     ∧ saveTimeout settled = Some 1%positive
     ∧ isSaving settled = true).
Proof.
  split.
  { apply (reachable_step (WriteSettles _)), (reachable_step (TimerFires _)),
      (reachable_step (UpdateGlobalSettings _ _)), (reachable_step (Init example_env)),
      reachable_new. }
  repeat split; vm_compute; reflexivity.
Qed.

Lemma legacy_template_id_migrated_witness :
  let s := new "2026-01-01T09:00:00.000Z" legacy_backend in
  truthy (legacy_template_id (storage s)) = true
  ∧ selectedTemplateId (getSettings example_env s).1 = VString "shipping_4x6"
  ∧ fnskuLabelSettings (storage (getSettings example_env s).2) = None.
Proof.
  assert (Ht : truthy (legacy_template_id
                         (storage (new "2026-01-01T09:00:00.000Z" legacy_backend))) = true)
    by (vm_compute; reflexivity).
  split; [exact Ht|].
  destruct (legacy_template_id_migrated example_env
              (new "2026-01-01T09:00:00.000Z" legacy_backend)
              eq_refl eq_refl eq_refl Ht eq_refl eq_refl eq_refl eq_refl)
    as (Hsel & _ & Hlegacy & _).
  split; [|exact Hlegacy]. rewrite Hsel. vm_compute. reflexivity.
Defined.

(** The backend as the earlier version of the extension leaves it: the
    configuration dialog of the content script, and the service worker on
    install, store the label settings under [fnskuLabelSettings] with the id
    of the template under [template]; here with the third template of the
    dialog selected. *)
Definition dialog_backend : backend :=
  {| fnsku_extension_settings := None;
     fnskuLabelSettings :=
       Some (object [("template", VString "shipping_4x6");
                     ("customWidth", num 57);
                     ("customHeight", num 32);
                     ("barcodeFormat", VString "CODE128");
                     ("includeImage", VBool false);
                     ("fontSize", object [("fnsku", num 8); ("sku", num 11);
                                          ("title", num 6)])]);
     extensionSettings := None |}.

(** C8, on the code.  On the legacy object that the earlier version of the
    extension stores, which carries the template id [shipping_4x6] under
    [template], and with no unified key, the initialisation migrates the
    barcode format, writes the unified object and then removes the legacy
    keys; but [migrateOldSettings] reads the id of [fnskuLabelSettings] from
    [templateId] only, so [getSettings().selectedTemplateId] is the default
    [thermal_57x32], not the id of the legacy object, which is lost with the
    legacy key. *)
Theorem legacy_template_field_not_migrated :
  get_opt (default VUndefined (fnskuLabelSettings dialog_backend)) "template"
    = VString "shipping_4x6"
  ∧ selectedTemplateId
      (getSettings example_env (new "2026-01-01T09:00:00.000Z" dialog_backend)).1
    = VString "thermal_57x32"
  ∧ fnsku_extension_settings
      (storage (getSettings example_env (new "2026-01-01T09:00:00.000Z" dialog_backend)).2)
    = Some {| stored_selectedTemplateId := Some (VString "thermal_57x32");
              stored_globalSettings :=
                Some (globalSettings
                        (settings (new "2026-01-01T09:00:00.000Z" dialog_backend)));
              stored_lastUpdated := Some "2026-01-01T10:00:00.000Z" |}
  ∧ fnskuLabelSettings
      (storage (getSettings example_env (new "2026-01-01T09:00:00.000Z" dialog_backend)).2)
    = None
  ∧ requests (getSettings example_env (new "2026-01-01T09:00:00.000Z" dialog_backend)).2
    = [StorageGet ["fnsku_extension_settings"];
       StorageGet ["fnskuLabelSettings"; "extensionSettings"];
       StorageSet "fnsku_extension_settings";
       StorageRemove ["fnskuLabelSettings"; "extensionSettings"]].
Proof. repeat split; vm_compute; reflexivity. Qed.

(** *** The other readers *)

Definition getSelectedTemplateId (e : env) (s : state) : value * state :=
  let s := ensureInitialized e s in
  (selectedTemplateId (settings s), s).

Definition getGlobalSettings (e : env) (s : state) : gmap string setting * state :=
  let s := ensureInitialized e s in
  (globalSettings (settings s), s).

Definition getSetting (e : env) (key : string) (s : state) : setting * state :=
  let s := ensureInitialized e s in
  (setting_of (globalSettings (settings s)) key, s).

(** The object that [exportSettings] returns. *)
Record exported : Type := {
  exported_settings : Settings;
  exportedAt : string;
  version : string
}.

Definition exportSettings (e : env) (s : state) : exported * state :=
  let s := ensureInitialized e s in
  ({| exported_settings := settings s; exportedAt := now e; version := "1.0.0" |}, s).

(** Settings as an object that has all their fields: what the backend
    holds after a write, and what the [settings] of an export is. *)
Definition all_fields (x : Settings) : StoredSettings :=
  {| stored_selectedTemplateId := Some (selectedTemplateId x);
     stored_globalSettings := Some (globalSettings x);
     stored_lastUpdated := Some (lastUpdated x) |}.

(** *** At most one timer *)

(** No timer is pending, or one is and [saveTimeout] names it. *)
Definition one_timer (s : state) : Prop :=
  timers s = [] ∨ ∃ handle, timers s = [handle] ∧ saveTimeout s = Some handle.

(** [s'] has the timers and the handle of [s]. *)
Definition same_timers (s s' : state) : Prop :=
  timers s' = timers s ∧ saveTimeout s' = saveTimeout s.

Lemma one_timer_same s s' : same_timers s s' → one_timer s → one_timer s'.
Proof. intros [Ht Hh]. unfold one_timer. by rewrite Ht, Hh. Qed.

Lemma same_timers_trans s1 s2 s3 :
  same_timers s1 s2 → same_timers s2 s3 → same_timers s1 s3.
Proof. intros [? ?] [? ?]. split; congruence. Qed.

Lemma same_timers_saveSettings_begin s : same_timers s (saveSettings_begin s).
Proof. unfold saveSettings_begin. by destruct (saving s). Qed.

Lemma same_timers_saveSettings_end r s : same_timers s (saveSettings_end r s).2.
Proof. unfold saveSettings_end. by destruct (in_flight s), r. Qed.

Lemma same_timers_saveSettings e s : same_timers s (saveSettings e s).2.
Proof.
  unfold saveSettings. destruct (saving s); [done|].
  eapply same_timers_trans;
    [apply same_timers_saveSettings_begin | apply same_timers_saveSettings_end].
Qed.

Lemma same_timers_migrateOldSettings e s : same_timers s (migrateOldSettings e s).
Proof.
  unfold migrateOldSettings. destruct (get_legacy e); [|done].
  destruct (migrate_fields e _ _) as [st [|]]; [|done].
  match goal with |- context [saveSettings e ?s0] =>
    pose proof (same_timers_saveSettings e s0) as Hsave;
    destruct (saveSettings e s0) as [[[]|ex] s1]
  end; simpl in Hsave; [|exact Hsave].
  by destruct (remove_legacy e).
Qed.

Lemma same_timers_init e s : same_timers s (init e s).
Proof.
  unfold init. destruct (initialized s); [done|]. unfold loadSettings.
  destruct (get_settings e); [|done].
  destruct (fnsku_extension_settings _); [done|].
  apply (same_timers_migrateOldSettings e (send _ s)).
Qed.

Lemma same_timers_ensureInitialized e s : same_timers s (ensureInitialized e s).
Proof.
  unfold ensureInitialized. destruct (negb (initialized s)); [apply same_timers_init|done].
Qed.

(** The timers after the handle that [saveTimeout] names has been
    cleared. *)
Lemma one_timer_cleared s handle :
  one_timer s → saveTimeout s = Some handle →
  filter (fun h => h ≠ handle) (timers s) = [].
Proof.
  intros [Ht|(h & Ht & Hh)] Hs; rewrite Ht; [done|].
  assert (h = handle) as -> by congruence.
  rewrite filter_cons_False by (intros H; by apply H). done.
Qed.

Lemma one_timer_idle s : one_timer s → saveTimeout s = None → timers s = [].
Proof. intros [Ht|(h & Ht & Hh)] Hs; [done|congruence]. Qed.

Lemma debouncedSave_timers s :
  one_timer s →
  timers (debouncedSave s) = [next_handle s]
  ∧ saveTimeout (debouncedSave s) = Some (next_handle s).
Proof.
  intros Ho. unfold debouncedSave, setTimeout, clearTimeout, unschedule.
  destruct (saveTimeout s) as [h|] eqn:E; simpl.
  - by rewrite (one_timer_cleared s h Ho E).
  - by rewrite (one_timer_idle s Ho E).
Qed.

Lemma one_timer_debouncedSave s : one_timer s → one_timer (debouncedSave s).
Proof.
  intros Ho. destruct (debouncedSave_timers s Ho) as [Ht Hh].
  right. by exists (next_handle s).
Qed.

Lemma one_timer_clear s :
  one_timer s →
  timers match saveTimeout s with
         | Some handle => with_saveTimeout None (clearTimeout handle s)
         | None => s
         end = [].
Proof.
  intros Ho. destruct (saveTimeout s) as [h|] eqn:E; simpl.
  - by apply one_timer_cleared.
  - by apply one_timer_idle.
Qed.

Lemma one_timer_unschedule handle s : one_timer s → one_timer (unschedule handle s).
Proof.
  intros [Ht|(h & Ht & Hh)]; unfold one_timer; simpl; rewrite Ht; [by left|].
  destruct (decide (h = handle)) as [->|Hne].
  - left. rewrite filter_cons_False by (intros H; by apply H). done.
  - right. exists h. by rewrite filter_cons_True.
Qed.

Lemma one_timer_step a s : one_timer s → one_timer (step a s).
Proof.
  intros Ho. destruct a as [e|e|e id|e newSettings|e key x|e|e data| | |h|r]; simpl.
  - eapply one_timer_same; [apply same_timers_init|exact Ho].
  - eapply one_timer_same; [apply same_timers_ensureInitialized|exact Ho].
  - pose proof (one_timer_same _ _ (same_timers_ensureInitialized e s) Ho) as Hi.
    unfold setSelectedTemplateId. destruct (negb _); [|exact Hi].
    by apply one_timer_debouncedSave.
  - pose proof (one_timer_same _ _ (same_timers_ensureInitialized e s) Ho) as Hi.
    unfold updateGlobalSettings. destruct (hasSettingsChanges _ _); [|exact Hi].
    by apply one_timer_debouncedSave.
  - pose proof (one_timer_same _ _ (same_timers_ensureInitialized e s) Ho) as Hi.
    unfold updateSetting. destruct (negb _); [|exact Hi].
    by apply one_timer_debouncedSave.
  - pose proof (one_timer_same _ _ (same_timers_ensureInitialized e s) Ho) as Hi.
    unfold resetSettings_via, saveSettings_suspended. simpl.
    eapply one_timer_same; [apply same_timers_saveSettings_begin|exact Hi].
  - unfold importSettings_via, saveSettings_suspended.
    destruct data as [imported|]; simpl; [|exact Ho].
    eapply one_timer_same; [apply same_timers_saveSettings_begin|exact Ho].
  - unfold forceSave_via, saveSettings_suspended. simpl.
    eapply one_timer_same; [apply same_timers_saveSettings_begin|].
    left. by apply one_timer_clear.
  - unfold cleanup. left. by apply (one_timer_clear s).
  - unfold timer_fires. destruct (bool_decide _); [|exact Ho].
    eapply one_timer_same; [apply same_timers_saveSettings_begin|].
    by apply one_timer_unschedule.
  - eapply one_timer_same; [apply same_timers_saveSettings_end|exact Ho].
Qed.

Lemma reachable_one_timer s : reachable s → one_timer s.
Proof. induction 1 as [|a s _ IH]; [by left|by apply one_timer_step]. Qed.

(** X13.  In every state that the manager reaches, at most one timer of
    [debouncedSave] is pending, and [saveTimeout] holds its handle. *)
Theorem at_most_one_pending_timer s :
  reachable s →
  (length (timers s) <= 1)%nat
  ∧ ∀ handle, handle ∈ timers s → saveTimeout s = Some handle.
Proof.
  intros Hr. destruct (reachable_one_timer s Hr) as [Ht|(h & Ht & Hh)]; rewrite Ht.
  - split; [simpl; lia|]. intros handle Hin. by apply elem_of_nil in Hin.
  - split; [simpl; lia|]. intros handle Hin.
    apply list_elem_of_singleton in Hin. by subst.
Qed.

(** X14.  In a reachable state, [setSelectedTemplateId] with an id that
    is not [===] to the selected one selects it, stamps [lastUpdated],
    emits [templateSelected], [settingsChanged] and [settingsSaving] in this
    order, and leaves exactly one timer pending, its own; it sends nothing to
    the backend.  With the selected id it changes nothing. *)
Theorem setSelectedTemplateId_schedules_one_write e templateId s :
  reachable s →
  initialized s = true →
  let after := setSelectedTemplateId e templateId s in
  if prim_eq (selectedTemplateId (settings s)) (VString templateId)
  then after = s
  else
    settings after
    = {| selectedTemplateId := VString templateId;
         globalSettings := globalSettings (settings s);
         lastUpdated := now e |}
    ∧ emitted after
      = (emitted s ++ [("templateSelected", OfValue (VString templateId));
                       ("settingsChanged", OfSettings (settings after));
                       ("settingsSaving", OfValue (VBool true))])%list
    ∧ timers after = [next_handle s]
    ∧ saveTimeout after = Some (next_handle s)
    ∧ requests after = requests s
    ∧ storage after = storage s.
Proof.
  intros Hr Hi. unfold setSelectedTemplateId.
  rewrite (ensureInitialized_ready e s Hi).
  destruct (prim_eq (selectedTemplateId (settings s)) (VString templateId));
    cbn [negb]; cbv zeta; [done|].
  match goal with |- context [debouncedSave ?s0] =>
    assert (Ho : one_timer s0) by exact (reachable_one_timer s Hr);
    destruct (debouncedSave_timers s0 Ho) as [Ht Hh]
  end.
  rewrite Ht, Hh, debouncedSave_settings. simpl.
  split; [done|]. split; [|split; [done|split; [done|]]].
  - unfold debouncedSave. destruct (saveTimeout s); simpl; by rewrite <- !app_assoc.
  - unfold debouncedSave. by destruct (saveTimeout s).
Qed.

(** X15.  When the pending timer fires while no write is in flight, the
    write that is sent carries the settings of that moment, whatever they
    were when the timer was scheduled; once it has succeeded the backend
    holds them under the unified key, the last event is [settingsSaved], and
    nothing is pending. *)
Theorem timer_writes_current_settings handle s :
  reachable s →
  handle ∈ timers s →
  in_flight s = None →
  let fired := timer_fires handle s in
  let settled := write_settles Fulfilled fired in
  requests fired = (requests s ++ [StorageSet "fnsku_extension_settings"])%list
  ∧ in_flight fired = Some (settings s)
  ∧ fnsku_extension_settings (storage settled) = Some (all_fields (settings s))
  ∧ last (emitted settled) = Some ("settingsSaved", OfSettings (settings s))
  ∧ timers settled = []
  ∧ in_flight settled = None
  ∧ saving settled = false.
Proof.
  intros Hr Hin Hf.
  destruct (reachable_consistent s Hr) as [Hs _].
  assert (Hsaving : saving s = false).
  { destruct (saving s); [|done]. by destruct (proj1 Hs eq_refl). }
  assert (Ht : filter (fun h => h ≠ handle) (timers s) = []).
  { destruct (reachable_one_timer s Hr) as [Ht|(h & Ht & Hh)];
      rewrite Ht in Hin |- *; [by apply elem_of_nil in Hin|].
    apply list_elem_of_singleton in Hin as ->.
    rewrite filter_cons_False by (intros H; by apply H). done. }
  unfold timer_fires, write_settles, saveSettings_begin, saveSettings_end.
  rewrite bool_decide_eq_true_2 by done. simpl. rewrite Hsaving. simpl.
  rewrite Ht. repeat split. apply last_snoc.
Qed.

(** X16.  When the pending timer fires while a write is in flight, its
    save returns at once: no request is sent and no timer remains.  Once
    the write in flight has succeeded, the backend holds the settings that
    this write carried, the manager holds its current settings, and nothing
    is pending that would write them. *)
Theorem save_during_write_is_dropped handle written s :
  reachable s →
  handle ∈ timers s →
  in_flight s = Some written →
  let fired := timer_fires handle s in
  let settled := write_settles Fulfilled fired in
  requests fired = requests s
  ∧ timers fired = []
  ∧ fnsku_extension_settings (storage settled) = Some (all_fields written)
  ∧ settings settled = settings s
  ∧ timers settled = []
  ∧ in_flight settled = None
  ∧ requests settled = requests s.
Proof.
  intros Hr Hin Hf.
  destruct (reachable_consistent s Hr) as [Hs _].
  assert (Hsaving : saving s = true) by (apply Hs; by rewrite Hf).
  assert (Ht : filter (fun h => h ≠ handle) (timers s) = []).
  { destruct (reachable_one_timer s Hr) as [Ht|(h & Ht & Hh)];
      rewrite Ht in Hin |- *; [by apply elem_of_nil in Hin|].
    apply list_elem_of_singleton in Hin as ->.
    rewrite filter_cons_False by (intros H; by apply H). done. }
  unfold timer_fires, write_settles, saveSettings_begin, saveSettings_end.
  rewrite bool_decide_eq_true_2 by done. simpl. rewrite Hsaving. simpl.
  rewrite Hf. simpl. by rewrite Ht.
Qed.

(** X17.  While a write is in flight, [forceSave], [resetSettings] and
    [importSettings] send nothing to the backend: [forceSave] only cancels
    the pending timer, and the settings that the other two install stay in
    memory. *)
Theorem calls_during_write_send_nothing e importData written s :
  reachable s →
  initialized s = true →
  in_flight s = Some written →
  (forceSave e s).1 = Return tt
  ∧ requests (forceSave e s).2 = requests s
  ∧ timers (forceSave e s).2 = []
  ∧ in_flight (forceSave e s).2 = Some written
  ∧ requests (resetSettings e s).2 = requests s
  ∧ in_flight (resetSettings e s).2 = Some written
  ∧ lastUpdated (settings (resetSettings e s).2) = now e
  ∧ requests (importSettings e importData s).2 = requests s
  ∧ in_flight (importSettings e importData s).2 = Some written.
Proof.
  intros Hr Hi Hf.
  destruct (reachable_consistent s Hr) as [Hs _].
  assert (Hsaving : saving s = true) by (apply Hs; by rewrite Hf).
  pose proof (one_timer_clear s (reachable_one_timer s Hr)) as Hclear.
  unfold forceSave, forceSave_via, resetSettings, resetSettings_via,
    importSettings, importSettings_via, saveSettings.
  rewrite (ensureInitialized_ready e s Hi).
  destruct (saveTimeout s) as [h|]; destruct importData as [imported|];
    simpl in *; rewrite Hsaving; simpl; by rewrite ?Hclear.
Qed.

(** X18.  On a manager with no write in flight, [forceSave] with a backend
    that accepts the write cancels the pending timer, writes the current
    settings, and leaves [isSaving()] false. *)
Theorem forceSave_writes_now e s :
  reachable s →
  in_flight s = None →
  set_settings e = Fulfilled →
  (forceSave e s).1 = Return tt
  ∧ fnsku_extension_settings (storage (forceSave e s).2) = Some (all_fields (settings s))
  ∧ requests (forceSave e s).2
    = (requests s ++ [StorageSet "fnsku_extension_settings"])%list
  ∧ last (emitted (forceSave e s).2) = Some ("settingsSaved", OfSettings (settings s))
  ∧ timers (forceSave e s).2 = []
  ∧ isSaving (forceSave e s).2 = false.
Proof.
  intros Hr Hf Hset.
  destruct (reachable_consistent s Hr) as [Hs _].
  assert (Hsaving : saving s = false).
  { destruct (saving s); [|done]. by destruct (proj1 Hs eq_refl). }
  pose proof (one_timer_clear s (reachable_one_timer s Hr)) as Hclear.
  unfold forceSave, forceSave_via, saveSettings, saveSettings_begin, saveSettings_end,
    isSaving.
  destruct (saveTimeout s) as [h|] eqn:E; simpl in *; rewrite Hsaving; simpl;
    rewrite Hset; simpl; rewrite ?Hclear, ?E; repeat split; apply last_snoc.
Qed.

(** X19.  What a successful write has put on the backend is what a new
    manager loads: it holds the written settings after one read of the
    unified key, runs no migration and changes nothing on the backend. *)
Theorem written_settings_are_loaded e constructed written b :
  get_settings e = Fulfilled →
  let loaded := init e (new constructed (store_settings written b)) in
  settings loaded = written
  ∧ requests loaded = [StorageGet ["fnsku_extension_settings"]]
  ∧ storage loaded = store_settings written b
  ∧ emitted loaded = [("initialized", OfSettings written)]
  ∧ initialized loaded = true.
Proof.
  intros Hget. unfold init, loadSettings. simpl. rewrite Hget. simpl.
  by destruct written.
Qed.

(** X20.  On a manager with no write in flight and a backend that accepts
    the write, [resetSettings] returns and writes the default template id
    and the four default global settings, [lastSelectedTab] not among them,
    whatever the settings were; a pending timer stays pending. *)
Theorem resetSettings_writes_defaults e s :
  reachable s →
  initialized s = true →
  in_flight s = None →
  set_settings e = Fulfilled →
  ∃ defaults,
    (resetSettings e s).1 = Return defaults
    ∧ selectedTemplateId defaults = VString "thermal_57x32"
    ∧ dom (globalSettings defaults)
      = {[ "barcodeFormat"; "autoExtract"; "autoOpenTabs"; "debugMode" ]}
    ∧ lastUpdated defaults = now e
    ∧ settings (resetSettings e s).2 = defaults
    ∧ fnsku_extension_settings (storage (resetSettings e s).2)
      = Some (all_fields defaults)
    ∧ timers (resetSettings e s).2 = timers s
    ∧ saveTimeout (resetSettings e s).2 = saveTimeout s.
Proof.
  intros Hr Hi Hf Hset.
  destruct (reachable_consistent s Hr) as [Hs _].
  assert (Hsaving : saving s = false).
  { destruct (saving s); [|done]. by destruct (proj1 Hs eq_refl). }
  unfold resetSettings, resetSettings_via, saveSettings, saveSettings_begin,
    saveSettings_end.
  rewrite (ensureInitialized_ready e s Hi). simpl. rewrite Hsaving. simpl.
  rewrite Hset. simpl. eexists. split; [reflexivity|]. simpl.
  split; [done|]. split; [|done].
  rewrite !dom_insert_L, dom_empty_L. set_solver.
Qed.

(** X21.  The migration takes a template id from
    [fnskuLabelSettings.templateId] and
    [extensionSettings.labelSettings.template] only, and global settings from
    [fnskuLabelSettings] only: without a truthy id under these two names the
    selection is kept, and without a truthy [fnskuLabelSettings] the global
    settings are kept, whatever else the legacy objects hold. *)
Theorem migrate_fields_reads_two_places e b st :
  (truthy (legacy_template_id b) = false →
   selectedTemplateId (migrate_fields e b st).1 = selectedTemplateId st)
  ∧ (truthy (default VUndefined (fnskuLabelSettings b)) = false →
     globalSettings (migrate_fields e b st).1 = globalSettings st
     ∧ (migrate_fields e b st).2 = truthy (extension_template b)).
Proof.
  unfold legacy_template_id, or_else, extension_template, label_templateId, migrate_fields.
  set (oldSettings := default VUndefined (fnskuLabelSettings b)).
  set (oldExtension := default VUndefined (extensionSettings b)).
  split.
  - intros H.
    destruct (truthy oldExtension) eqn:Hext;
    destruct (truthy (get_opt (get_opt oldExtension "labelSettings") "template")) eqn:Ht;
    destruct (truthy (get_opt oldExtension "labelSettings")) eqn:Hl;
    destruct (truthy oldSettings) eqn:Ho;
    destruct (truthy (get_opt oldSettings "templateId")) eqn:Hid;
    destruct (truthy (get_opt oldSettings "barcodeFormat"));
    destruct (negb (is_type (get_opt oldSettings "autoExtract") "undefined"));
    destruct (negb (is_type (get_opt oldSettings "autoOpenTabs") "undefined"));
    destruct (negb (is_type (get_opt oldSettings "debugMode") "undefined"));
    simpl in *; rewrite ?Ht, ?Hid in *; simpl in *; try done; try congruence.
  - intros Ho. rewrite Ho.
    destruct (truthy oldExtension) eqn:Hext;
    destruct (truthy (get_opt (get_opt oldExtension "labelSettings") "template")) eqn:Ht;
    destruct (truthy (get_opt oldExtension "labelSettings")) eqn:Hl;
    simpl in *; rewrite ?Ht; try done.
    by destruct (get_opt_falsy _ _ Hl Ht).
Qed.

Lemma ensureInitialized_marks_ready e s : initialized (ensureInitialized e s) = true.
Proof.
  unfold ensureInitialized, init. by destruct (initialized s) eqn:E; simpl; rewrite ?E.
Qed.

(** X22.  Under a key that names no member of [Object.prototype],
    [getSetting] after [updateSetting] of the same key returns a value that
    is [===] to the one given, for every value that is [===] to itself. *)
Theorem updateSetting_then_getSetting e e' key x s :
  inherited_name key = false →
  strict_eq x x = true →
  strict_eq (getSetting e' key (updateSetting e key x s)).1 x = true.
Proof.
  intros _ Hx. unfold getSetting, updateSetting.
  destruct (negb (strict_eq (setting_of (globalSettings (settings (ensureInitialized e s)))
                               key) x)) eqn:E.
  - rewrite ensureInitialized_ready by
      (rewrite debouncedSave_initialized; apply ensureInitialized_marks_ready).
    rewrite debouncedSave_settings. simpl.
    unfold setting_of. by rewrite lookup_insert_eq.
  - rewrite ensureInitialized_ready by apply ensureInitialized_marks_ready.
    simpl. by apply negb_false_iff in E.
Qed.

(** X23.  [importSettings] on what [exportSettings] returned, on a manager
    with no write in flight and a backend that accepts the write, installs
    and writes the selected template id and the global settings of the
    exporting manager, whatever the importing manager held, with
    [lastUpdated] the time of the import. *)
Theorem exportSettings_then_importSettings e e' s s' :
  saving s' = false →
  set_settings e' = Fulfilled →
  let backup := (exportSettings e s).1 in
  let restored := {| selectedTemplateId := selectedTemplateId (exported_settings backup);
                     globalSettings := globalSettings (exported_settings backup);
                     lastUpdated := now e' |} in
  exported_settings backup = settings (ensureInitialized e s)
  ∧ importSettings e' (Some (all_fields (exported_settings backup))) s'
    = (Return restored, (importSettings e' (Some (all_fields (exported_settings backup))) s').2)
  ∧ settings (importSettings e' (Some (all_fields (exported_settings backup))) s').2
    = restored
  ∧ fnsku_extension_settings
      (storage (importSettings e' (Some (all_fields (exported_settings backup))) s').2)
    = Some (all_fields restored).
Proof.
  intros Hsaving Hset. simpl.
  unfold importSettings, importSettings_via, saveSettings, saveSettings_begin,
    saveSettings_end. simpl. rewrite Hsaving. simpl. rewrite Hset. simpl. done.
Qed.

(** *** Examples for the timers and the writes *)

Lemma reachable_run actions : ∀ s, reachable s → reachable (run actions s).
Proof.
  induction actions as [|a rest IH]; intros s Hr; [exact Hr|].
  apply IH. by apply reachable_step.
Qed.

Lemma reachable_ready : reachable ready.
Proof. apply (reachable_step (Init example_env)), reachable_new. Qed.

(** A change of the settings has scheduled a write. *)
Definition changed : state :=
  run [UpdateGlobalSettings later_env {[ "debugMode" := Prim (VBool true) ]}] ready.

(** The timer has fired, and the template has been changed while the write
    is in flight. *)
Definition changed_during_write : state :=
  run [TimerFires 1; SetSelectedTemplateId later_env "shipping_4x6"] changed.

Lemma reachable_changed : reachable changed.
Proof. apply reachable_run, reachable_ready. Qed.

Lemma reachable_changed_during_write : reachable changed_during_write.
Proof. apply reachable_run, reachable_changed. Qed.

Lemma at_most_one_pending_timer_witness :
  (length (timers changed_during_write) <= 1)%nat.
Proof.
  exact (proj1 (at_most_one_pending_timer _ reachable_changed_during_write)).
Defined.

Lemma setSelectedTemplateId_schedules_one_write_witness :
  initialized ready = true
  ∧ timers (setSelectedTemplateId later_env "shipping_4x6" ready) = [1%positive]
  ∧ requests (setSelectedTemplateId later_env "shipping_4x6" ready) = requests ready.
Proof.
  split; [vm_compute; reflexivity|].
  pose proof (setSelectedTemplateId_schedules_one_write later_env "shipping_4x6" ready
                reachable_ready eq_refl) as H.
  cbv zeta in H.
  change (prim_eq (selectedTemplateId (settings ready)) (VString "shipping_4x6"))
    with false in H.
  destruct H as (_ & _ & Ht & _ & Hq & _). split; [exact Ht|exact Hq].
Defined.

Lemma timer_writes_current_settings_witness :
  1%positive ∈ timers changed
  ∧ in_flight changed = None
  ∧ fnsku_extension_settings
      (storage (write_settles Fulfilled (timer_fires 1 changed)))
    = Some (all_fields (settings changed)).
Proof.
  assert (Hin : 1%positive ∈ timers changed) by (vm_compute; apply list_elem_of_here).
  split; [exact Hin|]. split; [vm_compute; reflexivity|].
  destruct (timer_writes_current_settings 1 changed reachable_changed Hin eq_refl)
    as (_ & _ & Hs & _).
  exact Hs.
Defined.

Lemma save_during_write_is_dropped_witness :
  2%positive ∈ timers changed_during_write
  ∧ in_flight changed_during_write = Some (settings changed)
  ∧ selectedTemplateId (settings changed) = VString "thermal_57x32"
  ∧ let settled :=
      write_settles Fulfilled (timer_fires 2 changed_during_write) in
    fnsku_extension_settings (storage settled) = Some (all_fields (settings changed))
    ∧ selectedTemplateId (settings settled) = VString "shipping_4x6"
    ∧ timers settled = [].
Proof.
  assert (Hin : 2%positive ∈ timers changed_during_write)
    by (vm_compute; apply list_elem_of_here).
  split; [exact Hin|]. split; [vm_compute; reflexivity|]. split; [vm_compute; reflexivity|].
  destruct (save_during_write_is_dropped 2 (settings changed) changed_during_write
              reachable_changed_during_write Hin eq_refl)
    as (_ & _ & Hs & Hm & Ht & _).
  cbv zeta. split; [exact Hs|]. split; [by rewrite Hm|exact Ht].
Defined.

Lemma calls_during_write_send_nothing_witness :
  initialized changed_during_write = true
  ∧ in_flight changed_during_write = Some (settings changed)
  ∧ requests (resetSettings later_env changed_during_write).2
    = requests changed_during_write
  ∧ requests (forceSave later_env changed_during_write).2
    = requests changed_during_write.
Proof.
  split; [vm_compute; reflexivity|]. split; [vm_compute; reflexivity|].
  destruct (calls_during_write_send_nothing later_env None (settings changed)
              changed_during_write reachable_changed_during_write eq_refl eq_refl)
    as (_ & Hf & _ & _ & Hr & _).
  split; [exact Hr|exact Hf].
Defined.

Lemma forceSave_writes_now_witness :
  in_flight changed = None
  ∧ isSaving changed = true
  ∧ isSaving (forceSave later_env changed).2 = false
  ∧ fnsku_extension_settings (storage (forceSave later_env changed).2)
    = Some (all_fields (settings changed)).
Proof.
  split; [vm_compute; reflexivity|]. split; [vm_compute; reflexivity|].
  destruct (forceSave_writes_now later_env changed reachable_changed eq_refl eq_refl)
    as (_ & Hs & _ & _ & _ & Hi).
  split; [exact Hi|exact Hs].
Defined.

Lemma written_settings_are_loaded_witness :
  get_settings later_env = Fulfilled
  ∧ settings (init later_env
                (new "2026-01-02T09:00:00.000Z"
                   (store_settings (settings changed) empty_backend)))
    = settings changed.
Proof.
  split; [vm_compute; reflexivity|].
  exact (proj1 (written_settings_are_loaded later_env "2026-01-02T09:00:00.000Z"
                  (settings changed) empty_backend eq_refl)).
Defined.

Lemma resetSettings_writes_defaults_witness :
  initialized changed = true
  ∧ in_flight changed = None
  ∧ setting_of (globalSettings (settings changed)) "lastSelectedTab"
    = Prim (VString "downloads")
  ∧ ∃ defaults,
      (resetSettings later_env changed).1 = Return defaults
      ∧ dom (globalSettings defaults)
        = {[ "barcodeFormat"; "autoExtract"; "autoOpenTabs"; "debugMode" ]}
      ∧ timers (resetSettings later_env changed).2 = timers changed.
Proof.
  split; [vm_compute; reflexivity|]. split; [vm_compute; reflexivity|]. split; [vm_compute; reflexivity|].
  destruct (resetSettings_writes_defaults later_env changed reachable_changed
              eq_refl eq_refl eq_refl)
    as (defaults & Hr & _ & Hd & _ & _ & _ & Ht & _).
  exists defaults. split; [exact Hr|]. split; [exact Hd|exact Ht].
Defined.

Lemma updateSetting_then_getSetting_witness :
  inherited_name "barcodeFormat" = false
  ∧ strict_eq (Prim (VString "CODE39")) (Prim (VString "CODE39")) = true
  ∧ strict_eq
      (getSetting later_env "barcodeFormat"
         (updateSetting later_env "barcodeFormat" (Prim (VString "CODE39")) ready)).1
      (Prim (VString "CODE39")) = true.
Proof.
  split; [vm_compute; reflexivity|]. split; [vm_compute; reflexivity|].
  exact (updateSetting_then_getSetting later_env later_env "barcodeFormat"
           (Prim (VString "CODE39")) ready eq_refl eq_refl).
Defined.

Lemma exportSettings_then_importSettings_witness :
  saving ready = false
  ∧ exported_settings (exportSettings example_env changed).1
    = settings (ensureInitialized example_env changed)
  ∧ settings
      (importSettings later_env
         (Some (all_fields (exported_settings (exportSettings example_env changed).1)))
         ready).2
    = {| selectedTemplateId :=
           selectedTemplateId (exported_settings (exportSettings example_env changed).1);
         globalSettings :=
           globalSettings (exported_settings (exportSettings example_env changed).1);
         lastUpdated := now later_env |}.
Proof.
  assert (Hs : saving ready = false) by (vm_compute; reflexivity).
  assert (Hw : set_settings later_env = Fulfilled) by reflexivity.
  split; [exact Hs|].
  destruct (exportSettings_then_importSettings example_env later_env changed ready
              Hs Hw) as (He & _ & Hi & _).
  split; [exact He|exact Hi].
Defined.

(** An environment in which the write of the settings fails. *)
Definition failing_write_env : env :=
  {| get_settings := Fulfilled; get_legacy := Fulfilled;
     set_settings := Rejected (Error "QUOTA_BYTES_PER_ITEM quota exceeded");
     remove_legacy := Fulfilled;
     now := "2026-01-01T10:00:00.000Z";
     identity_of := fun _ => 1%positive |}.

(** X24 is [failed_migration_keeps_legacy], here on the backend left by an
    earlier version. *)
Lemma failed_migration_keeps_legacy_witness :
  truthy (legacy_template_id
            (storage (new "2026-01-01T09:00:00.000Z" legacy_backend))) = true
  ∧ selectedTemplateId
      (getSettings failing_write_env (new "2026-01-01T09:00:00.000Z" legacy_backend)).1
    = legacy_template_id (storage (new "2026-01-01T09:00:00.000Z" legacy_backend))
  ∧ storage
      (getSettings failing_write_env (new "2026-01-01T09:00:00.000Z" legacy_backend)).2
    = storage (new "2026-01-01T09:00:00.000Z" legacy_backend).
Proof.
  assert (Ht : truthy (legacy_template_id
                         (storage (new "2026-01-01T09:00:00.000Z" legacy_backend))) = true)
    by (vm_compute; reflexivity).
  split; [exact Ht|].
  destruct (failed_migration_keeps_legacy failing_write_env
              (new "2026-01-01T09:00:00.000Z" legacy_backend)
              (Error "QUOTA_BYTES_PER_ITEM quota exceeded")
              eq_refl eq_refl eq_refl Ht eq_refl eq_refl eq_refl)
    as (Hsel & Hst & _).
  split; [exact Hsel|exact Hst].
Defined.

(** X25 is [isSaving_while_busy], here with a timer pending. *)
Lemma isSaving_while_busy_witness : busy changed ∧ isSaving changed = true.
Proof.
  assert (Hb : busy changed) by (right; vm_compute; discriminate).
  split; [exact Hb|].
  exact (isSaving_while_busy changed reachable_changed Hb).
Defined.

End SettingsManager.

(** ** PDFLabelGenerator *)

Module PDFLabelGenerator.
Import JS.
Local Open Scope list_scope.

(** The product data of the extractor: every field is a string or is
    absent. *)
Record DataRecord : Type := {
  sku : option string;
  fnsku : option string;
  asin : option string;
  title : option string;
  image : option string;
  condition : option string
}.

(** A field as a value: an absent field reads as [undefined]. *)
Definition field (x : option string) : value :=
  match x with
  | Some s => VString s
  | None => VUndefined
  end.

(** The size that [renderText] gives to [doc.setFontSize]: the size of the
    element, or [fontSize * (maxWidth / textWidth)] when the text is too
    wide.  The product is kept as it is written. *)
Inductive size : Type :=
| Plain (fontSize : value)
| Scaled (fontSize maxWidth : value) (textWidth : Q).

(** The calls that draw on the current page of the document. *)
Inductive drawing : Type :=
| addImage (imageData format : string) (x y width height : value)
| setFont (fontName fontStyle : string)
| setFontSize (s : size)
| text (content x y align : value).

Definition page : Type := list drawing.

(** A jsPDF document: what its constructor and [setProperties] receive, and
    its pages.  A new document has one page. *)
Record document : Type := {
  orientation : value;
  format : value * value;
  doc_title : string;
  pages : list page
}.

(** The calls to the collaborators outside the document: the barcode
    encoder and the image loader. *)
Inductive call : Type :=
| CallJsBarcode (data : string) (barcodeFormat : value)
| CallLoadImage (imageUrl : string).

(** What the encoder answers: the data URL of the raster, or an error. *)
Inductive encoded : Type :=
| Raster (dataURL : string)
| EncodingError (message : string).

(** A generator holds its two managers. *)
Record generator : Type := {
  templateManager : TemplateManager.state;
  settingsManager : SettingsManager.state
}.

Definition defaultSettings : obj :=
  list_to_map [("barcodeFormat", VString "CODE128");
               ("includeImage", VBool false);
               ("margin", num 2)].

(** The number of times that the body of
    [for (let i = 0; i < quantity; i++)] runs, for a quantity that is a
    number other than [NaN] and not above [2 ^ 53]: up to that bound the
    counter, a double, holds every index exactly.  Above it, and for
    [Infinity], [i++] stops changing the counter and the loop of the code
    does not end; on [NaN] it does not run. *)
Definition iterations (quantity : Q) : nat := Z.to_nat (Qceiling quantity).

(** The index [i] passes the test [i < quantity] exactly when it is below
    [iterations quantity]. *)
Lemma iterations_spec (quantity : Q) (i : nat) :
  (inject_Z (Z.of_nat i) < quantity)%Q ↔ (i < iterations quantity)%nat.
Proof.
  unfold iterations. split.
  - intros H.
    assert (Hc : (inject_Z (Z.of_nat i) < inject_Z (Qceiling quantity))%Q)
      by (eapply Qlt_le_trans; [exact H|apply Qle_ceiling]).
    rewrite <- Zlt_Qlt in Hc. lia.
  - intros H.
    assert (Hc : (Z.of_nat i <= Qceiling quantity - 1)%Z) by lia.
    rewrite Zle_Qle in Hc.
    eapply Qle_lt_trans; [exact Hc|apply Qceiling_lt].
Qed.

Lemma iterations_integer (n : positive) : iterations (inject_Z (Z.pos n)) = Pos.to_nat n.
Proof. unfold iterations. rewrite Qceiling_Z. lia. Qed.

Lemma iterations_nonpositive (quantity : Q) : (quantity <= 0)%Q → iterations quantity = 0%nat.
Proof.
  intros H. unfold iterations.
  apply Qceiling_resp_le in H. change (Qceiling 0) with 0%Z in H. lia.
Qed.

Section Generator.
Variable StringToNumber : string -> option Q.
Variable NumberToString : Q -> string.
(** [doc.getTextWidth(text)] under the font style and size that are set;
    [None] is [NaN]. *)
Variable getTextWidth : string -> value -> value -> option Q.
(** [JsBarcode] and the canvas. *)
Variable JsBarcode : string -> value -> encoded.
(** [loadImage(imageUrl)] while the page of the given index is rendered;
    [None] is a rejection. *)
Variable loadImage : nat -> string -> option string.

(** [truncateText(text, maxLength)] on a text of ASCII characters, of
    which each is one code unit of the string of the code, so that
    [length] and [substring] count here as they do there: [substring] takes
    its end index rounded towards zero and not below zero, [NaN] being
    zero. *)
Definition truncateText (text : string) (maxLength : value) : string :=
  if String.eqb text EmptyString
     || number_le StringToNumber (inject_Z (Z.of_nat (String.length text))) maxLength
  then text
  else
    let last :=
      match minus StringToNumber maxLength 3 with
      | VNumber q => Z.to_nat (Qfloor q)
      | _ => 0%nat
      end in
    String.substring 0 last text +:+ "...".

(** [renderText(doc, text, element)] *)
Definition renderText (content : value) (element : obj) : list drawing :=
  let fontStyle := if truthy (prop element "bold") then "bold" else "normal" in
  let textWidth := getTextWidth fontStyle (prop element "fontSize") content in
  let maxWidth := prop element "maxWidth" ||| num 45 in
  [setFont "helvetica" fontStyle; setFontSize (Plain (prop element "fontSize"))]
  ++ (if number_gt StringToNumber textWidth maxWidth
      then match textWidth with
           | Some w => [setFontSize (Scaled (prop element "fontSize") maxWidth w)]
           | None => []
           end
      else [])
  ++ [text content (prop element "x") (prop element "y")
           (prop element "align" ||| VString "left")].

(** A copy of an element with the font size of the configuration, when
    there is one: [{ ...element }] followed by the assignment to
    [fontSize]. *)
Definition sized (element : value) (config : obj) (name : string) : obj :=
  let fontSize := prop config "fontSize" in
  if truthy fontSize && truthy (get_opt fontSize name)
  then <["fontSize" := get_opt fontSize name]> (own_props element)
  else own_props element.

(** [v !== false] *)
Definition not_false (v : value) : bool := negb (prim_eq v (VBool false)).

(** [renderLabel(doc, template, productData, barcodeDataURL, config)] for
    the page of index [i]: the drawings on the page and the calls to the
    image loader.  Reading [elements.barcode] throws when the template has
    no [elements]. *)
Definition renderLabel (i : nat) (template : obj) (productData : DataRecord)
    (barcodeDataURL : string) (config : obj) : outcome (page * list call) :=
  let elements := prop template "elements" in
  let contentInclusion :=
    prop config "contentInclusion" ||| prop template "contentInclusion" ||| VObject ∅ in
  let conditionSettings :=
    prop config "conditionSettings" ||| prop template "conditionSettings" ||| VObject ∅ in
  barcode ← get elements "barcode";
  let drawn :=
    if truthy barcode && negb (String.eqb barcodeDataURL EmptyString)
       && not_false (get_opt contentInclusion "barcode")
    then [addImage barcodeDataURL "PNG" (get_opt barcode "x") (get_opt barcode "y")
            (get_opt barcode "width") (get_opt barcode "height")]
    else [] in
  fnskuElement ← get elements "fnsku";
  let drawn :=
    if truthy fnskuElement && not_false (get_opt contentInclusion "fnsku")
    then drawn ++ renderText (field (fnsku productData)) (sized fnskuElement config "fnsku")
    else drawn in
  skuElement ← get elements "sku";
  let drawn :=
    if truthy skuElement && truthy (field (sku productData))
       && not_false (get_opt contentInclusion "sku")
    then drawn ++ renderText
                    (VString ("SKU: " +:+ to_string NumberToString (field (sku productData))))
                    (sized skuElement config "sku")
    else drawn in
  titleElement ← get elements "title";
  let drawn :=
    if truthy titleElement && truthy (field (title productData))
       && not_false (get_opt contentInclusion "title")
    then
      let element := sized titleElement config "title" in
      let titleText := to_string NumberToString (field (title productData)) in
      let titleText :=
        if not_false (get_opt conditionSettings "enabled")
           && prim_eq (get_opt conditionSettings "position") (VString "title-prefix")
           && not_false (get_opt contentInclusion "condition")
        then
          let conditionText :=
            field (condition productData) ||| get_opt conditionSettings "text"
            ||| VString "NEW" in
          to_string NumberToString conditionText +:+ " - " +:+ titleText
        else titleText in
      let titleText := truncateText titleText (prop element "maxLength" ||| num 50) in
      drawn ++ renderText (VString titleText) element
    else drawn in
  conditionElement ← get elements "condition";
  let drawn :=
    if truthy conditionElement && not_false (get_opt contentInclusion "condition")
       && not_false (get_opt conditionSettings "enabled")
    then
      if negb (truthy (get_opt conditionSettings "position"))
         || negb (prim_eq (get_opt conditionSettings "position") (VString "title-prefix"))
      then
        let element := sized conditionElement config "condition" in
        let conditionText :=
          field (condition productData) ||| get_opt conditionSettings "text"
          ||| VString "NEW" in
        let element :=
          if prim_eq (get_opt conditionSettings "position") (VString "bottom-right")
          then <["x" := minus StringToNumber (prop template "width") 2]>
                 (<["align" := VString "right"]> element)
          else element in
        drawn ++ renderText conditionText element
      else drawn
    else drawn in
  imageElement ← get elements "image";
  if truthy imageElement && truthy (get_opt contentInclusion "images")
     && truthy (field (image productData))
  then
    let imageUrl := to_string NumberToString (field (image productData)) in
    match loadImage i imageUrl with
    | Some imageData =>
        mret (drawn ++ [addImage imageData "JPEG" (get_opt imageElement "x")
                          (get_opt imageElement "y") (get_opt imageElement "width")
                          (get_opt imageElement "height")],
              [CallLoadImage imageUrl])
    | None => mret (drawn, [CallLoadImage imageUrl])
    end
  else mret (drawn, []).

(** The loop of [generateLabels] from the page of index [i] on, [n] pages
    being left to render: the pages and the calls, or the exception that
    ends the loop.  The page of index 0 is the page that the new document
    has; [doc.addPage()] opens each of the others. *)
Fixpoint renderPages (n i : nat) (template : obj) (productData : DataRecord)
    (barcodeDataURL : string) (config : obj) : outcome (list page * list call) :=
  match n with
  | O => mret ([], [])
  | S n =>
      '(drawn, calls) ← renderLabel i template productData barcodeDataURL config;
      '(rest, calls') ← renderPages n (S i) template productData barcodeDataURL config;
      mret (drawn :: rest, calls ++ calls')
  end.

(** The result of a call of [generateLabels]: its completion, the calls
    made to the encoder and to the image loader, and the generator. *)
Record result : Type := {
  completion : outcome document;
  calls : list call;
  after : generator
}.

(** [settings.templateId || currentSettings.selectedTemplateId || 'thermal_57x32'] *)
Definition activeTemplateId (settings : obj)
    (currentSettings : SettingsManager.Settings) : value :=
  prop settings "templateId" ||| SettingsManager.selectedTemplateId currentSettings
  ||| VString "thermal_57x32".

(** The object [mergedConditionSettings]. *)
Definition mergeConditionSettings (globalSettings template : obj) : value :=
  let globalConditionSettings := prop globalSettings "conditionSettings" ||| VObject ∅ in
  let templateConditionSettings := prop template "conditionSettings" ||| VObject ∅ in
  object [
    ("enabled",
     if negb (prim_eq (get_opt globalConditionSettings "enabled") VUndefined)
     then get_opt globalConditionSettings "enabled"
     else VBool (not_false (get_opt templateConditionSettings "enabled")));
    ("text",
     get_opt globalConditionSettings "text" ||| get_opt templateConditionSettings "text"
     ||| VString "NEW");
    ("position",
     get_opt globalConditionSettings "position"
     ||| get_opt templateConditionSettings "position" ||| VString "bottom-left")].

(** The object [config]: the defaults, then what the global settings and
    the template give, then the settings of the call. *)
Definition buildConfig (globalSettings template settings : obj) : obj :=
  let override (name : string) (fallback : Z) : value :=
    get_opt (prop globalSettings "fontSizeOverrides") name
    ||| get_opt (get_opt (prop template "elements") name) "fontSize"
    ||| num fallback in
  spread
    (<["conditionSettings" := mergeConditionSettings globalSettings template]>
       (<["fontSize" := object [("fnsku", override "fnsku" 8%Z);
                                ("sku", override "sku" 11%Z);
                                ("title", override "title" 6%Z);
                                ("condition", override "condition" 5%Z)]]>
          (<["contentInclusion" :=
               prop template "contentInclusion"
               ||| object [("barcode", VBool true); ("fnsku", VBool true);
                           ("sku", VBool true); ("title", VBool true);
                           ("images", VBool false); ("condition", VBool true)]]>
             (<["barcodeFormat" := prop globalSettings "barcodeFormat"
                                   ||| VString "CODE128"]>
                defaultSettings))))
    settings.

(** The format that [generateBarcode] encodes with: its parameter has the
    default ['CODE128']. *)
Definition encodingFormat (config : obj) : value :=
  match prop config "barcodeFormat" with
  | VUndefined => VString "CODE128"
  | chosen => chosen
  end.

(** [generateLabels(productData, quantity, settings)] on a generator that
    has its two managers; [te] and [se] are what the managers read from
    outside if this call initialises them. *)
Definition generateLabels (te : TemplateManager.env) (se : SettingsManager.env)
    (productData : DataRecord) (quantity : Q) (settings : obj) (g : generator)
    : result :=
  let '(currentSettings, sm) := SettingsManager.getSettings se (settingsManager g) in
  let globalSettings : obj :=
    SettingsManager.content <$> SettingsManager.globalSettings currentSettings in
  let templateId := activeTemplateId settings currentSettings in
  let '(found, tm) :=
    TemplateManager.getTemplate te (to_string NumberToString templateId)
      (templateManager g) in
  let g := {| templateManager := tm; settingsManager := sm |} in
  match found with
  | None =>
      {| completion :=
           Throw (Error ("Template not found: " +:+ to_string NumberToString templateId));
         calls := []; after := g |}
  | Some template =>
      if negb (truthy (field (fnsku productData))) then
        {| completion := Throw (Error "FNSKU is required for label generation");
           calls := []; after := g |}
      else
        let config := buildConfig globalSettings template settings in
        let data := to_string NumberToString (field (fnsku productData)) in
        let barcodeFormat := encodingFormat config in
        match JsBarcode data barcodeFormat with
        | EncodingError message =>
            {| completion := Throw (Error ("Failed to generate barcode: " +:+ message));
               calls := [CallJsBarcode data barcodeFormat]; after := g |}
        | Raster barcodeDataURL =>
            match renderPages (iterations quantity) 0 template productData
                    barcodeDataURL config with
            | Throw ex =>
                {| completion := Throw ex;
                   calls := [CallJsBarcode data barcodeFormat]; after := g |}
            | Return (rendered, loads) =>
                {| completion :=
                     Return {| orientation := prop template "orientation";
                               format := (prop template "width", prop template "height");
                               doc_title :=
                                 "FNSKU Label - "
                                 +:+ to_string NumberToString
                                       (field (sku productData) ||| field (fnsku productData));
                               pages := match rendered with [] => [[]] | _ => rendered end |};
                   calls := CallJsBarcode data barcodeFormat :: loads;
                   after := g |}
            end
        end
  end.

(** [generateLabel(productData, templateId, quantity)], up to the
    conversion of the document to a blob. *)
Definition generateLabel (te : TemplateManager.env) (se : SettingsManager.env)
    (productData : DataRecord) (templateId : value) (quantity : Q) (g : generator)
    : result :=
  generateLabels te se productData quantity {[ "templateId" := templateId ]} g.

(** *** The loop *)

Lemma renderLabel_returns i template productData barcodeDataURL config :
  is_nullish (prop template "elements") = false →
  ∃ drawn loads,
    renderLabel i template productData barcodeDataURL config = Return (drawn, loads).
Proof.
  intros Hn. unfold renderLabel. rewrite !(get_Return _ _ Hn). run_goal.
  match goal with |- context [if ?c then _ else mret (_, [])] => destruct c end;
    [destruct (loadImage _ _)|]; by eexists _, _.
Qed.

Lemma renderPages_returns n template productData barcodeDataURL config :
  is_nullish (prop template "elements") = false →
  ∀ i, ∃ rendered loads,
    renderPages n i template productData barcodeDataURL config = Return (rendered, loads)
    ∧ length rendered = n.
Proof.
  intros Hn. induction n as [|n IH]; intros i; simpl.
  - by eexists _, _.
  - destruct (renderLabel_returns i template productData barcodeDataURL config Hn)
      as (drawn & loads & ->).
    destruct (IH (S i)) as (rest & loads' & -> & Hlen). run_goal.
    eexists _, _. split; [reflexivity|]. simpl. by rewrite Hlen.
Qed.

(** Only the image loader is called while the pages are rendered. *)
Definition is_encode (c : call) : bool :=
  match c with CallJsBarcode _ _ => true | CallLoadImage _ => false end.

Definition encoder_calls (l : list call) : list call :=
  filter (fun c => is_encode c = true) l.

Lemma renderLabel_loads i template productData barcodeDataURL config drawn loads :
  renderLabel i template productData barcodeDataURL config = Return (drawn, loads) →
  encoder_calls loads = [].
Proof.
  unfold renderLabel. intros H.
  destruct (get (prop template "elements") "barcode"); run H; [|discriminate].
  destruct (get (prop template "elements") "fnsku"); run H; [|discriminate].
  destruct (get (prop template "elements") "sku"); run H; [|discriminate].
  destruct (get (prop template "elements") "title"); run H; [|discriminate].
  destruct (get (prop template "elements") "condition"); run H; [|discriminate].
  destruct (get (prop template "elements") "image"); run H; [|discriminate].
  match type of H with (if ?c then _ else _) = _ => destruct c end;
    [destruct (loadImage _ _)|]; run H; by injection H as <- <-.
Qed.

Lemma encoder_calls_app l l' :
  encoder_calls (l ++ l') = encoder_calls l ++ encoder_calls l'.
Proof. unfold encoder_calls. by rewrite filter_app. Qed.

Lemma renderPages_loads n template productData barcodeDataURL config :
  ∀ i rendered loads,
    renderPages n i template productData barcodeDataURL config = Return (rendered, loads) →
    encoder_calls loads = [].
Proof.
  induction n as [|n IH]; simpl; intros i rendered loads H.
  - run H. by injection H as <- <-.
  - destruct (renderLabel i template productData barcodeDataURL config)
      as [[drawn l]|] eqn:E; run H; [|discriminate].
    destruct (renderPages n (S i) template productData barcodeDataURL config)
      as [[rest l']|] eqn:E'; run H; [|discriminate].
    injection H as <- <-. rewrite encoder_calls_app.
    by rewrite (renderLabel_loads _ _ _ _ _ _ _ E), (IH _ _ _ E').
Qed.

(** Every PNG image drawn on the page is [raster]. *)
Definition from_raster (raster : string) (p : page) : Prop :=
  ∀ imageData x y w h, addImage imageData "PNG" x y w h ∈ p → imageData = raster.

Lemma renderText_no_image content element imageData imageFormat x y w h :
  addImage imageData imageFormat x y w h ∈ renderText content element → False.
Proof.
  unfold renderText. intros H.
  repeat (apply elem_of_app in H as [H|H]).
  - apply elem_of_cons in H as [H|H]; [discriminate|].
    apply list_elem_of_singleton in H. discriminate.
  - destruct (number_gt _ _ _); [|by apply elem_of_nil in H].
    destruct (getTextWidth _ _ _); [|by apply elem_of_nil in H].
    apply list_elem_of_singleton in H. discriminate.
  - apply list_elem_of_singleton in H. discriminate.
Qed.

Lemma renderLabel_from_raster i template productData barcodeDataURL config drawn loads :
  renderLabel i template productData barcodeDataURL config = Return (drawn, loads) →
  from_raster barcodeDataURL drawn.
Proof.
  unfold renderLabel. intros H.
  destruct (get (prop template "elements") "barcode"); run H; [|discriminate].
  destruct (get (prop template "elements") "fnsku"); run H; [|discriminate].
  destruct (get (prop template "elements") "sku"); run H; [|discriminate].
  destruct (get (prop template "elements") "title"); run H; [|discriminate].
  destruct (get (prop template "elements") "condition"); run H; [|discriminate].
  destruct (get (prop template "elements") "image"); run H; [|discriminate].
  intros imageData x y w h Hin.
  match type of H with (if ?c then _ else _) = _ => destruct c end;
    [destruct (loadImage _ _)|]; run H; injection H as <- <-;
    repeat match goal with
      | H : _ ∈ (if ?c then _ else _) |- _ => destruct c
      | H : _ ∈ _ ++ _ |- _ => apply elem_of_app in H as [H|H]
      | H : _ ∈ renderText _ _ |- _ => by destruct (renderText_no_image _ _ _ _ _ _ _ _ H)
      | H : _ ∈ [] |- _ => by apply elem_of_nil in H
      | H : _ ∈ [_] |- _ => apply list_elem_of_singleton in H; by injection H
      end.
Qed.

Lemma renderPages_from_raster n template productData barcodeDataURL config :
  ∀ i rendered loads,
    renderPages n i template productData barcodeDataURL config = Return (rendered, loads) →
    Forall (from_raster barcodeDataURL) rendered.
Proof.
  induction n as [|n IH]; simpl; intros i rendered loads H.
  - run H. injection H as <- <-. constructor.
  - destruct (renderLabel i template productData barcodeDataURL config)
      as [[drawn l]|] eqn:E; run H; [|discriminate].
    destruct (renderPages n (S i) template productData barcodeDataURL config)
      as [[rest l']|] eqn:E'; run H; [|discriminate].
    injection H as <- <-. constructor; eauto using renderLabel_from_raster.
Qed.

(** *** The contract of [generateLabels] *)

(** The format that the call of the encoder receives: the one of the
    settings of the call when they have one, the one of the global settings
    otherwise, and [CODE128] when that is falsy or the settings of the call
    hold [undefined]. *)
Definition chosenFormat (globalSettings settings : obj) : value :=
  match settings !! "barcodeFormat" with
  | Some VUndefined => VString "CODE128"
  | Some chosen => chosen
  | None => prop globalSettings "barcodeFormat" ||| VString "CODE128"
  end.

Lemma encodingFormat_buildConfig globalSettings template settings :
  encodingFormat (buildConfig globalSettings template settings)
  = chosenFormat globalSettings settings.
Proof.
  unfold encodingFormat, buildConfig, chosenFormat, spread, prop.
  rewrite lookup_union.
  destruct (settings !! "barcodeFormat") as [chosen|] eqn:E; simpl.
  - rewrite !lookup_insert_ne by done. rewrite lookup_insert_eq. simpl.
    by destruct chosen.
  - rewrite !lookup_insert_ne by done. rewrite lookup_insert_eq. simpl.
    unfold or_else.
    destruct (default VUndefined (globalSettings !! "barcodeFormat"))
      as [| |b|q| |str|fields]; simpl; try done.
    + by destruct b.
    + by destruct (Qeq_bool q 0).
    + by destruct (String.eqb str EmptyString).
Qed.

(** When the template has a barcode element, the raster is not empty and
    the content inclusion in force does not leave the barcode out, the first
    drawing on the page is the raster, as a PNG image in the place of the
    barcode element. *)
Lemma renderLabel_barcode_first i template productData barcodeDataURL config drawn loads :
  renderLabel i template productData barcodeDataURL config = Return (drawn, loads) →
  truthy (get_opt (prop template "elements") "barcode") = true →
  barcodeDataURL ≠ EmptyString →
  not_false (get_opt (prop config "contentInclusion" ||| prop template "contentInclusion"
                      ||| VObject ∅) "barcode") = true →
  head drawn
  = Some (addImage barcodeDataURL "PNG"
            (get_opt (get_opt (prop template "elements") "barcode") "x")
            (get_opt (get_opt (prop template "elements") "barcode") "y")
            (get_opt (get_opt (prop template "elements") "barcode") "width")
            (get_opt (get_opt (prop template "elements") "barcode") "height")).
Proof.
  unfold renderLabel. intros H Hb Hne Hinc. cbv zeta in H. rewrite Hinc in H.
  unfold get_opt at 1 in Hb. unfold get_opt at 2 4 6 8.
  destruct (get (prop template "elements") "barcode") as [barcode|];
    run H; [|discriminate].
  rewrite Hb in H.
  destruct (String.eqb_spec barcodeDataURL EmptyString) as [->|_]; [done|].
  cbn [andb negb] in H.
  destruct (get (prop template "elements") "fnsku"); run H; [|discriminate].
  destruct (get (prop template "elements") "sku"); run H; [|discriminate].
  destruct (get (prop template "elements") "title"); run H; [|discriminate].
  destruct (get (prop template "elements") "condition"); run H; [|discriminate].
  destruct (get (prop template "elements") "image"); run H; [|discriminate].
  match type of H with (if ?c then _ else _) = _ => destruct c end;
    [destruct (loadImage _ _)|]; run H; injection H as <- <-;
    repeat match goal with
      | |- context [if ?c then _ else _] => destruct c
      end; reflexivity.
Qed.

Lemma renderPages_barcode_first n template productData barcodeDataURL config :
  truthy (get_opt (prop template "elements") "barcode") = true →
  barcodeDataURL ≠ EmptyString →
  not_false (get_opt (prop config "contentInclusion" ||| prop template "contentInclusion"
                      ||| VObject ∅) "barcode") = true →
  ∀ i rendered loads,
    renderPages n i template productData barcodeDataURL config = Return (rendered, loads) →
    Forall (fun drawn =>
              head drawn
              = Some (addImage barcodeDataURL "PNG"
                        (get_opt (get_opt (prop template "elements") "barcode") "x")
                        (get_opt (get_opt (prop template "elements") "barcode") "y")
                        (get_opt (get_opt (prop template "elements") "barcode") "width")
                        (get_opt (get_opt (prop template "elements") "barcode") "height")))
           rendered.
Proof.
  intros Hb Hne Hinc. induction n as [|n IH]; simpl; intros i rendered loads H.
  - run H. injection H as <- <-. constructor.
  - destruct (renderLabel i template productData barcodeDataURL config)
      as [[drawn l]|] eqn:E; run H; [|discriminate].
    destruct (renderPages n (S i) template productData barcodeDataURL config)
      as [[rest l']|] eqn:E'; run H; [|discriminate].
    injection H as <- <-. constructor; eauto using renderLabel_barcode_first.
Qed.

(** What [generateLabels] returns, whatever the quantity, when the record
    has the fnsku [code], the id in force names no member of
    [Object.prototype] and is the id of the template [template] stored in a
    reachable template store, and the encoder answers [raster] to the fnsku
    under the chosen format: a document whose number of pages is the number
    of iterations of the loop, and one when the loop does not run; the
    encoder is called once, every PNG image of the document is the raster,
    and a page that the loop rendered begins with it when the template and
    the content inclusion in force have a barcode. *)
Lemma generateLabels_returns te se productData quantity settings g code template raster :
  fnsku productData = Some code →
  code ≠ EmptyString →
  TemplateManager.reachable StringToNumber (templateManager g) →
  inherited_name
    (to_string NumberToString
       (activeTemplateId settings
          (SettingsManager.getSettings se (settingsManager g)).1)) = false →
  TemplateManager.stored_template
    (TemplateManager.ensureInitialized te (templateManager g))
    (to_string NumberToString
       (activeTemplateId settings
          (SettingsManager.getSettings se (settingsManager g)).1)) = Some template →
  JsBarcode code
    (chosenFormat
       (SettingsManager.content
          <$> SettingsManager.globalSettings
                (SettingsManager.getSettings se (settingsManager g)).1)
       settings) = Raster raster →
  ∃ doc,
    completion (generateLabels te se productData quantity settings g) = Return doc
    ∧ length (pages doc) = Nat.max 1 (iterations quantity)
    ∧ (iterations quantity = 0%nat → pages doc = [[]])
    ∧ encoder_calls (calls (generateLabels te se productData quantity settings g))
      = [CallJsBarcode code
           (chosenFormat
              (SettingsManager.content
                 <$> SettingsManager.globalSettings
                       (SettingsManager.getSettings se (settingsManager g)).1)
              settings)]
    ∧ Forall (from_raster raster) (pages doc)
    ∧ (iterations quantity ≠ 0%nat →
       truthy (get_opt (prop template "elements") "barcode") = true →
       raster ≠ EmptyString →
       not_false
         (get_opt (prop (buildConfig
                           (SettingsManager.content
                              <$> SettingsManager.globalSettings
                                    (SettingsManager.getSettings se (settingsManager g)).1)
                           template settings) "contentInclusion"
                   ||| prop template "contentInclusion" ||| VObject ∅) "barcode") = true →
       Forall (fun drawn =>
                 head drawn
                 = Some (addImage raster "PNG"
                           (get_opt (get_opt (prop template "elements") "barcode") "x")
                           (get_opt (get_opt (prop template "elements") "barcode") "y")
                           (get_opt (get_opt (prop template "elements") "barcode") "width")
                           (get_opt (get_opt (prop template "elements") "barcode")
                              "height")))
              (pages doc)).
Proof.
  intros Hf Hne Hr Hn Hs. unfold generateLabels.
  destruct (SettingsManager.getSettings se (settingsManager g)) as [currentSettings sm].
  cbn [fst] in Hn, Hs |- *.
  pose proof (TemplateManager.template_shape_elements _
                (TemplateManager.stored_template_shape StringToNumber te _ _ _ Hr Hs))
    as Hels.
  rewrite (TemplateManager.getTemplate_stored te _ _ _ Hn Hs).
  rewrite Hf. simpl.
  destruct (String.eqb_spec code EmptyString) as [->|_]; [done|]. simpl.
  rewrite encodingFormat_buildConfig.
  set (config := buildConfig _ template settings).
  intros E. rewrite E.
  destruct (renderPages_returns (iterations quantity) template productData raster
              config Hels 0%nat) as (rendered & loads & Hpages & Hlen).
  rewrite Hpages. simpl.
  eexists. split; [reflexivity|]. simpl.
  split; [destruct rendered; simpl in *; lia|].
  split; [intros H0; rewrite H0 in Hlen; by destruct rendered|].
  split; [|split].
  - unfold encoder_calls. rewrite filter_cons. simpl.
    destruct (decide (true = true)); [|done].
    f_equal. exact (renderPages_loads _ _ _ _ _ _ _ _ Hpages).
  - destruct rendered as [|p rest].
    + constructor; [|constructor]. intros ? ? ? ? ? H. by apply elem_of_nil in H.
    + exact (renderPages_from_raster _ _ _ _ _ _ _ _ Hpages).
  - intros H0 Hb Hraster Hinc. destruct rendered as [|p rest]; [simpl in Hlen; lia|].
    exact (renderPages_barcode_first _ _ _ _ _ Hb Hraster Hinc _ _ _ Hpages).
Qed.

(** C6.  For a record with a non-empty fnsku, a template id that names no
    member of [Object.prototype] and is the id of a template stored in a
    reachable template store, an encoder that answers a raster to the fnsku
    under the chosen format, and a quantity that is a positive integer [n]
    not above [2 ^ 53], [generateLabels] returns a document of [n] pages;
    the encoder is called once in the call, with the fnsku and the chosen
    format; every PNG image on every page is the raster that this call of
    the encoder returned; and when the template has a barcode element that
    the content inclusion in force does not leave out, and the raster is not
    empty, every page begins with the raster as a PNG image in the place of
    the barcode element. *)
Theorem quantity_pages_single_encode te se productData (n : positive) settings g code
    template raster :
  (Z.pos n <= 2 ^ 53)%Z →
  fnsku productData = Some code →
  code ≠ EmptyString →
  TemplateManager.reachable StringToNumber (templateManager g) →
  inherited_name
    (to_string NumberToString
       (activeTemplateId settings
          (SettingsManager.getSettings se (settingsManager g)).1)) = false →
  TemplateManager.stored_template
    (TemplateManager.ensureInitialized te (templateManager g))
    (to_string NumberToString
       (activeTemplateId settings
          (SettingsManager.getSettings se (settingsManager g)).1)) = Some template →
  JsBarcode code
    (chosenFormat
       (SettingsManager.content
          <$> SettingsManager.globalSettings
                (SettingsManager.getSettings se (settingsManager g)).1)
       settings) = Raster raster →
  ∃ doc,
    completion (generateLabels te se productData (inject_Z (Z.pos n)) settings g)
      = Return doc
    ∧ length (pages doc) = Pos.to_nat n
    ∧ encoder_calls
        (calls (generateLabels te se productData (inject_Z (Z.pos n)) settings g))
      = [CallJsBarcode code
           (chosenFormat
              (SettingsManager.content
                 <$> SettingsManager.globalSettings
                       (SettingsManager.getSettings se (settingsManager g)).1)
              settings)]
    ∧ Forall (from_raster raster) (pages doc)
    ∧ (truthy (get_opt (prop template "elements") "barcode") = true →
       raster ≠ EmptyString →
       not_false
         (get_opt (prop (buildConfig
                           (SettingsManager.content
                              <$> SettingsManager.globalSettings
                                    (SettingsManager.getSettings se (settingsManager g)).1)
                           template settings) "contentInclusion"
                   ||| prop template "contentInclusion" ||| VObject ∅) "barcode") = true →
       Forall (fun drawn =>
                 head drawn
                 = Some (addImage raster "PNG"
                           (get_opt (get_opt (prop template "elements") "barcode") "x")
                           (get_opt (get_opt (prop template "elements") "barcode") "y")
                           (get_opt (get_opt (prop template "elements") "barcode") "width")
                           (get_opt (get_opt (prop template "elements") "barcode")
                              "height")))
              (pages doc)).
Proof.
  intros _ Hf Hne Hr Hn Hs E.
  destruct (generateLabels_returns te se productData (inject_Z (Z.pos n))
              settings g code template raster Hf Hne Hr Hn Hs E)
    as (doc & Hc & Hlen & _ & Hcalls & Hall & Hfirst).
  exists doc. rewrite iterations_integer in Hlen, Hfirst.
  split; [exact Hc|]. split; [lia|]. split; [exact Hcalls|]. split; [exact Hall|].
  apply Hfirst. lia.
Qed.

(** C7, as the code has it.  [generateLabels] does not look at the
    quantity before the loop: for a record with a non-empty fnsku, the id
    of a stored template, an encoder that answers a raster under the chosen
    format and any quantity that is a number not above [2 ^ 53], it returns
    a document, the encoder having been called once.  The document has as
    many pages as there are indices [0, 1, ...] below the quantity, and a
    single blank page when the quantity is zero or negative. *)
Theorem quantity_is_not_validated te se productData quantity settings g code
    template raster :
  (quantity <= inject_Z (2 ^ 53))%Q →
  fnsku productData = Some code →
  code ≠ EmptyString →
  TemplateManager.reachable StringToNumber (templateManager g) →
  inherited_name
    (to_string NumberToString
       (activeTemplateId settings
          (SettingsManager.getSettings se (settingsManager g)).1)) = false →
  TemplateManager.stored_template
    (TemplateManager.ensureInitialized te (templateManager g))
    (to_string NumberToString
       (activeTemplateId settings
          (SettingsManager.getSettings se (settingsManager g)).1)) = Some template →
  JsBarcode code
    (chosenFormat
       (SettingsManager.content
          <$> SettingsManager.globalSettings
                (SettingsManager.getSettings se (settingsManager g)).1)
       settings) = Raster raster →
  ∃ doc,
    completion (generateLabels te se productData quantity settings g) = Return doc
    ∧ length (pages doc) = Nat.max 1 (iterations quantity)
    ∧ ((quantity <= 0)%Q → pages doc = [[]])
    ∧ encoder_calls (calls (generateLabels te se productData quantity settings g))
      = [CallJsBarcode code
           (chosenFormat
              (SettingsManager.content
                 <$> SettingsManager.globalSettings
                       (SettingsManager.getSettings se (settingsManager g)).1)
              settings)].
Proof.
  intros _ Hf Hne Hr Hn Hs E.
  destruct (generateLabels_returns te se productData quantity settings g code
              template raster Hf Hne Hr Hn Hs E)
    as (doc & Hc & Hlen & Hblank & Hcalls & _).
  exists doc. split; [exact Hc|]. split; [exact Hlen|]. split; [|exact Hcalls].
  intros Hq. by apply Hblank, iterations_nonpositive.
Qed.

(** C9.  When the fnsku of the record is absent or empty and the template
    is found, [generateLabels] throws "FNSKU is required for label
    generation", whatever the quantity and the settings; the encoder and
    the image loader are not called, and no document is made. *)
Theorem missing_fnsku_is_rejected te se productData quantity settings g :
  fnsku productData = None ∨ fnsku productData = Some EmptyString →
  is_Some (TemplateManager.getTemplate te
             (to_string NumberToString
                (activeTemplateId settings
                   (SettingsManager.getSettings se (settingsManager g)).1))
             (templateManager g)).1 →
  completion (generateLabels te se productData quantity settings g)
    = Throw (Error "FNSKU is required for label generation")
  ∧ calls (generateLabels te se productData quantity settings g) = [].
Proof.
  intros Hf [template Ht]. unfold generateLabels.
  destruct (SettingsManager.getSettings se (settingsManager g)) as [currentSettings sm].
  simpl in Ht.
  destruct (TemplateManager.getTemplate te _ (templateManager g)) as [found tm].
  simpl in Ht. subst found.
  by destruct Hf as [-> | ->].
Qed.

(** Without a template the call fails earlier, with "Template not
    found". *)
Lemma unknown_template_is_rejected te se productData quantity settings g :
  (TemplateManager.getTemplate te
     (to_string NumberToString
        (activeTemplateId settings
           (SettingsManager.getSettings se (settingsManager g)).1))
     (templateManager g)).1 = None →
  ∃ message,
    completion (generateLabels te se productData quantity settings g)
      = Throw (Error ("Template not found: " +:+ message))
    ∧ calls (generateLabels te se productData quantity settings g) = [].
Proof.
  intros Ht. unfold generateLabels.
  destruct (SettingsManager.getSettings se (settingsManager g)) as [currentSettings sm].
  simpl in Ht.
  destruct (TemplateManager.getTemplate te _ (templateManager g)) as [found tm].
  simpl in Ht. subst found. by eexists.
Qed.
End Generator.

(** *** Examples *)

(** Collaborators for the examples: a text is as wide as it has
    characters, the encoder accepts every string, no image can be loaded. *)
Definition exampleTextWidth (fontStyle : string) (fontSize content : value) : option Q :=
  Some (inject_Z (Z.of_nat (String.length (to_string printInteger content)))).

Definition exampleBarcode (data : string) (barcodeFormat : value) : encoded :=
  Raster ("data:image/png;base64," +:+ data).

Definition exampleLoadImage (i : nat) (imageUrl : string) : option string := None.

Definition example_generator : generator :=
  {| templateManager :=
       TemplateManager.init TemplateManager.example_env (TemplateManager.new None);
     settingsManager := SettingsManager.ready |}.

Definition example_record : DataRecord :=
  {| sku := Some "WIDGET-1"; fnsku := Some "X001ABCDEF"; asin := Some "B000000001";
     title := Some "Widget"; image := None; condition := None |}.

(** The record of the spec's example, without an fnsku. *)
Definition record_without_fnsku : DataRecord :=
  {| sku := Some "X"; fnsku := None; asin := None; title := None; image := None;
     condition := None |}.

Definition example_generateLabels (productData : DataRecord) (quantity : Q) : result :=
  generateLabels decimalToNumber printInteger exampleTextWidth exampleBarcode
    exampleLoadImage TemplateManager.example_env SettingsManager.example_env
    productData quantity {[ "templateId" := VString "thermal_57x32" ]} example_generator.

Lemma example_reachable :
  TemplateManager.reachable decimalToNumber (templateManager example_generator).
Proof. apply TemplateManager.reachable_init, TemplateManager.reachable_first. Qed.

Lemma quantity_pages_single_encode_witness :
  (Z.pos 3 <= 2 ^ 53)%Z
  ∧ ∃ doc,
      completion (example_generateLabels example_record (inject_Z (Z.pos 3))) = Return doc
      ∧ length (pages doc) = Pos.to_nat 3
      ∧ Forall (fun drawn =>
                  head drawn
                  = Some (addImage "data:image/png;base64,X001ABCDEF" "PNG"
                            (num 4) (num 2) (num 49) (num 12)))
               (pages doc).
Proof.
  assert (Hq : (Z.pos 3 <= 2 ^ 53)%Z) by (vm_compute; discriminate).
  split; [exact Hq|].
  destruct (quantity_pages_single_encode decimalToNumber printInteger exampleTextWidth
              exampleBarcode exampleLoadImage TemplateManager.example_env
              SettingsManager.example_env example_record 3
              {[ "templateId" := VString "thermal_57x32" ]} example_generator
              "X001ABCDEF" TemplateManager.thermal_57x32
              "data:image/png;base64,X001ABCDEF" Hq eq_refl ltac:(discriminate)
              example_reachable eq_refl eq_refl eq_refl)
    as (doc & Hc & Hlen & _ & _ & Hfirst).
  exists doc. split; [exact Hc|]. split; [exact Hlen|].
  exact (Hfirst eq_refl ltac:(discriminate) eq_refl).
Defined.

(** C7 as stated fails: with the quantity zero, [generateLabels] returns a
    document, with one blank page; the encoder has been called. *)
Lemma quantity_zero_returns_a_document :
  completion (example_generateLabels example_record 0)
    = Return {| orientation := VString "landscape";
                format := (num 57, num 32);
                doc_title := "FNSKU Label - WIDGET-1";
                pages := [[]] |}
  ∧ calls (example_generateLabels example_record 0)
    = [CallJsBarcode "X001ABCDEF" (VString "CODE128")].
Proof. split; vm_compute; reflexivity. Qed.

Lemma quantity_is_not_validated_witness :
  (5 # 2 <= inject_Z (2 ^ 53))%Q
  ∧ ∃ doc,
      completion (example_generateLabels example_record (5 # 2)) = Return doc
      ∧ length (pages doc) = Nat.max 1 (iterations (5 # 2)).
Proof.
  assert (Hq : (5 # 2 <= inject_Z (2 ^ 53))%Q) by (vm_compute; discriminate).
  split; [exact Hq|].
  destruct (quantity_is_not_validated decimalToNumber printInteger exampleTextWidth
              exampleBarcode exampleLoadImage TemplateManager.example_env
              SettingsManager.example_env example_record (5 # 2)
              {[ "templateId" := VString "thermal_57x32" ]} example_generator
              "X001ABCDEF" TemplateManager.thermal_57x32
              "data:image/png;base64,X001ABCDEF" Hq eq_refl ltac:(discriminate)
              example_reachable eq_refl eq_refl eq_refl)
    as (doc & Hc & Hlen & _).
  exists doc. split; [exact Hc|exact Hlen].
Defined.

Lemma missing_fnsku_is_rejected_witness :
  completion (example_generateLabels record_without_fnsku 1)
    = Throw (Error "FNSKU is required for label generation")
  ∧ calls (example_generateLabels record_without_fnsku 1) = [].
Proof.
  apply (missing_fnsku_is_rejected decimalToNumber printInteger exampleTextWidth
           exampleBarcode exampleLoadImage).
  - by left.
  - exists TemplateManager.thermal_57x32. vm_compute. reflexivity.
Defined.

(** *** More of the generator *)

Lemma length_append (a b : string) :
  String.length (a +:+ b) = (String.length a + String.length b)%nat.
Proof. induction a as [|c a IH]; simpl; [done|]. by rewrite IH. Qed.

Lemma length_substring_0 (m : nat) : ∀ s : string,
  (m <= String.length s)%nat → String.length (String.substring 0 m s) = m.
Proof.
  induction m as [|m IH]; intros [|c s]; simpl; intros H; try done; try lia.
  rewrite IH by lia. done.
Qed.

Lemma substring_0_0 (s : string) : String.substring 0 0 s = EmptyString.
Proof. by destruct s. Qed.

Section GeneratorFacts.
Variable StringToNumber : string -> option Q.
Variable NumberToString : Q -> string.
Variable getTextWidth : string -> value -> value -> option Q.
Variable JsBarcode : string -> value -> encoded.
Variable loadImage : nat -> string -> option string.

(** X26.  On a text of ASCII characters, [truncateText] with an integer
    limit between [- 2 ^ 53] and [2 ^ 53] returns a text that fits as it is;
    it cuts a longer text to the limit, the last three characters being
    dots, when the limit is at least three; and with a smaller limit it
    returns the three dots alone, which are longer than the limit. *)
Theorem truncateText_limit (content : string) (limit : Z) :
  is_ascii content = true →
  (Z.abs limit <= 2 ^ 53)%Z →
  ((Z.of_nat (String.length content) <= limit)%Z →
   truncateText StringToNumber content (num limit) = content)
  ∧ ((limit < Z.of_nat (String.length content))%Z → (3 <= limit)%Z →
     truncateText StringToNumber content (num limit)
     = String.substring 0 (Z.to_nat (limit - 3)) content +:+ "..."
     ∧ Z.of_nat (String.length (truncateText StringToNumber content (num limit)))
       = limit)
  ∧ ((limit < Z.of_nat (String.length content))%Z → (limit < 3)%Z →
     content ≠ EmptyString →
     truncateText StringToNumber content (num limit) = "...").
Proof.
  intros _ _.
  assert (Hle : ∀ n : nat,
            number_le StringToNumber (inject_Z (Z.of_nat n)) (num limit)
            = Z.leb (Z.of_nat n) limit).
  { intros n. unfold number_le, num. simpl.
    destruct (Z.leb_spec (Z.of_nat n) limit) as [H|H].
    - apply Qle_bool_iff. by rewrite <- Zle_Qle.
    - apply not_true_iff_false. intros E. apply Qle_bool_iff in E.
      rewrite <- Zle_Qle in E. lia. }
  assert (Hlast : match minus StringToNumber (num limit) 3 with
                  | VNumber q => Z.to_nat (Qfloor q)
                  | _ => 0%nat
                  end = Z.to_nat (limit - 3)).
  { unfold minus, num. simpl. f_equal.
    rewrite Z.mul_1_r, Z.div_1_r. lia. }
  unfold truncateText. rewrite Hle, Hlast.
  split; [|split].
  - intros H. rewrite (proj2 (Z.leb_le _ _) H). by rewrite orb_true_r.
  - intros H H3. rewrite (proj2 (Z.leb_gt _ _) H).
    destruct (String.eqb_spec content EmptyString) as [->|_]; [simpl in H; lia|].
    simpl. split; [done|].
    rewrite length_append, length_substring_0 by lia. simpl. lia.
  - intros H H3 Hne. rewrite (proj2 (Z.leb_gt _ _) H).
    destruct (String.eqb_spec content EmptyString) as [->|_]; [done|].
    simpl. replace (Z.to_nat (limit - 3)) with 0%nat by lia.
    by rewrite substring_0_0.
Qed.

(** The page index only reaches the image loader. *)
Lemma renderLabel_index i j template productData barcodeDataURL config :
  (∀ imageUrl, loadImage i imageUrl = loadImage j imageUrl) →
  renderLabel StringToNumber NumberToString getTextWidth loadImage i template
    productData barcodeDataURL config
  = renderLabel StringToNumber NumberToString getTextWidth loadImage j template
      productData barcodeDataURL config.
Proof. intros H. unfold renderLabel. by rewrite H. Qed.

Lemma renderPages_copies template productData barcodeDataURL config :
  (∀ i j imageUrl, loadImage i imageUrl = loadImage j imageUrl) →
  ∀ n i rendered loads drawn loaded,
    renderPages StringToNumber NumberToString getTextWidth loadImage n i template
      productData barcodeDataURL config = Return (rendered, loads) →
    renderLabel StringToNumber NumberToString getTextWidth loadImage i template
      productData barcodeDataURL config = Return (drawn, loaded) →
    rendered = replicate n drawn.
Proof.
  intros Hsame. induction n as [|n IH]; simpl; intros i rendered loads drawn loaded H Hl.
  - run H. by injection H as <- <-.
  - rewrite Hl in H. run H.
    destruct (renderPages _ _ _ _ n (S i) template productData barcodeDataURL config)
      as [[rest l']|] eqn:E; run H; [|discriminate].
    injection H as <- <-. f_equal.
    eapply IH; [exact E|].
    rewrite <- Hl. apply renderLabel_index. intros imageUrl. apply Hsame.
Qed.

Lemma renderPages_first n i template productData barcodeDataURL config rendered loads :
  renderPages StringToNumber NumberToString getTextWidth loadImage (S n) i template
    productData barcodeDataURL config = Return (rendered, loads) →
  ∃ drawn loaded,
    renderLabel StringToNumber NumberToString getTextWidth loadImage i template
      productData barcodeDataURL config = Return (drawn, loaded).
Proof.
  simpl. intros H.
  destruct (renderLabel _ _ _ _ i template productData barcodeDataURL config)
    as [[drawn loaded]|]; [by eexists _, _|discriminate].
Qed.

(** X27.  When the image loader answers the same for every page, the
    pages of the document that [generateLabels] returns are copies of one
    page. *)
Theorem pages_are_copies te se productData quantity settings g doc :
  (∀ i j imageUrl, loadImage i imageUrl = loadImage j imageUrl) →
  completion (generateLabels StringToNumber NumberToString getTextWidth JsBarcode
                loadImage te se productData quantity settings g) = Return doc →
  ∃ drawn, pages doc = replicate (Nat.max 1 (iterations quantity)) drawn.
Proof.
  intros Hsame. unfold generateLabels.
  destruct (SettingsManager.getSettings se (settingsManager g)) as [currentSettings sm].
  destruct (TemplateManager.getTemplate te _ (templateManager g)) as [[template|] tm];
    [|discriminate].
  destruct (negb (truthy (field (fnsku productData)))); [discriminate|].
  set (config := buildConfig _ template settings).
  destruct (JsBarcode _ (encodingFormat config)) as [raster|message]; [|discriminate].
  destruct (iterations quantity) as [|n] eqn:En.
  - simpl. intros [= <-]. by exists [].
  - destruct (renderPages _ _ _ _ (S n) 0 template productData raster config)
      as [[rendered loads]|] eqn:E; [|discriminate].
    destruct (renderPages_first _ _ _ _ _ _ _ _ E) as (drawn & loaded & El).
    rewrite (renderPages_copies template productData raster config Hsame
               _ _ _ _ _ _ E El).
    intros [= <-]. by exists drawn.
Qed.

(** X28.  When the template is found and the record has an fnsku,
    [generateLabels] first calls the encoder, once, with the fnsku and the
    format chosen by the settings of the call, then the global settings,
    then [CODE128]; when the encoder fails, the call throws "Failed to
    generate barcode: " followed by the message of the encoder and nothing
    else has been called. *)
Theorem encoder_called_with_chosen_format te se productData quantity settings g code
    template :
  fnsku productData = Some code →
  code ≠ EmptyString →
  (TemplateManager.getTemplate te
     (to_string NumberToString
        (activeTemplateId settings
           (SettingsManager.getSettings se (settingsManager g)).1))
     (templateManager g)).1 = Some template →
  let chosen :=
    chosenFormat
      (SettingsManager.content
         <$> SettingsManager.globalSettings
               (SettingsManager.getSettings se (settingsManager g)).1)
      settings in
  let made := generateLabels StringToNumber NumberToString getTextWidth JsBarcode
                loadImage te se productData quantity settings g in
  head (calls made) = Some (CallJsBarcode code chosen)
  ∧ encoder_calls (calls made) = [CallJsBarcode code chosen]
  ∧ ∀ message,
      JsBarcode code chosen = EncodingError message →
      completion made = Throw (Error ("Failed to generate barcode: " +:+ message))
      ∧ calls made = [CallJsBarcode code chosen].
Proof.
  intros Hf Hne Ht. unfold generateLabels.
  destruct (SettingsManager.getSettings se (settingsManager g)) as [currentSettings sm].
  simpl in Ht |- *.
  destruct (TemplateManager.getTemplate te _ (templateManager g)) as [found tm].
  simpl in Ht. subst found. rewrite Hf. simpl.
  destruct (String.eqb_spec code EmptyString) as [->|_]; [done|]. simpl.
  rewrite encodingFormat_buildConfig.
  set (chosen := chosenFormat _ settings).
  set (config := buildConfig _ template settings).
  destruct (JsBarcode code chosen) as [raster|message] eqn:E.
  - destruct (renderPages _ _ _ _ (iterations quantity) 0 template productData raster
                config) as [[rendered loads]|] eqn:Ep; simpl.
    + split; [done|]. split; [|intros ? [=]].
      unfold encoder_calls. rewrite filter_cons. simpl.
      destruct (decide (true = true)); [|done].
      f_equal. exact (renderPages_loads _ _ _ _ _ _ _ _ _ _ _ _ Ep).
    + split; [done|]. split; [done|intros ? [=]].
  - simpl. split; [done|]. split; [done|]. by intros ? [= <-].
Qed.

(** X29.  When [getTemplate] returns [null] for the id of the call, of the
    settings or the default one, which it does when neither collection
    holds or inherits a truthy member under the id, [generateLabels] throws
    "Template not found: " followed by that id; the encoder and the image
    loader are not called, and the two managers are left initialised. *)
Theorem unknown_template_throws te se productData quantity settings g :
  let templateId :=
    to_string NumberToString
      (activeTemplateId settings
         (SettingsManager.getSettings se (settingsManager g)).1) in
  let made := generateLabels StringToNumber NumberToString getTextWidth JsBarcode
                loadImage te se productData quantity settings g in
  (TemplateManager.getTemplate te templateId (templateManager g)).1 = None →
  completion made = Throw (Error ("Template not found: " +:+ templateId))
  ∧ calls made = []
  ∧ templateManager (after made)
    = TemplateManager.ensureInitialized te (templateManager g)
  ∧ settingsManager (after made)
    = SettingsManager.ensureInitialized se (settingsManager g).
Proof.
  cbv zeta. unfold generateLabels, SettingsManager.getSettings. simpl.
  intros Ht.
  assert (Htm : (TemplateManager.getTemplate te
                   (to_string NumberToString
                      (activeTemplateId settings
                         (SettingsManager.settings
                            (SettingsManager.ensureInitialized se (settingsManager g)))))
                   (templateManager g)).2
                = TemplateManager.ensureInitialized te (templateManager g)).
  { unfold TemplateManager.getTemplate. cbv zeta.
    destruct (member_truthy (TemplateManager.builtIn_member _ _)); [done|].
    by destruct (member_truthy (TemplateManager.user_member _ _)). }
  destruct (TemplateManager.getTemplate te _ (templateManager g)) as [found tm].
  simpl in Ht, Htm. by subst.
Qed.

(** X30.  When the content inclusion in force has [barcode] set to
    [false], no page that [renderLabel] draws holds a PNG image: the
    barcode is left out. *)
Theorem excluded_barcode_is_not_drawn i template productData barcodeDataURL config
    drawn loads :
  get_opt (prop config "contentInclusion" ||| prop template "contentInclusion"
           ||| VObject ∅) "barcode" = VBool false →
  renderLabel StringToNumber NumberToString getTextWidth loadImage i template
    productData barcodeDataURL config = Return (drawn, loads) →
  ∀ imageData x y w h, addImage imageData "PNG" x y w h ∉ drawn.
Proof.
  intros Hex H imageData x y w h Hin. unfold renderLabel in H. cbv zeta in H.
  rewrite Hex in H.
  change (not_false (VBool false)) with false in H.
  destruct (get (prop template "elements") "barcode"); run H; [|discriminate].
  rewrite andb_false_r in H.
  destruct (get (prop template "elements") "fnsku"); run H; [|discriminate].
  destruct (get (prop template "elements") "sku"); run H; [|discriminate].
  destruct (get (prop template "elements") "title"); run H; [|discriminate].
  destruct (get (prop template "elements") "condition"); run H; [|discriminate].
  destruct (get (prop template "elements") "image"); run H; [|discriminate].
  match type of H with (if ?c then _ else _) = _ => destruct c end;
    [destruct (loadImage _ _)|]; run H; injection H as <- <-;
    repeat match goal with
      | H : _ ∈ (if ?c then _ else _) |- _ => destruct c
      | H : _ ∈ _ ++ _ |- _ => apply elem_of_app in H as [H|H]
      | H : _ ∈ renderText _ _ _ _ |- _ =>
          by destruct (renderText_no_image _ _ _ _ _ _ _ _ _ _ H)
      | H : _ ∈ [] |- _ => by apply elem_of_nil in H
      | H : _ ∈ [_] |- _ => apply list_elem_of_singleton in H; by injection H
      end.
Qed.
End GeneratorFacts.

(** *** Examples for the generator *)

(** An encoder that rejects every input. *)
Definition rejectingBarcode (data : string) (barcodeFormat : value) : encoded :=
  EncodingError "invalid input".

Lemma example_template_found :
  (TemplateManager.getTemplate TemplateManager.example_env
     (to_string printInteger
        (activeTemplateId {[ "templateId" := VString "thermal_57x32" ]}
           (SettingsManager.getSettings SettingsManager.example_env
              (settingsManager example_generator)).1))
     (templateManager example_generator)).1
  = Some TemplateManager.thermal_57x32.
Proof. reflexivity. Qed.

Lemma pages_are_copies_witness :
  ∃ doc drawn,
    completion (example_generateLabels example_record (inject_Z 2)) = Return doc
    ∧ pages doc = replicate (Nat.max 1 (iterations (inject_Z 2))) drawn.
Proof.
  destruct (generateLabels_returns decimalToNumber printInteger exampleTextWidth
              exampleBarcode exampleLoadImage TemplateManager.example_env
              SettingsManager.example_env example_record (inject_Z 2)
              {[ "templateId" := VString "thermal_57x32" ]} example_generator
              "X001ABCDEF" TemplateManager.thermal_57x32
              "data:image/png;base64,X001ABCDEF" eq_refl ltac:(discriminate)
              example_reachable eq_refl eq_refl eq_refl)
    as (doc & Hc & _).
  destruct (pages_are_copies decimalToNumber printInteger exampleTextWidth
              exampleBarcode exampleLoadImage TemplateManager.example_env
              SettingsManager.example_env example_record (inject_Z 2)
              {[ "templateId" := VString "thermal_57x32" ]} example_generator doc
              (fun i j imageUrl => eq_refl) Hc)
    as [drawn Hp].
  exists doc, drawn. split; [exact Hc|exact Hp].
Defined.

Lemma encoder_called_with_chosen_format_witness :
  completion
    (generateLabels decimalToNumber printInteger exampleTextWidth rejectingBarcode
       exampleLoadImage TemplateManager.example_env SettingsManager.example_env
       example_record 1 {[ "templateId" := VString "thermal_57x32" ]} example_generator)
  = Throw (Error ("Failed to generate barcode: " +:+ "invalid input")).
Proof.
  destruct (encoder_called_with_chosen_format decimalToNumber printInteger
              exampleTextWidth rejectingBarcode exampleLoadImage
              TemplateManager.example_env SettingsManager.example_env example_record 1
              {[ "templateId" := VString "thermal_57x32" ]} example_generator
              "X001ABCDEF" TemplateManager.thermal_57x32 eq_refl
              ltac:(discriminate) example_template_found)
    as (_ & _ & Hfail).
  exact (proj1 (Hfail "invalid input" eq_refl)).
Defined.

Lemma unknown_template_throws_witness :
  completion
    (generateLabels decimalToNumber printInteger exampleTextWidth exampleBarcode
       exampleLoadImage TemplateManager.example_env SettingsManager.example_env
       example_record 1 {[ "templateId" := VString "thermal_100x50" ]} example_generator)
  = Throw (Error ("Template not found: "
                  +:+ to_string printInteger
                        (activeTemplateId {[ "templateId" := VString "thermal_100x50" ]}
                           (SettingsManager.getSettings SettingsManager.example_env
                              (settingsManager example_generator)).1))).
Proof.
  assert (Hn : (TemplateManager.getTemplate TemplateManager.example_env
                  (to_string printInteger
                     (activeTemplateId {[ "templateId" := VString "thermal_100x50" ]}
                        (SettingsManager.getSettings SettingsManager.example_env
                           (settingsManager example_generator)).1))
                  (templateManager example_generator)).1 = None)
    by (vm_compute; reflexivity).
  exact (proj1 (unknown_template_throws decimalToNumber printInteger exampleTextWidth
                  exampleBarcode exampleLoadImage TemplateManager.example_env
                  SettingsManager.example_env example_record 1
                  {[ "templateId" := VString "thermal_100x50" ]} example_generator Hn)).
Defined.

Lemma truncateText_limit_witness :
  is_ascii "Stainless steel water bottle" = true
  ∧ (Z.abs 10 <= 2 ^ 53)%Z
  ∧ truncateText decimalToNumber "Stainless steel water bottle" (num 10) = "Stainle...".
Proof.
  assert (Ha : is_ascii "Stainless steel water bottle" = true) by (vm_compute; reflexivity).
  assert (Hl : (Z.abs 10 <= 2 ^ 53)%Z) by (vm_compute; discriminate).
  split; [exact Ha|]. split; [exact Hl|].
  destruct (truncateText_limit decimalToNumber "Stainless steel water bottle" 10 Ha Hl)
    as (_ & Hcut & _).
  destruct Hcut as [Hcut _]; [vm_compute; reflexivity|vm_compute; discriminate|].
  rewrite Hcut. vm_compute. reflexivity.
Defined.

(** A configuration that leaves the barcode out. *)
Definition without_barcode : obj :=
  {[ "contentInclusion" := object [("barcode", VBool false); ("fnsku", VBool true)] ]}.

Lemma excluded_barcode_is_not_drawn_witness :
  ∃ drawn loads,
    renderLabel decimalToNumber printInteger exampleTextWidth exampleLoadImage 0
      TemplateManager.thermal_57x32 example_record "data:image/png;base64,X001ABCDEF"
      without_barcode = Return (drawn, loads)
    ∧ ∀ imageData x y w h, addImage imageData "PNG" x y w h ∉ drawn.
Proof.
  destruct (renderLabel_returns decimalToNumber printInteger exampleTextWidth
              exampleLoadImage 0 TemplateManager.thermal_57x32 example_record
              "data:image/png;base64,X001ABCDEF" without_barcode eq_refl)
    as (drawn & loads & Hr).
  exists drawn, loads. split; [exact Hr|].
  assert (Hex : get_opt (prop without_barcode "contentInclusion"
                         ||| prop TemplateManager.thermal_57x32 "contentInclusion"
                         ||| VObject ∅) "barcode" = VBool false)
    by (vm_compute; reflexivity).
  exact (excluded_barcode_is_not_drawn decimalToNumber printInteger exampleTextWidth
           exampleLoadImage 0 TemplateManager.thermal_57x32 example_record
           "data:image/png;base64,X001ABCDEF" without_barcode drawn loads Hex Hr).
Defined.

End PDFLabelGenerator.
